(** * python-genai: transport core, payload transformers and live input encoder

    A shallow embedding of the parts of [google/genai/_api_client.py],
    [google/genai/_transformers.py] and [google/genai/live.py] that the
    specification talks about, followed by the properties proved of them.

    Conventions.
    - Python [str] is [string]; [bytes] is [list byte]; [int] is [Z];
      [float] is IEEE 754 binary64, as the standard library's [SpecFloat]
      defines its arithmetic.  The seconds of the poller are exact rationals
      [Q]: its constants and every delay it computes are binary floats that
      the products by 1.5 below the cap of 20 represent exactly.
    - A [dict] with string keys is a [gmap string _] where only lookups
      matter and an association list inside JSON values.
    - A function that can raise returns [result]; a loop that the source
      writes as [while] runs on fuel and answers [None] when the fuel is
      spent before the loop has left. *)

From Stdlib Require Import ZArith QArith Qminmax List String Ascii Lia Bool.
From Stdlib.Strings Require Import Byte.
From Stdlib.Floats Require Import SpecFloat.
From stdpp Require Import base option gmap strings list.

Local Open Scope string_scope.
Local Open Scope Z_scope.

(** ** Python values and exceptions *)

(** The pydantic models of [types.py] that the modelled code tests for with
    [isinstance]. *)
Inductive pyclass : Type :=
| Blob
| Part
| FileData
| File
| Content
| FunctionResponse
| LiveClientRealtimeInput
| LiveClientContent
| LiveClientToolResponse.

(** Python values: [None], booleans, integers, strings, bytes, lists,
    string-keyed dicts (kept in insertion order) and instances of the
    pydantic models, an instance being its class and its fields.  Decoded
    JSON uses the first seven shapes without bytes. *)
#[warnings="-register-all"]
Inductive pyval : Type :=
| PNone
| PBool (b : bool)
| PInt (n : Z)
| PStr (s : string)
| PBytes (b : list byte)
| PList (l : list pyval)
| PDict (d : list (string * pyval))
| PObj (cls : pyclass) (fields : list (string * pyval)).

(** The exceptions raised by the modelled code.  Messages that the source
    builds from non-string data keep that data as arguments. *)
Inductive exn : Type :=
| ValueError (msg : string)
| RuntimeError (msg : string)
| TypeError (msg : string)
| KeyError (key : string)
| JSONDecodeError (doc : string)
| UnicodeDecodeError
| APIError (code : Z)
| ValidationError (msg : string)
| AttributeError (attr : string)
| IndexError
| OverflowError (msg : string)
| UnsupportedInput (input : pyval)
| OperationTimedOut (name : pyval) (operation : list (string * pyval))
| OperationFailed (name : pyval) (error : pyval) (operation : list (string * pyval)).

Inductive result (A : Type) : Type :=
| Ok (a : A)
| Raise (e : exn).
Arguments Ok {A} a.
Arguments Raise {A} e.

Definition bind {A B} (r : result A) (k : A -> result B) : result B :=
  match r with
  | Ok a => k a
  | Raise e => Raise e
  end.

Notation "'let*' x ':=' r 'in' k" := (bind r (fun x => k))
  (at level 10, x name, r at level 100, k at level 200).

(** Truth value testing, [bool(v)]. *)
Definition truthy_str (s : string) : bool :=
  match s with
  | EmptyString => false
  | String _ _ => true
  end.

Definition truthy_opt_str (o : option string) : bool :=
  match o with
  | Some s => truthy_str s
  | None => false
  end.

Definition truthy_opt_int (o : option Z) : bool :=
  match o with
  | Some n => negb (n =? 0)
  | None => false
  end.

Definition truthy (v : pyval) : bool :=
  match v with
  | PNone => false
  | PBool b => b
  | PInt n => negb (n =? 0)
  | PStr s => truthy_str s
  | PBytes b => match b with [] => false | _ :: _ => true end
  | PList l => match l with [] => false | _ :: _ => true end
  | PDict d => match d with [] => false | _ :: _ => true end
  | PObj _ _ => true
  end.

(** [d.get(k)]: the value of the first binding of [k], [None] (here [PNone])
    when there is none. *)
Fixpoint dict_lookup (d : list (string * pyval)) (k : string) : option pyval :=
  match d with
  | [] => None
  | (k', v) :: d' => if String.eqb k' k then Some v else dict_lookup d' k
  end.

Definition dict_get (d : list (string * pyval)) (k : string) : pyval :=
  match dict_lookup d k with
  | Some v => v
  | None => PNone
  end.

(** [k in d]. *)
Definition dict_has (d : list (string * pyval)) (k : string) : bool :=
  match dict_lookup d k with
  | Some _ => true
  | None => false
  end.

(** [needle in hay] on strings: [needle] occurs as a contiguous run. *)
Fixpoint str_in (needle hay : string) : bool :=
  String.prefix needle hay ||
  match hay with
  | EmptyString => false
  | String _ hay' => str_in needle hay'
  end.

(** [hay.count(needle)]-like count that also sees overlapping occurrences. *)
Fixpoint occurrences (needle hay : string) : nat :=
  ((if String.prefix needle hay then 1 else 0) +
   match hay with
   | EmptyString => 0
   | String _ hay' => occurrences needle hay'
   end)%nat.

(** [v == True]: Python compares [True] equal to the integer one. *)
Definition eq_True (v : pyval) : bool :=
  match v with
  | PBool b => b
  | PInt n => n =? 1
  | _ => false
  end.

(** ** Python numbers *)

(** A [float] is an IEEE 754 binary64 number: 53 bits of mantissa, and
    infinities at the exponent 1024. *)
Definition float : Type := spec_float.
Definition float_prec : Z := 53.
Definition float_emax : Z := 1024.

(** [x / y] on floats, for a divisor that is not zero (Python raises
    [ZeroDivisionError] for one that is). *)
Definition float_div (x y : float) : float := SFdiv float_prec float_emax x y.

(** The conversion of an [int] operand of a float operation: the nearest
    float, ties to even, and [OverflowError] when that is beyond the largest
    finite float. *)
Definition float_of_int (n : Z) : result float :=
  match binary_normalize float_prec float_emax n 0 false with
  | S754_infinity _ =>
      Raise (OverflowError "int too large to convert to float")
  | x => Ok x
  end.

(** The values the annotation [Union[float, int]] admits. *)
Inductive number : Type :=
| NInt (n : Z)
| NFloat (x : float).

(** [bool(v)] for a number: [v != 0]; a NaN is true. *)
Definition truthy_number (v : number) : bool :=
  match v with
  | NInt n => negb (n =? 0)
  | NFloat x => negb (SFeqb x (S754_zero false))
  end.

(** [1000.0] *)
Definition THOUSAND : float := S754_finite false 8796093022208000 (-43).

(** ** [_api_client.py]: timeouts *)

(** [_get_timeout_in_seconds]: [HttpOptions.timeout] is in milliseconds, the
    transport expects seconds.  The division is the one of floats: an [int]
    is converted first. *)
Definition _get_timeout_in_seconds (timeout : option number)
  : result (option float) :=
  match timeout with
  | Some t =>
      if truthy_number t then
        let* x := match t with
                  | NInt n => float_of_int n
                  | NFloat x => Ok x
                  end in
        Ok (Some (float_div x THOUSAND))
      else Ok None
  | None => Ok None
  end.

(** ** [_transformers.py]: the long-running-operation poller *)

Definition LRO_POLLING_INITIAL_DELAY_SECONDS : Q := 1.
Definition LRO_POLLING_MAXIMUM_DELAY_SECONDS : Q := 20.
Definition LRO_POLLING_TIMEOUT_SECONDS : Q := 900.
Definition LRO_POLLING_MULTIPLIER : Q := 3 # 2.

(** What [api_client.request(http_method='GET', path=name, request_dict={})]
    answers on its [i]-th call: the backend is an oracle. *)
Definition backend : Type := nat -> pyval -> result (list (string * pyval)).

(** The local variables of the polling loop, with the number of polls made
    and the seconds spent in [time.sleep] so far. *)
Record poll_state : Type := {
  operation : list (string * pyval);
  total_seconds : Q;
  delay_seconds : Q;
  polls : nat;
  slept : Q
}.

Inductive poll_step_result : Type :=
| Polling (st : poll_state)
| LoopExit (st : poll_state)
| LoopRaise (e : exn).

(** One evaluation of the [while] condition and, when it holds, of the loop
    body. *)
Definition poll_step (request : backend) (name : pyval) (st : poll_state)
  : poll_step_result :=
  if negb (eq_True (dict_get (operation st) "done")) then
    if Qlt_le_dec LRO_POLLING_TIMEOUT_SECONDS (total_seconds st) then
      LoopRaise (OperationTimedOut name (operation st))
    else
      match request (polls st) name with
      | Raise e => LoopRaise e
      | Ok operation' =>
          Polling {|
            operation := operation';
            total_seconds := (total_seconds st + total_seconds st)%Q;
            delay_seconds :=
              Qmin (delay_seconds st * LRO_POLLING_MULTIPLIER)%Q
                   LRO_POLLING_MAXIMUM_DELAY_SECONDS;
            polls := S (polls st);
            slept := (slept st + delay_seconds st)%Q
          |}
      end
  else LoopExit st.

Fixpoint poll_loop (fuel : nat) (request : backend) (name : pyval)
  (st : poll_state) : option (result poll_state) :=
  match fuel with
  | O => None
  | S fuel' =>
      match poll_step request name st with
      | Polling st' => poll_loop fuel' request name st'
      | LoopExit st' => Some (Ok st')
      | LoopRaise e => Some (Raise e)
      end
  end.

(** The state after [n] iterations, as long as the loop keeps polling. *)
Fixpoint poll_iter (n : nat) (request : backend) (name : pyval)
  (st : poll_state) : option poll_state :=
  match n with
  | O => Some st
  | S n' =>
      match poll_step request name st with
      | Polling st' => poll_iter n' request name st'
      | _ => None
      end
  end.

(** ['/operations/' in name] for whatever [struct.get('name')] holds: a
    substring test on a string, an element test on a list, a key test on a
    dict, and a [TypeError] on anything else. *)
Definition operations_marker : string := "/operations/".

Definition marker_in (name : pyval) : result bool :=
  match name with
  | PStr s => Ok (str_in operations_marker s)
  | PList l =>
      Ok (existsb (fun x => match x with
                            | PStr s => String.eqb s operations_marker
                            | _ => false
                            end) l)
  | PDict d => Ok (dict_has d operations_marker)
  | PBytes _ => Raise (TypeError "a bytes-like object is required, not 'str'")
  | PNone | PBool _ | PInt _ | PObj _ _ =>
      Raise (TypeError "argument is not iterable")
  end.

Definition poll_init (struct : list (string * pyval)) : poll_state :=
  {| operation := struct; total_seconds := 0;
     delay_seconds := LRO_POLLING_INITIAL_DELAY_SECONDS;
     polls := 0; slept := 0 |}.

(** [t_resolve_operation]. *)
Definition t_resolve_operation (fuel : nat) (request : backend)
  (struct : list (string * pyval)) : option (result pyval) :=
  let name := dict_get struct "name" in
  match (if truthy name then marker_in name else Ok false) with
  | Raise e => Some (Raise e)
  | Ok true =>
      match poll_loop fuel request name (poll_init struct) with
      | None => None
      | Some (Raise e) => Some (Raise e)
      | Some (Ok st) =>
          let error := dict_get (operation st) "error" in
          if truthy error then
            Some (Raise (OperationFailed name error (operation st)))
          else Some (Ok (dict_get (operation st) "response"))
      end
  | Ok false => Some (Ok (PDict struct))
  end.

(** ** [_api_client.py]: transport options *)

(** [types.HttpOptions]: the four option fields, each optional. *)
Record HttpOptions : Type := {
  base_url : option string;
  api_version : option string;
  headers : option (gmap string string);
  timeout : option Z
}.

(** [HttpOptions()] *)
Definition HttpOptions_default : HttpOptions :=
  {| base_url := None; api_version := None; headers := None; timeout := None |}.

(** What the module reads from its surroundings: the package version
    ([version.__version__]), the interpreter version
    ([sys.version.split()[0]]), the pydantic validator
    [HttpOptions.model_validate] (it answers the validated options or the text
    of the validation error) and the standard library's URL splitting;
    [urlparse] raises [ValueError] for a network location with an unbalanced
    bracket. *)
Record ParseResult : Type := {
  scheme : string;
  netloc : string;
  url_path : string;
  params : string;
  query : string;
  fragment : string
}.

Class Runtime : Type := {
  sdk_version : string;
  python_version : string;
  model_validate : list (string * pyval) -> HttpOptions + string;
  urlparse : string -> result ParseResult;
  urlunparse : ParseResult -> string
}.

Section ApiClient.
Context {rt : Runtime}.

Definition library_label : string := "google-genai-sdk/" +:+ sdk_version.
Definition language_label : string := "gl-python/" +:+ python_version.
Definition version_header_value : string :=
  library_label +:+ " " +:+ language_label.

(** The treatment of one identification header by
    [_append_library_version_headers]. *)
Definition append_version_header (key : string) (headers : gmap string string)
  : gmap string string :=
  match headers !! key with
  | Some v =>
      if negb (str_in version_header_value v) then
        <[key := v +:+ " " +:+ version_header_value]> headers
      else headers
  | None => <[key := version_header_value]> headers
  end.

Definition _append_library_version_headers (headers : gmap string string)
  : gmap string string :=
  append_version_header "x-goog-api-client"
    (append_version_header "user-agent" headers).

(** [{**a, **b}]: the bindings of [b] win. *)
Definition dict_merge (a b : gmap string string) : gmap string string := b ∪ a.

(** [x if x is not None else y] *)
Definition if_not_None {A} (x y : option A) : option A :=
  match x with
  | Some v => Some v
  | None => y
  end.

(** [h or {}] *)
Definition or_empty (h : option (gmap string string)) : gmap string string :=
  match h with
  | Some m => m
  | None => ∅
  end.

Definition _patch_http_options (options patch_options : HttpOptions)
  : HttpOptions :=
  let options_headers := or_empty (headers options) in
  let patch_options_headers := or_empty (headers patch_options) in
  let merged := dict_merge options_headers patch_options_headers in
  {| base_url := if_not_None (base_url patch_options) (base_url options);
     api_version := if_not_None (api_version patch_options) (api_version options);
     headers := Some (_append_library_version_headers merged);
     timeout := if_not_None (timeout patch_options) (timeout options) |}.

(** [_join_url_path] *)
Definition strip_trailing_slash (s : string) : string :=
  match String.rev s with
  | String "/" r => String.rev r
  | _ => s
  end.

Definition strip_leading_slash (s : string) : string :=
  match s with
  | String "/" r => r
  | _ => s
  end.

Definition _join_url_path (base_url path : string) : result string :=
  let* parsed_base := urlparse base_url in
  let base_path := strip_trailing_slash (url_path parsed_base) in
  let path := strip_leading_slash path in
  Ok (urlunparse
        {| scheme := scheme parsed_base; netloc := netloc parsed_base;
           url_path := base_path +:+ "/" +:+ path;
           params := params parsed_base; query := query parsed_base;
           fragment := fragment parsed_base |}).

(** ** [_api_client.py]: client construction *)

(** A [google.auth] credentials object, as far as the client looks at it. *)
Record Credentials : Type := {
  token : option string;
  expired : bool;
  quota_project_id : option string
}.

(** [http_options] arrives as an [HttpOptions] object or as a plain dict. *)
Inductive HttpOptionsOrDict : Type :=
| AsOptions (o : HttpOptions)
| AsDict (d : list (string * pyval)).

Definition truthy_http_options (o : option HttpOptionsOrDict) : bool :=
  match o with
  | Some (AsOptions _) => true
  | Some (AsDict d) => match d with [] => false | _ :: _ => true end
  | None => false
  end.

Record BaseApiClient : Type := {
  vertexai : option bool;
  modelgarden : option bool;
  project : option string;
  location : option string;
  api_key : option string;
  _credentials : option Credentials;
  _http_options : HttpOptions
}.

(** The surroundings of a construction: [os.environ] and what
    [google.auth.default] answers. *)
Record Ambient : Type := {
  environ : gmap string string;
  auth_default : result (Credentials * option string)
}.

Definition lower_ascii (c : ascii) : ascii :=
  let n := nat_of_ascii c in
  if ((65 <=? n) && (n <=? 90))%nat then ascii_of_nat (n + 32) else c.

Fixpoint lower (s : string) : string :=
  match s with
  | EmptyString => EmptyString
  | String c r => String (lower_ascii c) (lower r)
  end.

(** [os.environ.get(name, '0').lower() in ['true', '1']] *)
Definition env_flag (amb : Ambient) (name : string) : bool :=
  let v := lower (default "0" (environ amb !! name)) in
  String.eqb v "true" || String.eqb v "1".

Definition truthy_opt_bool (o : option bool) : bool :=
  match o with
  | Some b => b
  | None => false
  end.

(** [a or b] on optional strings. *)
Definition or_str (a b : option string) : option string :=
  if truthy_opt_str a then a else b.

(** [_load_auth] *)
Definition _load_auth (amb : Ambient) (project : option string)
  : result (Credentials * option string) :=
  let* loaded := auth_default amb in
  let project := if negb (truthy_opt_str project) then snd loaded else project in
  if negb (truthy_opt_str project) then
    Raise (ValueError
      "Could not resolve project using application default credentials.")
  else Ok (fst loaded, project).

Definition MUTEX_PROJECT_API_KEY : string :=
  "Project/location and API key are mutually exclusive in the client initializer.".
Definition MUTEX_CREDENTIALS_API_KEY : string :=
  "Credentials and API key are mutually exclusive in the client initializer.".

(** [BaseApiClient.__init__].  Logging and the creation of the lock and of
    the two httpx clients leave no trace in the fields modelled. *)
Definition BaseApiClient__init__ (amb : Ambient)
  (vertexai_arg modelgarden_arg : option bool) (api_key_arg : option string)
  (credentials : option Credentials) (project_arg location_arg : option string)
  (http_options : option HttpOptionsOrDict) : result BaseApiClient :=
  let vertexai0 :=
    match vertexai_arg with
    | None => if env_flag amb "GOOGLE_GENAI_USE_VERTEXAI" then Some true else None
    | Some b => Some b
    end in
  let modelgarden0 :=
    match modelgarden_arg with
    | None => if env_flag amb "GOOGLE_GENAI_USE_MODELGARDEN" then Some true else None
    | Some b => Some b
    end in
  let vertexai1 := if truthy_opt_bool modelgarden0 then Some true else vertexai0 in
  if (truthy_opt_str project_arg || truthy_opt_str location_arg)
     && truthy_opt_str api_key_arg then
    Raise (ValueError MUTEX_PROJECT_API_KEY)
  else if (match credentials with Some _ => true | None => false end)
          && truthy_opt_str api_key_arg then
    Raise (ValueError MUTEX_CREDENTIALS_API_KEY)
  else
  let* validated_http_options :=
    match http_options with
    | Some (AsDict d) =>
        match model_validate d with
        | inl o => Ok o
        | inr e => Raise (ValueError ("Invalid http_options: " +:+ e))
        end
    | Some (AsOptions o) => Ok o
    | None => Ok HttpOptions_default
    end in
  let env_project := environ amb !! "GOOGLE_CLOUD_PROJECT" in
  let env_location := environ amb !! "GOOGLE_CLOUD_LOCATION" in
  let env_api_key := environ amb !! "GOOGLE_API_KEY" in
  let project0 := or_str project_arg env_project in
  let location0 := or_str location_arg env_location in
  let api_key0 := or_str api_key_arg env_api_key in
  let* fields :=
    if truthy_opt_bool vertexai1 then
      let '(project1, location1, api_key1) :=
        if (match credentials with Some _ => true | None => false end) then
          (project0, location0, None)
        else if (truthy_opt_str env_location || truthy_opt_str env_project)
                && truthy_opt_str api_key_arg then
          (None, None, api_key0)
        else if (truthy_opt_str project_arg || truthy_opt_str location_arg)
                && truthy_opt_str env_api_key then
          (project0, location0, None)
        else if (truthy_opt_str env_location || truthy_opt_str env_project)
                && truthy_opt_str env_api_key then
          (project0, location0, None)
        else (project0, location0, api_key0) in
      let* loaded :=
        if negb (truthy_opt_str project1) && negb (truthy_opt_str api_key1) then
          let* cp := _load_auth amb None in
          Ok (snd cp,
              match credentials with Some c => Some c | None => Some (fst cp) end)
        else Ok (project1, credentials) in
      let project2 := fst loaded in
      let credentials2 := snd loaded in
      if negb ((truthy_opt_str project2 && truthy_opt_str location1)
               || truthy_opt_str api_key1) then
        Raise (ValueError
          "Project and location or API key must be set when using the Vertex AI API.")
      else
      let url :=
        if truthy_opt_str api_key1
           || match location1 with Some l => String.eqb l "global" | None => false end
        then "https://aiplatform.googleapis.com/"
        else "https://" +:+ default "None" location1
               +:+ "-aiplatform.googleapis.com/" in
      if truthy_opt_bool modelgarden0 then
        if negb (truthy_opt_str project2 && truthy_opt_str location1) then
          Raise (ValueError
            "Project and location must be set when using ModelGarden models.")
        else Ok (project2, location1, api_key1, credentials2, url, "v1")
      else Ok (project2, location1, api_key1, credentials2, url, "v1beta1")
    else
      if negb (truthy_opt_str api_key0) then
        Raise (ValueError
          ("Missing key inputs argument! To use the Google AI API,"
           +:+ "provide (`api_key`) arguments. To use the Google Cloud API,"
           +:+ " provide (`vertexai`, `project` & `location`) arguments."))
      else Ok (project0, location0, api_key0, credentials,
               "https://generativelanguage.googleapis.com/", "v1beta") in
  let '(project3, location3, api_key3, credentials3, url, ver) := fields in
  let headers0 : gmap string string := {[ "Content-Type" := "application/json" ]} in
  let headers1 :=
    match api_key3 with
    | Some k => if truthy_str k then <["x-goog-api-key" := k]> headers0 else headers0
    | None => headers0
    end in
  let options0 :=
    {| base_url := Some url; api_version := Some ver;
       headers := Some headers1; timeout := None |} in
  let options1 :=
    if truthy_http_options http_options then
      _patch_http_options options0 validated_http_options
    else
      {| base_url := Some url; api_version := Some ver;
         headers := Some (_append_library_version_headers headers1);
         timeout := None |} in
  Ok {| vertexai := vertexai1; modelgarden := modelgarden0;
        project := project3; location := location3; api_key := api_key3;
        _credentials := credentials3; _http_options := options1 |}.

(** ** [_api_client.py]: building a request *)

Record HttpRequest : Type := {
  req_headers : gmap string string;
  req_url : string;
  req_method : string;
  req_data : pyval;
  req_timeout : option float
}.

(** [str(x)] inside an f-string for an optional string. *)
Definition fmt (o : option string) : string := default "None" o.

Definition _build_request (self : BaseApiClient) (http_method path : string)
  (request_dict : list (string * pyval))
  (http_options : option HttpOptionsOrDict) : result HttpRequest :=
  let request_dict :=
    List.filter (fun kv => negb (String.prefix "_" (fst kv))) request_dict in
  let* patched_http_options :=
    if truthy_http_options http_options then
      match http_options with
      | Some (AsOptions o) => Ok (_patch_http_options (_http_options self) o)
      | Some (AsDict d) =>
          match model_validate d with
          | inl o => Ok (_patch_http_options (_http_options self) o)
          | inr e => Raise (ValidationError e)
          end
      | None => Ok (_http_options self)
      end
    else Ok (_http_options self) in
  let query_vertex_base_models :=
    truthy_opt_bool (vertexai self) && String.eqb http_method "get"
    && String.prefix "publishers/google/models" path in
  let path :=
    if truthy_opt_bool (vertexai self) && negb (String.prefix "projects/" path)
       && negb query_vertex_base_models && negb (truthy_opt_str (api_key self))
    then "projects/" +:+ fmt (project self) +:+ "/locations/"
           +:+ fmt (location self) +:+ "/" +:+ path
    else path in
  let versioned_path :=
    match api_version patched_http_options with
    | None => "/" +:+ path
    | Some v => v +:+ "/" +:+ path
    end in
  if negb (truthy_opt_str (base_url patched_http_options)) then
    Raise (ValueError "Base URL must be set.")
  else
    let* url := _join_url_path
                  (default EmptyString (base_url patched_http_options))
                  versioned_path in
    let* timeout_in_seconds :=
      _get_timeout_in_seconds (option_map NInt (timeout patched_http_options)) in
    match headers patched_http_options with
    | None => Raise (ValueError "Request headers must be set.")
    | Some h =>
        Ok {| req_headers := h; req_url := url; req_method := http_method;
              req_data := PDict request_dict; req_timeout := timeout_in_seconds |}
    end.

(** ** [_api_client.py]: responses and streamed segments *)

(** A line handed out by [iter_lines]: text, or bytes still to be decoded. *)
Inductive line : Type :=
| LineStr (s : string)
| LineBytes (b : list byte).

(** [response_stream]: a list of texts (replay, or a buffered call), nothing,
    or a live response read line by line. *)
Inductive response_stream : Type :=
| StreamList (chunks : list string)
| StreamNone
| StreamLines (lines : list line).

Record HttpResponse : Type := {
  status_code : Z;
  http_headers : gmap string string;
  stream : response_stream;
  byte_stream : option (list (list byte))
}.

End ApiClient.

Section Streaming.
(** The standard library's [json.loads] and [bytes.decode('utf-8')]. *)
Variable json_loads : string -> result pyval.
Variable utf8_decode : list byte -> result string.

Fixpoint str_drop (n : nat) (s : string) : string :=
  match n, s with
  | O, _ => s
  | S n', String _ r => str_drop n' r
  | S _, EmptyString => EmptyString
  end.

Definition DATA_PREFIX : string := "data: ".

(** What a generator hands out before it ends or raises: the values yielded,
    in order, and the exception that ended it, if any. *)
Definition yielded : Type := (list pyval * option exn)%type.

Definition yield_then (v : pyval) (rest : yielded) : yielded :=
  (v :: fst rest, snd rest).

(** The body of the loop over [iter_lines()] for one line: skipped ([Ok
    None]), decoded to a value, or failing. *)
Definition decode_line (chunk : line) : result (option pyval) :=
  let nonempty :=
    match chunk with
    | LineStr s => truthy_str s
    | LineBytes b => match b with [] => false | _ :: _ => true end
    end in
  if nonempty then
    let* chunk :=
      match chunk with
      | LineStr s => Ok s
      | LineBytes b => utf8_decode b
      end in
    let chunk :=
      if String.prefix DATA_PREFIX chunk
      then str_drop (String.length DATA_PREFIX) chunk else chunk in
    let* v := json_loads chunk in
    Ok (Some v)
  else Ok None.

Fixpoint segments_lines (lines : list line) : yielded :=
  match lines with
  | [] => ([], None)
  | chunk :: rest =>
      match decode_line chunk with
      | Raise e => ([], Some e)
      | Ok None => segments_lines rest
      | Ok (Some v) => yield_then v (segments_lines rest)
      end
  end.

Fixpoint segments_list (chunks : list string) : yielded :=
  match chunks with
  | [] => ([], None)
  | chunk :: rest =>
      match (if truthy_str chunk then json_loads chunk else Ok (PDict [])) with
      | Raise e => ([], Some e)
      | Ok v => yield_then v (segments_list rest)
      end
  end.

(** [HttpResponse.segments] *)
Definition segments (response_stream : response_stream) : yielded :=
  match response_stream with
  | StreamList chunks => segments_list chunks
  | StreamNone => ([], None)
  | StreamLines lines => segments_lines lines
  end.

End Streaming.

(** ** [_api_client.py]: chunked upload *)

Definition CHUNK_SIZE : Z := 8 * 1024 * 1024.

(** One POST of the upload loop and the answer to it, reduced to what the
    loop reads: the [x-goog-upload-status] header, [None] when the answer
    has none, the other headers and the text. *)
Record UploadRequest : Type := {
  upload_url : string;
  upload_command : string;
  upload_offset : Z;
  content_length : Z;
  content : list byte;
  upload_timeout : option float
}.

Record UploadAnswer : Type := {
  upload_status : option string;
  answer_headers : gmap string string;
  answer_text : string
}.

(** The server is an oracle: its answer to the [i]-th POST. *)
Definition upload_server : Type := nat -> UploadRequest -> UploadAnswer.

Section Upload.

(** The timeout of every POST: the per-call one when there is one, else the
    client's.  A dict may hold any of the values modelled under
    ['timeout']: a boolean counts as the integer it is, any other value that
    is falsy without being [None] ends as no timeout, and dividing any other
    value raises. *)
Definition upload_timeout_in_seconds (self : BaseApiClient)
  (http_options : option HttpOptionsOrDict) : result (option float) :=
  let global := timeout (_http_options self) in
  if truthy_http_options http_options then
    match http_options with
    | Some (AsDict d) =>
        match dict_get d "timeout" with
        | PNone => _get_timeout_in_seconds (option_map NInt global)
        | PInt n => _get_timeout_in_seconds (Some (NInt n))
        | PBool b => _get_timeout_in_seconds (Some (NInt (Z.b2z b)))
        | v => if truthy v
               then Raise (TypeError "unsupported operand type(s) for /")
               else Ok None
        end
    | Some (AsOptions o) =>
        _get_timeout_in_seconds
          (option_map NInt (if_not_None (timeout o) global))
    | None => _get_timeout_in_seconds (option_map NInt global)
    end
  else _get_timeout_in_seconds (option_map NInt global).

(** The loop of [_upload_fd], reading blocks of at most [block] bytes.  It
    answers the POSTs made, in order, and how the call ended. *)
Fixpoint upload_loop (block : nat) (fuel : nat) (self : BaseApiClient)
  (server : upload_server) (url : string) (upload_size : Z)
  (http_options : option HttpOptionsOrDict)
  (file : list byte) (offset : Z) (sent : list UploadRequest)
  : option (list UploadRequest * result HttpResponse) :=
  match fuel with
  | O => None
  | S fuel' =>
      let file_chunk := take block file in
      let chunk_size := Z.of_nat (length file_chunk) in
      let upload_command :=
        if upload_size <=? chunk_size + offset
        then "upload" +:+ ", finalize" else "upload" in
      match upload_timeout_in_seconds self http_options with
      | Raise e => Some (sent, Raise e)
      | Ok timeout_in_seconds =>
          let request :=
            {| upload_url := url; upload_command := upload_command;
               upload_offset := offset; content_length := chunk_size;
               content := file_chunk; upload_timeout := timeout_in_seconds |} in
          let response := server (length sent) request in
          let sent := (sent ++ [request])%list in
          let offset := offset + chunk_size in
          match upload_status response with
          | None => Some (sent, Raise (KeyError "x-goog-upload-status"))
          | Some status =>
              if negb (String.eqb status "active") then
                if negb (String.eqb status "final") then
                  Some (sent, Raise (ValueError
                    "Failed to upload file: Upload status is not finalized."))
                else
                  Some (sent, Ok {| status_code := 200;
                                    http_headers := answer_headers response;
                                    stream := StreamList [answer_text response];
                                    byte_stream := None |})
              else if upload_size <=? offset then
                Some (sent, Raise (ValueError
                  "All content has been uploaded, but the upload status is not finalized."))
              else
                upload_loop block fuel' self server url upload_size
                  http_options (drop block file) offset sent
          end
      end
  end.

(** [BaseApiClient._upload_fd] *)
Definition _upload_fd (fuel : nat) (self : BaseApiClient)
  (server : upload_server) (file : list byte) (upload_url : string)
  (upload_size : Z) (http_options : option HttpOptionsOrDict)
  : option (list UploadRequest * result HttpResponse) :=
  upload_loop (Z.to_nat CHUNK_SIZE) fuel self server upload_url upload_size
    http_options file 0 [].

End Upload.

(** ** The standard library's [base64], as [t_bytes] uses it *)

Module Base64.

Definition ALPHABET : string :=
  "ABCDEFGHIJKLMNOPQRSTUVWXYZabcdefghijklmnopqrstuvwxyz0123456789+/".

Definition PAD : ascii := "="%char.

(** The character of a six-bit group, and back. *)
Definition b64char (n : N) : ascii :=
  match String.get (N.to_nat n) ALPHABET with
  | Some c => c
  | None => PAD
  end.

Fixpoint index_from (c : ascii) (s : string) (i : N) : option N :=
  match s with
  | EmptyString => None
  | String c' r => if Ascii.eqb c c' then Some i else index_from c r (N.succ i)
  end.

Definition b64index (c : ascii) : option N := index_from c ALPHABET 0%N.

Definition chars (l : list ascii) : string := string_of_list_ascii l.

(** Three bytes make four characters; a last group of two bytes makes three
    characters and one pad, a last single byte two characters and two
    pads. *)
Definition encode3 (a b c : byte) : string :=
  let n := (Byte.to_N a * 65536 + Byte.to_N b * 256 + Byte.to_N c)%N in
  chars [b64char (n / 262144); b64char (n / 4096 mod 64);
         b64char (n / 64 mod 64); b64char (n mod 64)]%N.

Definition encode2 (a b : byte) : string :=
  let n := ((Byte.to_N a * 256 + Byte.to_N b) * 4)%N in
  chars [b64char (n / 4096); b64char (n / 64 mod 64); b64char (n mod 64); PAD]%N.

Definition encode1 (a : byte) : string :=
  let n := (Byte.to_N a * 16)%N in
  chars [b64char (n / 64); b64char (n mod 64); PAD; PAD]%N.

(** [base64.b64encode(data).decode('ascii')] *)
Fixpoint b64encode (data : list byte) : string :=
  match data with
  | [] => EmptyString
  | [a] => encode1 a
  | [a; b] => encode2 a b
  | a :: b :: c :: rest => encode3 a b c +:+ b64encode rest
  end.

Definition bytes_of (l : list N) : option (list byte) := mapM Byte.of_N l.

Definition decode4 (c1 c2 c3 c4 : ascii) : option (list byte) :=
  s1 ← b64index c1; s2 ← b64index c2; s3 ← b64index c3; s4 ← b64index c4;
  let n := (((s1 * 64 + s2) * 64 + s3) * 64 + s4)%N in
  bytes_of [n / 65536; n / 256 mod 256; n mod 256]%N.

Definition decode3 (c1 c2 c3 : ascii) : option (list byte) :=
  s1 ← b64index c1; s2 ← b64index c2; s3 ← b64index c3;
  let n := ((s1 * 64 + s2) * 64 + s3)%N in
  bytes_of [n / 1024; n / 4 mod 256]%N.

Definition decode2 (c1 c2 : ascii) : option (list byte) :=
  s1 ← b64index c1; s2 ← b64index c2;
  let n := (s1 * 64 + s2)%N in
  bytes_of [n / 16]%N.

(** A standard decoder (RFC 4648, with padding): groups of four characters
    of the alphabet, the last one possibly padded; anything else is
    refused. *)
Fixpoint b64decode (s : string) : option (list byte) :=
  match s with
  | EmptyString => Some []
  | String c1 (String c2 (String c3 (String c4 rest))) =>
      match rest with
      | EmptyString =>
          if Ascii.eqb c4 PAD then
            if Ascii.eqb c3 PAD then decode2 c1 c2 else decode3 c1 c2 c3
          else decode4 c1 c2 c3 c4
      | String _ _ =>
          x ← decode4 c1 c2 c3 c4; r ← b64decode rest; Some (x ++ r)%list
      end
  | _ => None
  end.

Fixpoint str_map (f : ascii -> ascii) (s : string) : string :=
  match s with
  | EmptyString => EmptyString
  | String c r => String (f c) (str_map f r)
  end.

(** [bytes.maketrans(b'+/', b'-_')] and its inverse. *)
Definition _urlsafe_encode_translation (c : ascii) : ascii :=
  if Ascii.eqb c "+" then "-"%char
  else if Ascii.eqb c "/" then "_"%char else c.

Definition _urlsafe_decode_translation (c : ascii) : ascii :=
  if Ascii.eqb c "-" then "+"%char
  else if Ascii.eqb c "_" then "/"%char else c.

(** [base64.urlsafe_b64encode(data).decode('ascii')] *)
Definition urlsafe_b64encode (data : list byte) : string :=
  str_map _urlsafe_encode_translation (b64encode data).

(** The URL-safe decoder: the standard one behind the inverse
    translation. *)
Definition urlsafe_b64decode (s : string) : option (list byte) :=
  b64decode (str_map _urlsafe_decode_translation s).

End Base64.

(** ** [_transformers.py]: bytes *)

(** [t_bytes]: standard base64 for Vertex AI, URL-safe base64 otherwise;
    anything that is not bytes goes through untouched. *)
Definition t_bytes (api_client : BaseApiClient) (data : pyval) : pyval :=
  match data with
  | PBytes b =>
      if truthy_opt_bool (vertexai api_client)
      then PStr (Base64.b64encode b)
      else PStr (Base64.urlsafe_b64encode b)
  | _ => data
  end.

(** ** [_transformers.py]: parts and contents *)

(** The code of this repository that [live.py] calls and that is not at
    hand, and the pydantic machinery behind [types.py]:
    - [construct C d] is [types.C] called on the unpacked dict [d] (and
      [types.C.model_validate(d)]):
      the fields of the validated instance, [None] when pydantic raises its
      [ValidationError] (a subclass of [ValueError]);
    - [model_dump C fields] is [obj.model_dump(exclude_none=True,
      mode='json')];
    - [_Content_to_mldev] and [_Content_to_vertex] are the converters of
      [models.py];
    - [is_PartUnion v] is [isinstance(v, get_args(types.PartUnion))];
    - [base64_b64decode] is the standard library's lenient decoder. *)
Class Models : Type := {
  construct : pyclass -> list (string * pyval) -> option (list (string * pyval));
  model_dump : pyclass -> list (string * pyval) -> list (string * pyval);
  _Content_to_mldev : pyval -> result (list (string * pyval));
  _Content_to_vertex : pyval -> result (list (string * pyval));
  is_PartUnion : pyval -> bool;
  base64_b64decode : list byte -> result (list byte)
}.

#[global] Instance pyclass_eq_dec : EqDecision pyclass.
Proof. solve_decision. Defined.

Definition isinstance (v : pyval) (c : pyclass) : bool :=
  match v with
  | PObj c' _ => bool_decide (c' = c)
  | _ => false
  end.

(** [obj.name] on a model instance: an unset field reads [None]. *)
Definition getattr (v : pyval) (name : string) : pyval :=
  match v with
  | PObj _ fields => dict_get fields name
  | _ => PNone
  end.

Definition is_None (v : pyval) : bool :=
  match v with
  | PNone => true
  | _ => false
  end.

(** A list comprehension whose element expression can raise. *)
Fixpoint map_result {A B} (f : A -> result B) (l : list A) : result (list B) :=
  match l with
  | [] => Ok []
  | x :: r =>
      let* y := f x in
      let* ys := map_result f r in
      Ok (y :: ys)
  end.

Section Transformers.
Context {md : Models}.

(** [t_part]; [types.Part(text=part)] on a string builds the part that
    holds this text.  [Part.from_uri] builds a part around a [FileData], as
    [test_file] expects.  Images are not among the values modelled. *)
Definition t_part (part : pyval) : result pyval :=
  if negb (truthy part) then Raise (ValueError "content part is required.")
  else
    match part with
    | PStr s => Ok (PObj Part [("text", PStr s)])
    | PObj File f =>
        if negb (truthy (dict_get f "uri")) || negb (truthy (dict_get f "mime_type"))
        then Raise (ValueError "file uri and mime_type are required.")
        else Ok (PObj Part
                   [("file_data",
                     PObj FileData [("file_uri", dict_get f "uri");
                                    ("mime_type", dict_get f "mime_type")])])
    | _ => Ok part
    end.

Definition t_parts (parts : pyval) : result (list pyval) :=
  match parts with
  | PNone => Raise (ValueError "content parts are required.")
  | PList l => map_result t_part l
  | _ => let* p := t_part parts in Ok [p]
  end.

(** [t_content]; [types.Content(role='user', parts=...)] validates what
    [t_parts] answers, which need not be parts ([test_int] expects the
    error). *)
Definition t_content (content : pyval) : result pyval :=
  if negb (truthy content) then Raise (ValueError "content is required.")
  else
    match content with
    | PObj Content _ => Ok content
    | PDict d =>
        match construct Content d with
        | Some f => Ok (PObj Content f)
        | None => Raise (ValidationError "Content")
        end
    | _ =>
        let* parts := t_parts content in
        match construct Content [("role", PStr "user"); ("parts", PList parts)] with
        | Some f => Ok (PObj Content f)
        | None => Raise (ValidationError "Content")
        end
    end.

Definition t_contents (contents : pyval) : result (list pyval) :=
  if negb (truthy contents) then Raise (ValueError "contents are required.")
  else
    match contents with
    | PList l => map_result t_content l
    | _ => let* c := t_content contents in Ok [c]
    end.

End Transformers.

(** ** [live.py]: the input encoder of a session *)

Definition _FUNCTION_RESPONSE_REQUIRES_ID : string :=
  "FunctionResponse request must have an `id` field from the"
  +:+ " response of a ToolCall.FunctionalCalls in Google AI.".

Section Live.
Context {md : Models}.

(** [isinstance(c, dict) and 'name' in c and 'response' in c] *)
Definition is_function_response_dict (c : pyval) : bool :=
  match c with
  | PDict d => dict_has d "name" && dict_has d "response"
  | _ => false
  end.

Definition is_data_dict (c : pyval) : bool :=
  match c with
  | PDict d => dict_has d "data"
  | _ => false
  end.

Definition is_str (c : pyval) : bool :=
  match c with
  | PStr _ => true
  | _ => false
  end.

(** The elements of a [Sequence]; [None] for a value that is not one. *)
Definition sequence_items (v : pyval) : option (list pyval) :=
  match v with
  | PList l => Some l
  | PBytes b => Some (map (fun x => PInt (Z.of_N (Byte.to_N x))) b)
  | PStr s => Some (map (fun c => PStr (String c EmptyString)) (list_ascii_of_string s))
  | _ => None
  end.

Definition opt_bool (o : option bool) : pyval :=
  match o with
  | Some b => PBool b
  | None => PNone
  end.

(** The [FunctionResponseDict] built from a dumped function response. *)
Definition function_response_typeddict (d : list (string * pyval)) : pyval :=
  let base := [("name", dict_get d "name"); ("response", dict_get d "response")] in
  PDict (if truthy (dict_get d "id")
         then (base ++ [("id", dict_get d "id")])%list else base).

Definition client_content_message (fields : list (string * pyval)) : pyval :=
  PDict [("client_content", PDict fields)].
Definition realtime_input_message (media_chunks : pyval) : pyval :=
  PDict [("realtime_input", PDict [("media_chunks", media_chunks)])].
Definition tool_response_message (function_responses : pyval) : pyval :=
  PDict [("tool_response", PDict [("function_responses", function_responses)])].

(** The first chain of tests: what [formatted_input] is after it. *)
Definition format_input (vertex : bool) (input : pyval) : result pyval :=
  match input with
  | PStr _ => Ok (PList [input])
  | PDict d =>
      if dict_has d "data" then
        match construct Blob d with
        | None => Raise (UnsupportedInput input)
        | Some f =>
            match dict_get f "data" with
            | PBytes _ => Ok (PList [PDict (model_dump Blob f)])
            | _ => Ok input
            end
        end
      else if dict_has d "name" && dict_has d "response" then
        if negb vertex && negb (dict_has d "id")
        then Raise (ValueError _FUNCTION_RESPONSE_REQUIRES_ID)
        else Ok (PList [input])
      else Ok input
  | PObj Blob _ => Ok (PList [input])
  | _ => Ok input
  end.

(** The loop over a sequence that holds a function-response dict. *)
Fixpoint function_responses_input (vertex : bool) (input : pyval)
  (items : list pyval) : result (list pyval) :=
  match items with
  | [] => Ok []
  | item :: rest =>
      match item with
      | PDict d =>
          match construct FunctionResponse d with
          | None => Raise (UnsupportedInput input)
          | Some f =>
              if is_None (dict_get f "id") && negb vertex
              then Raise (ValueError _FUNCTION_RESPONSE_REQUIRES_ID)
              else
                let* r := function_responses_input vertex input rest in
                Ok (function_response_typeddict (model_dump FunctionResponse f) :: r)
          end
      | _ => function_responses_input vertex input rest
      end
  end.

(** One element of [content_dict_list]. *)
Definition content_dict (input : pyval) (item : list (string * pyval))
  : result pyval :=
  match construct Content item with
  | None => Raise (UnsupportedInput input)
  | Some f =>
      match dict_lookup (model_dump Content f) "parts" with
      | None => Raise (KeyError "parts")
      | Some parts => Ok (PDict [("parts", parts); ("role", dict_get f "role")])
      end
  end.

Definition client_content_of_sequence (vertex : bool) (input : pyval)
  (end_of_turn : option bool) (items : list pyval) : result pyval :=
  let content_input_parts := List.filter is_PartUnion items in
  let* converted := t_contents (PList content_input_parts) in
  let* contents :=
    map_result (if vertex then _Content_to_vertex else _Content_to_mldev)
      converted in
  let* content_dict_list := map_result (content_dict input) contents in
  Ok (client_content_message
        [("turns", PList content_dict_list);
         ("turn_complete", opt_bool end_of_turn)]).

Definition dump_item (b : pyval) : result pyval :=
  match b with
  | PObj c f => Ok (PDict (model_dump c f))
  | _ => Raise (AttributeError "model_dump")
  end.

Definition realtime_input_of_sequence (input formatted_input : pyval)
  (items : list pyval) : result pyval :=
  if existsb is_data_dict items then Ok (realtime_input_message formatted_input)
  else if existsb (fun b => isinstance b Blob) items then
    let* dumped := map_result dump_item items in
    Ok (realtime_input_message (PList dumped))
  else Raise (UnsupportedInput input).

Definition message_of_dict (input : pyval) (d : list (string * pyval))
  : result pyval :=
  if dict_has d "content" || dict_has d "turns" then
    let content_turns :=
      if dict_has d "turns" then dict_get d "turns" else dict_get d "content" in
    Ok (client_content_message
          [("turns", content_turns); ("turn_complete", dict_get d "turn_complete")])
  else if dict_has d "media_chunks" then
    match construct LiveClientRealtimeInput d with
    | None => Raise (UnsupportedInput input)
    | Some f =>
        match dict_lookup (model_dump LiveClientRealtimeInput f) "media_chunks" with
        | None => Raise (KeyError "media_chunks")
        | Some chunks => Ok (realtime_input_message chunks)
        end
    end
  else if dict_has d "function_responses" then
    match construct LiveClientToolResponse d with
    | None => Raise (UnsupportedInput input)
    | Some f =>
        match dict_lookup (model_dump LiveClientToolResponse f) "function_responses" with
        | None => Raise (KeyError "function_responses")
        | Some frs => Ok (tool_response_message frs)
        end
    end
  else Raise (UnsupportedInput input).

(** The re-decoding of dumped media chunks whose data are still bytes. *)
Fixpoint formatted_media_chunks (input : pyval) (items : list pyval)
  : result (list pyval) :=
  match items with
  | [] => Ok []
  | item :: rest =>
      match item with
      | PDict d =>
          match construct Blob d with
          | None => Raise (UnsupportedInput input)
          | Some f =>
              match dict_get f "data" with
              | PBytes b =>
                  let* raw := base64_b64decode b in
                  let* r := formatted_media_chunks input rest in
                  Ok (PDict [("data", PBytes raw);
                             ("mime_type", dict_get f "mime_type")] :: r)
              | _ => formatted_media_chunks input rest
              end
          end
      | _ => formatted_media_chunks input rest
      end
  end.

Definition message_of_realtime_input (input : pyval)
  (fields : list (string * pyval)) : result pyval :=
  let media_chunks :=
    dict_get (model_dump LiveClientRealtimeInput fields) "media_chunks" in
  match media_chunks with
  | PNone => Ok (realtime_input_message media_chunks)
  | PList [] | PStr EmptyString | PBytes [] => Raise IndexError
  | PDict _ => Raise (KeyError "0")
  | PList (PDict d0 :: _ as items) =>
      match dict_lookup d0 "data" with
      | None => Raise (KeyError "data")
      | Some (PBytes _) =>
          let* chunks := formatted_media_chunks input items in
          Ok (realtime_input_message (PList chunks))
      | Some _ => Ok (realtime_input_message media_chunks)
      end
  | _ => Raise (TypeError "media_chunks[0]['data']")
  end.

Definition message_of_tool_response (vertex : bool)
  (fields : list (string * pyval)) : result pyval :=
  let function_responses := dict_get fields "function_responses" in
  let* missing_id :=
    if negb vertex && negb (is_None function_responses) then
      match function_responses with
      | PList [] => Raise IndexError
      | PList (PObj _ f0 :: _) => Ok (negb (truthy (dict_get f0 "id")))
      | PList (_ :: _) => Raise (AttributeError "id")
      | _ => Raise (TypeError "function_responses[0]")
      end
    else Ok false in
  if missing_id then Raise (ValueError _FUNCTION_RESPONSE_REQUIRES_ID)
  else
    Ok (tool_response_message
          (dict_get (model_dump LiveClientToolResponse fields) "function_responses")).

Definition message_of_function_response (vertex : bool)
  (fields : list (string * pyval)) : result pyval :=
  if negb vertex && negb (truthy (dict_get fields "id"))
  then Raise (ValueError _FUNCTION_RESPONSE_REQUIRES_ID)
  else
    Ok (tool_response_message
          (PList [function_response_typeddict (model_dump FunctionResponse fields)])).

(** [AsyncSession._parse_client_message] *)
Definition _parse_client_message (self : BaseApiClient) (input : pyval)
  (end_of_turn : option bool) : result pyval :=
  let vertex := truthy_opt_bool (vertexai self) in
  if negb (truthy input) then
    Ok (client_content_message [("turn_complete", PBool true)])
  else
    let* formatted_input := format_input vertex input in
    match sequence_items formatted_input with
    | Some items =>
        if existsb is_function_response_dict items then
          let* frs := function_responses_input vertex input items in
          Ok (tool_response_message (PList frs))
        else if existsb is_str items then
          client_content_of_sequence vertex input end_of_turn items
        else realtime_input_of_sequence input formatted_input items
    | None =>
        match formatted_input with
        | PDict d => message_of_dict input d
        | PObj LiveClientRealtimeInput f => message_of_realtime_input input f
        | PObj LiveClientContent f =>
            let d := model_dump LiveClientContent f in
            Ok (client_content_message
                  [("turns", dict_get d "turns");
                   ("turn_complete", dict_get d "turn_complete")])
        | PObj LiveClientToolResponse f => message_of_tool_response vertex f
        | PObj FunctionResponse f => message_of_function_response vertex f
        | _ => Raise (UnsupportedInput input)
        end
    end.

End Live.

(** ** Reference instances

    Concrete stand-ins for what the model takes as given, used to run it on
    concrete inputs. *)

(** A decoder for the part of JSON made of objects, arrays, strings without
    escapes, integers and the three literals; any other text is refused, as
    [json.loads] refuses what is not JSON. *)
Module Json.

Definition QUOTE : ascii := ascii_of_nat 34.

Definition is_ws (c : ascii) : bool :=
  let n := nat_of_ascii c in
  ((n =? 32) || (n =? 9) || (n =? 10) || (n =? 13))%nat.

Definition is_digit (c : ascii) : bool :=
  let n := nat_of_ascii c in ((48 <=? n) && (n <=? 57))%nat.

Definition digit_value (c : ascii) : Z := Z.of_nat (nat_of_ascii c - 48).

Fixpoint skip_ws (s : string) : string :=
  match s with
  | String c r => if is_ws c then skip_ws r else s
  | EmptyString => s
  end.

Fixpoint parse_digits (s : string) (acc : Z) : Z * string :=
  match s with
  | String c r => if is_digit c then parse_digits r (acc * 10 + digit_value c) else (acc, s)
  | EmptyString => (acc, s)
  end.

(** After the digits of an integer nothing may follow that would make the
    number a float. *)
Definition ends_number (s : string) : bool :=
  match s with
  | String c _ =>
      negb (Ascii.eqb c "." || Ascii.eqb c "e" || Ascii.eqb c "E" || is_digit c)
  | EmptyString => true
  end.

Definition parse_natural (s : string) : option (Z * string) :=
  match s with
  | String c r =>
      if Ascii.eqb c "0" then
        if ends_number r then Some (0, r) else None
      else if is_digit c then
        let '(n, r') := parse_digits s 0 in
        if ends_number r' then Some (n, r') else None
      else None
  | EmptyString => None
  end.

(** The characters of a string up to its closing quote. *)
Fixpoint parse_string_body (s : string) : option (string * string) :=
  match s with
  | EmptyString => None
  | String c r =>
      if Ascii.eqb c QUOTE then Some (EmptyString, r)
      else if Ascii.eqb c "\" || (nat_of_ascii c <? 32)%nat then None
      else
        match parse_string_body r with
        | Some (body, rest) => Some (String c body, rest)
        | None => None
        end
  end.

(** [d[k] = v] on an insertion-ordered dict. *)
Fixpoint dict_set (d : list (string * pyval)) (k : string) (v : pyval)
  : list (string * pyval) :=
  match d with
  | [] => [(k, v)]
  | (k', v') :: r =>
      if String.eqb k' k then (k', v) :: r else (k', v') :: dict_set r k v
  end.

Definition literal (word : string) (v : pyval) (s : string)
  : option (pyval * string) :=
  if String.prefix word s
  then Some (v, str_drop (String.length word) s) else None.

Fixpoint parse_value (fuel : nat) (s : string) : option (pyval * string) :=
  match fuel with
  | O => None
  | S fuel' =>
      match skip_ws s with
      | EmptyString => None
      | String c r =>
          if Ascii.eqb c "{" then
            match skip_ws r with
            | String c' r' =>
                if Ascii.eqb c' "}" then Some (PDict [], r')
                else parse_members fuel' r []
            | EmptyString => None
            end
          else if Ascii.eqb c "[" then
            match skip_ws r with
            | String c' r' =>
                if Ascii.eqb c' "]" then Some (PList [], r')
                else parse_elements fuel' r []
            | EmptyString => None
            end
          else if Ascii.eqb c QUOTE then
            match parse_string_body r with
            | Some (body, rest) => Some (PStr body, rest)
            | None => None
            end
          else if Ascii.eqb c "-" then
            match parse_natural r with
            | Some (n, rest) => Some (PInt (- n), rest)
            | None => None
            end
          else if is_digit c then
            match parse_natural (String c r) with
            | Some (n, rest) => Some (PInt n, rest)
            | None => None
            end
          else if Ascii.eqb c "t" then literal "true" (PBool true) (String c r)
          else if Ascii.eqb c "f" then literal "false" (PBool false) (String c r)
          else if Ascii.eqb c "n" then literal "null" PNone (String c r)
          else None
      end
  end
with parse_members (fuel : nat) (s : string) (acc : list (string * pyval))
  : option (pyval * string) :=
  match fuel with
  | O => None
  | S fuel' =>
      match skip_ws s with
      | String c r =>
          if Ascii.eqb c QUOTE then
            match parse_string_body r with
            | Some (key, rest) =>
                match skip_ws rest with
                | String c1 r1 =>
                    if Ascii.eqb c1 ":" then
                      match parse_value fuel' r1 with
                      | Some (v, rest') =>
                          let acc := dict_set acc key v in
                          match skip_ws rest' with
                          | String c2 r2 =>
                              if Ascii.eqb c2 "," then parse_members fuel' r2 acc
                              else if Ascii.eqb c2 "}" then Some (PDict acc, r2)
                              else None
                          | EmptyString => None
                          end
                      | None => None
                      end
                    else None
                | EmptyString => None
                end
            | None => None
            end
          else None
      | EmptyString => None
      end
  end
with parse_elements (fuel : nat) (s : string) (acc : list pyval)
  : option (pyval * string) :=
  match fuel with
  | O => None
  | S fuel' =>
      match parse_value fuel' s with
      | Some (v, rest) =>
          let acc := (acc ++ [v])%list in
          match skip_ws rest with
          | String c r =>
              if Ascii.eqb c "," then parse_elements fuel' r acc
              else if Ascii.eqb c "]" then Some (PList acc, r)
              else None
          | EmptyString => None
          end
      | None => None
      end
  end.

Definition loads (s : string) : result pyval :=
  match parse_value (S (String.length s)) s with
  | Some (v, rest) =>
      match skip_ws rest with
      | EmptyString => Ok v
      | String _ _ => Raise (JSONDecodeError s)
      end
  | None => Raise (JSONDecodeError s)
  end.

(** UTF-8 decoding of bytes that are all ASCII; anything else is refused. *)
Definition decode_ascii (b : list byte) : result string :=
  if forallb (fun x => (Byte.to_N x <? 128)%N) b
  then Ok (string_of_list_byte b) else Raise UnicodeDecodeError.

End Json.

Module Reference.

(** A URL splitter that keeps the whole URL as its path: enough for a base
    URL without query or fragment. *)
Definition runtime : Runtime :=
  {| sdk_version := "1.10.0";
     python_version := "3.11.4";
     model_validate := fun _ => inr "validation is not modelled";
     urlparse := fun u =>
       Ok {| scheme := EmptyString; netloc := EmptyString; url_path := u;
             params := EmptyString; query := EmptyString;
             fragment := EmptyString |};
     urlunparse := url_path |}.

(** Models whose validation keeps the fields given (the dicts among the
    parts of a content become parts, and a blob whose data is neither bytes
    nor text is refused), whose dump drops the fields that are [None], and
    whose content converters answer the dumped content. *)
Definition dump (fields : list (string * pyval)) : list (string * pyval) :=
  List.filter (fun kv => negb (is_None (snd kv))) fields.

Fixpoint dump_value (fuel : nat) (v : pyval) : pyval :=
  match fuel with
  | O => v
  | S fuel' =>
      match v with
      | PObj _ f => PDict (map (fun kv => (fst kv, dump_value fuel' (snd kv))) (dump f))
      | PList l => PList (map (dump_value fuel') l)
      | _ => v
      end
  end.

Definition dump_fields (fields : list (string * pyval)) : list (string * pyval) :=
  map (fun kv => (fst kv, dump_value 8 (snd kv))) (dump fields).

Definition load_part (v : pyval) : pyval :=
  match v with
  | PDict d => PObj Part d
  | _ => v
  end.

Definition load_fields (c : pyclass) (d : list (string * pyval))
  : option (list (string * pyval)) :=
  match c with
  | Content =>
      Some (map (fun kv =>
                   match snd kv with
                   | PList l =>
                       if String.eqb (fst kv) "parts"
                       then (fst kv, PList (map load_part l)) else kv
                   | _ => kv
                   end) d)
  | Blob =>
      match dict_get d "data" with
      | PNone | PStr _ | PBytes _ => Some d
      | _ => None
      end
  | _ => Some d
  end.

Definition models : Models :=
  {| construct := load_fields;
     model_dump := fun _ => dump_fields;
     _Content_to_mldev := fun c =>
       match c with
       | PObj Content f => Ok (dump_fields f)
       | _ => Raise (TypeError "Content")
       end;
     _Content_to_vertex := fun c =>
       match c with
       | PObj Content f => Ok (dump_fields f)
       | _ => Raise (TypeError "Content")
       end;
     is_PartUnion := fun v => is_str v || isinstance v Part || isinstance v File;
     base64_b64decode := fun b =>
       match Base64.b64decode (string_of_list_byte b) with
       | Some raw => Ok raw
       | None => Raise (ValueError "Incorrect padding")
       end |}.

End Reference.

(** ** Statements of the specification and concrete inputs *)

(** An optional deadline of zero seconds: [0.0] or [-0.0]. *)
Definition zero_deadline (o : option float) : Prop :=
  exists s, o = Some (S754_zero s).

(** The smallest positive float, [5e-324]. *)
Definition SMALLEST_FLOAT : float := S754_finite false 1 (-1074).

(** A handle that is not done, and a backend that keeps answering it. *)
Definition pending_handle : list (string * pyval) :=
  [("name", PStr "projects/p/locations/l/operations/op1"); ("done", PBool false)].

Definition pending_backend : backend := fun _ _ => Ok pending_handle.

(** The delay between two polls stays between its initial value and its
    cap. *)
Definition delay_in_range (st : poll_state) : Prop :=
  (1 <= delay_seconds st)%Q /\ (delay_seconds st <= 20)%Q.

Section Statements.
Context {rt : Runtime}.

(** What an identification header holds after the version labels were
    appended to it. *)
Definition stamped (o : option string) : string :=
  match o with
  | Some v =>
      if str_in version_header_value v then v
      else v +:+ " " +:+ version_header_value
  | None => version_header_value
  end.

Definition identification_header (k : string) : Prop :=
  k = "user-agent" \/ k = "x-goog-api-client".

(** The specification's reading of the identity token: each identification
    header holds it exactly once. *)
Definition token_exactly_once (h : gmap string string) : Prop :=
  forall k, identification_header k ->
    exists v, h !! k = Some v /\ occurrences version_header_value v = 1%nat.

(** The specification's reading of the patch of a string field: only a
    non-empty value of the patch replaces the one of the base. *)
Definition nonempty_override (base patch : option string) : option string :=
  if truthy_opt_str patch then patch else base.

End Statements.

(** The [i]-th POST of an upload of [k] full blocks: only the last one
    finalizes. *)
Definition expected_upload (block k : nat) (url : string) (t : option float)
  (file : list byte) (i : nat) : UploadRequest :=
  {| upload_url := url;
     upload_command := if (S i =? k)%nat then "upload, finalize" else "upload";
     upload_offset := Z.of_nat (i * block);
     content_length := Z.of_nat block;
     content := take block (drop (i * block) file);
     upload_timeout := t |}.

(** A server that keeps the upload active until it is told to finalize. *)
Definition finalizing_server : upload_server :=
  fun _ request =>
    {| upload_status :=
         Some (if String.eqb (upload_command request) "upload, finalize"
               then "final" else "active");
       answer_headers := ∅;
       answer_text := EmptyString |}.

Definition direct_client : BaseApiClient :=
  {| vertexai := None; modelgarden := None; project := None; location := None;
     api_key := Some "k"; _credentials := None;
     _http_options := HttpOptions_default |}.

Definition vertex_client : BaseApiClient :=
  {| vertexai := Some true; modelgarden := None; project := Some "p";
     location := Some "l"; api_key := None; _credentials := None;
     _http_options := HttpOptions_default |}.

(** A content of role [user] with one text part, and the turn sent for
    it. *)
Definition text_content (s : string) : pyval :=
  PObj Content [("role", PStr "user");
                ("parts", PList [PObj Part [("text", PStr s)]])].

Definition text_turn (s : string) : pyval :=
  PDict [("parts", PList [PDict [("text", PStr s)]]); ("role", PStr "user")].

(** A function response without an [id]. *)
Definition response_without_id : list (string * pyval) :=
  [("name", PStr "get_weather"); ("response", PDict [("celsius", PInt 21)])].

(** The same with a key [data] whose value is a number. *)
Definition response_with_data : list (string * pyval) :=
  [("data", PInt 5); ("name", PStr "get_weather");
   ("response", PDict [("celsius", PInt 21)])].

(** A patch whose [user-agent] already holds the version labels twice, and
    a patch whose base URL is the empty string. *)
Definition twice_labelled : string :=
  version_header_value (rt := Reference.runtime) +:+ " "
    +:+ version_header_value (rt := Reference.runtime).

Definition twice_labelled_patch : HttpOptions :=
  {| base_url := None; api_version := None;
     headers := Some {[ "user-agent" := twice_labelled ]};
     timeout := None |}.

Definition example_base : HttpOptions :=
  {| base_url := Some "https://example.com/"; api_version := None;
     headers := None; timeout := None |}.

Definition empty_url_patch : HttpOptions :=
  {| base_url := Some EmptyString; api_version := None;
     headers := None; timeout := None |}.

(** The specification's account of the streamed decoding: drop the blank
    lines, strip the marker, decode every remaining text in order. *)
Definition strip_data_prefix (s : string) : string :=
  if String.prefix DATA_PREFIX s then str_drop (String.length DATA_PREFIX) s else s.

Fixpoint decode_each (json_loads : string -> result pyval) (docs : list string)
  : yielded :=
  match docs with
  | [] => ([], None)
  | doc :: rest =>
      match json_loads doc with
      | Ok v => yield_then v (decode_each json_loads rest)
      | Raise e => ([], Some e)
      end
  end.

(** The three lines of the streaming scenario. *)
Definition scenario_line (n : string) : string :=
  "data: {" +:+ String Json.QUOTE ("a" +:+ String Json.QUOTE (":" +:+ n +:+ "}")).

Definition scenario_lines : list line :=
  [LineStr (scenario_line "1"); LineStr EmptyString; LineStr (scenario_line "2")].

(** ** [_transformers.py]: names of resources, models, files and jobs *)

(** [s.count(c)] for a one-character [c]. *)
Fixpoint count_char (c : ascii) (s : string) : nat :=
  match s with
  | EmptyString => O
  | String x r => ((if Ascii.eqb x c then 1 else 0) + count_char c r)%nat
  end.

(** [s.split(c)] for a one-character separator. *)
Fixpoint split_char (c : ascii) (s : string) : list string :=
  match s with
  | EmptyString => [EmptyString]
  | String x r =>
      if Ascii.eqb x c then EmptyString :: split_char c r
      else
        match split_char c r with
        | h :: t => String x h :: t
        | [] => [String x EmptyString]
        end
  end.

(** [s.split(c, 1)] when [c] occurs in [s]: the text before the first [c]
    and the text after it. *)
Fixpoint split_once (c : ascii) (s : string) : string * string :=
  match s with
  | EmptyString => (EmptyString, EmptyString)
  | String x r =>
      if Ascii.eqb x c then (EmptyString, r)
      else let '(a, b) := split_once c r in (String x a, b)
  end.

(** [s.split(sep)] for a separator that is not empty: [skip] counts the
    characters of a separator just met that are still to be passed over,
    [cur] holds the current piece, last character first. *)
Fixpoint split_from (sep : string) (skip : nat) (cur : string) (s : string)
  : list string :=
  match s with
  | EmptyString => [String.rev cur]
  | String c r =>
      match skip with
      | S k => split_from sep k cur r
      | O =>
          if String.prefix sep s
          then String.rev cur :: split_from sep (String.length sep - 1) EmptyString r
          else split_from sep O (String c cur) r
      end
  end.

Definition str_split (sep s : string) : list string :=
  split_from sep O EmptyString s.

(** [_resource_name] *)
Definition _resource_name (client : BaseApiClient)
  (resource_name collection_identifier : string)
  (collection_hierarchy_depth : Z) : string :=
  let should_prepend_collection_identifier :=
    negb (String.prefix (collection_identifier +:+ "/") resource_name)
    && (Z.of_nat (count_char "/" (collection_identifier +:+ "/" +:+ resource_name))
          + 1 =? collection_hierarchy_depth) in
  if truthy_opt_bool (vertexai client) then
    if String.prefix "projects/" resource_name then resource_name
    else if String.prefix "locations/" resource_name then
      "projects/" +:+ fmt (project client) +:+ "/" +:+ resource_name
    else if String.prefix (collection_identifier +:+ "/") resource_name then
      "projects/" +:+ fmt (project client) +:+ "/locations/"
        +:+ fmt (location client) +:+ "/" +:+ resource_name
    else if should_prepend_collection_identifier then
      "projects/" +:+ fmt (project client) +:+ "/locations/"
        +:+ fmt (location client) +:+ "/" +:+ collection_identifier
        +:+ "/" +:+ resource_name
    else resource_name
  else
    if should_prepend_collection_identifier
    then collection_identifier +:+ "/" +:+ resource_name
    else resource_name.

(** [t_cached_content_name]; the hierarchy depth is the default one. *)
Definition t_cached_content_name (client : BaseApiClient) (name : string)
  : string :=
  _resource_name client name "cachedContents" 2.

(** [t_model] *)
Definition t_model (client : BaseApiClient) (model : string) : result string :=
  if negb (truthy_str model) then Raise (ValueError "model is required.")
  else if truthy_opt_bool (vertexai client) then
    if String.prefix "projects/" model || String.prefix "models/" model
       || String.prefix "publishers/" model
    then Ok model
    else if str_in "/" model then
      let '(publisher, model_id) := split_once "/" model in
      Ok ("publishers/" +:+ publisher +:+ "/models/" +:+ model_id)
    else Ok ("publishers/google/models/" +:+ model)
  else
    if String.prefix "models/" model then Ok model
    else if String.prefix "tunedModels/" model then Ok model
    else Ok ("models/" +:+ model).

(** [t_models_url] *)
Definition t_models_url (api_client : BaseApiClient) (base_models : bool)
  : string :=
  if truthy_opt_bool (vertexai api_client) then
    if base_models then "publishers/google/models" else "models"
  else
    if base_models then "models" else "tunedModels".

(** [t_caches_model]: [None] is what the source returns for an empty
    model. *)
Definition t_caches_model (api_client : BaseApiClient) (model : string)
  : result (option string) :=
  let* model := t_model api_client model in
  if negb (truthy_str model) then Ok None
  else if String.prefix "publishers/" model
          && truthy_opt_bool (vertexai api_client) then
    Ok (Some ("projects/" +:+ fmt (project api_client) +:+ "/locations/"
                +:+ fmt (location api_client) +:+ "/" +:+ model))
  else if String.prefix "models/" model
          && truthy_opt_bool (vertexai api_client) then
    Ok (Some ("projects/" +:+ fmt (project api_client) +:+ "/locations/"
                +:+ fmt (location api_client) +:+ "/publishers/google/"
                +:+ model))
  else Ok (Some model).

(** [re.match('[a-z0-9]+', s)]: the longest run of lower-case letters and
    digits that [s] starts with, [None] when it starts with none. *)
Definition is_lower_alnum (c : ascii) : bool :=
  let n := nat_of_ascii c in
  (((97 <=? n) && (n <=? 122)) || ((48 <=? n) && (n <=? 57)))%nat.

Fixpoint take_while (p : ascii -> bool) (s : string) : string :=
  match s with
  | String c r => if p c then String c (take_while p r) else EmptyString
  | EmptyString => EmptyString
  end.

Definition match_lower_alnum (s : string) : option string :=
  match take_while is_lower_alnum s with
  | EmptyString => None
  | m => Some m
  end.

(** [t_file_name]: the name comes as a string or as a [types.File]. *)
Definition t_file_name (name : pyval) : result string :=
  let name :=
    match name with
    | PObj File f => dict_get f "name"
    | _ => name
    end in
  match name with
  | PNone => Raise (ValueError "File name is required.")
  | PStr name =>
      if String.prefix "https://" name then
        match nth_error (str_split "files/" name) 1 with
        | None => Raise IndexError
        | Some suffix =>
            match match_lower_alnum suffix with
            | None =>
                Raise (ValueError
                  ("Could not extract file name from URI: " +:+ name))
            | Some m => Ok m
            end
        end
      else if String.prefix "files/" name then
        match nth_error (str_split "files/" name) 1 with
        | None => Raise IndexError
        | Some rest => Ok rest
        end
      else Ok name
  | _ => Raise (AttributeError "startswith")
  end.

(** [re.match(r'^projects/[^/]+/locations/[^/]+/batchPredictionJobs/[^/]+$',
    name)]: the name is six pieces between slashes, the first, third and
    fifth being the three words and the others not empty. *)
Definition matches_batch_job_pattern (name : string) : bool :=
  match split_char "/" name with
  | [a; p; b; l; c; j] =>
      String.eqb a "projects" && truthy_str p
      && String.eqb b "locations" && truthy_str l
      && String.eqb c "batchPredictionJobs" && truthy_str j
  | _ => false
  end.

(** [name.isdigit()] on ASCII text. *)
Definition is_ascii_digit (c : ascii) : bool :=
  let n := nat_of_ascii c in ((48 <=? n) && (n <=? 57))%nat.

Fixpoint all_chars (p : ascii -> bool) (s : string) : bool :=
  match s with
  | EmptyString => true
  | String c r => p c && all_chars p r
  end.

Definition isdigit (s : string) : bool :=
  truthy_str s && all_chars is_ascii_digit s.

(** [t_batch_job_name] *)
Definition t_batch_job_name (client : BaseApiClient) (name : string)
  : result string :=
  if negb (truthy_opt_bool (vertexai client)) then Ok name
  else if matches_batch_job_pattern name then
    Ok (List.last (split_char "/" name) EmptyString)
  else if isdigit name then Ok name
  else Raise (ValueError ("Invalid batch job name: " +:+ name +:+ ".")).

(** [t_tuning_job_status] *)
Definition t_tuning_job_status (status : string) : string :=
  if String.eqb status "STATE_UNSPECIFIED" then "JOB_STATE_UNSPECIFIED"
  else if String.eqb status "CREATING" then "JOB_STATE_RUNNING"
  else if String.eqb status "ACTIVE" then "JOB_STATE_SUCCEEDED"
  else if String.eqb status "FAILED" then "JOB_STATE_FAILED"
  else status.

(** [t_extract_models] *)
Definition t_extract_models (response : list (string * pyval)) : result pyval :=
  if negb (truthy (PDict response)) then Ok (PList [])
  else if negb (is_None (dict_get response "models")) then
    Ok (dict_get response "models")
  else if negb (is_None (dict_get response "tunedModels")) then
    Ok (dict_get response "tunedModels")
  else if negb (is_None (dict_get response "publisherModels")) then
    Ok (dict_get response "publisherModels")
  else Raise (ValueError "Cannot determine the models type.").

(** ** [_transformers.py]: schemas *)

(** [process_schema]: with a client that is not a Vertex AI client every
    binding of the key [title] goes, at every depth below dicts and lists;
    [strip] is [client and not client.vertexai]. *)
Fixpoint strip_titles (strip : bool) (data : pyval) : pyval :=
  match data with
  | PDict d =>
      PDict ((fix bindings (d : list (string * pyval)) : list (string * pyval) :=
                match d with
                | [] => []
                | (key, value) :: rest =>
                    if strip && String.eqb key "title" then bindings rest
                    else (key, strip_titles strip value) :: bindings rest
                end) d)
  | PList l => PList (List.map (strip_titles strip) l)
  | _ => data
  end.

Definition process_schema (data : pyval) (client : option BaseApiClient)
  : pyval :=
  strip_titles
    (match client with
     | Some c => negb (truthy_opt_bool (vertexai c))
     | None => false
     end) data.

(** No binding of [title] anywhere below dicts and lists. *)
Fixpoint title_free (data : pyval) : bool :=
  match data with
  | PDict d =>
      (fix bindings (d : list (string * pyval)) : bool :=
         match d with
         | [] => true
         | (key, value) :: rest =>
             negb (String.eqb key "title") && title_free value && bindings rest
         end) d
  | PList l => forallb title_free l
  | _ => true
  end.

(** ** [_api_client.py]: access tokens *)

(** [_refresh_auth]: what [credentials.refresh(Request())] makes of the
    credentials is an oracle. *)
Definition refresher : Type := Credentials -> result Credentials.

Definition with_credentials (self : BaseApiClient) (c : option Credentials)
  (p : option string) : BaseApiClient :=
  {| vertexai := vertexai self; modelgarden := modelgarden self;
     project := p; location := location self; api_key := api_key self;
     _credentials := c; _http_options := _http_options self |}.

Definition NO_TOKEN : string :=
  "Could not resolve API token from the environment".

(** [BaseApiClient._access_token]: the token or the exception, and the
    client as the call leaves it. *)
Definition _access_token (amb : Ambient) (refresh : refresher)
  (self : BaseApiClient) : result string * BaseApiClient :=
  let loaded :=
    match _credentials self with
    | Some _ => Ok self
    | None =>
        let* cp := _load_auth amb (project self) in
        Ok (with_credentials self (Some (fst cp))
              (if negb (truthy_opt_str (project self))
               then snd cp else project self))
    end in
  match loaded with
  | Raise e => (Raise e, self)
  | Ok self =>
      match _credentials self with
      | None => (Raise (RuntimeError NO_TOKEN), self)
      | Some c =>
          match (if expired c || negb (truthy_opt_str (token c))
                 then refresh c else Ok c) with
          | Raise e => (Raise e, self)
          | Ok c =>
              let self := with_credentials self (Some c) (project self) in
              match token c with
              | Some t =>
                  if truthy_str t then (Ok t, self)
                  else (Raise (RuntimeError NO_TOKEN), self)
              | None => (Raise (RuntimeError NO_TOKEN), self)
              end
          end
      end
  end.

(** ** [live.py]: receiving a turn *)

(** A decoded server message, as far as [receive] looks into it. *)
Record LiveServerContent : Type := {
  turn_complete : option bool;
  model_turn : pyval
}.

Record LiveServerMessage : Type := {
  server_content : option LiveServerContent;
  tool_call : pyval
}.

(** [result.server_content and result.server_content.turn_complete] *)
Definition ends_turn (m : LiveServerMessage) : bool :=
  match server_content m with
  | Some sc => truthy_opt_bool (turn_complete sc)
  | None => false
  end.

(** How a run of [receive] ends: after the message that completes the
    turn, with the exception of [_receive], or still waiting for a message
    when none has arrived yet. *)
Inductive receive_end : Type :=
| TurnComplete
| Raised (e : exn)
| Waiting.

(** [AsyncSession.receive] against what the successive calls of [_receive]
    answer: the messages yielded, how the run ends, and what is left for
    later calls. *)
Fixpoint receive (incoming : list (result LiveServerMessage))
  : list LiveServerMessage * receive_end * list (result LiveServerMessage) :=
  match incoming with
  | [] => ([], Waiting, [])
  | Raise e :: rest => ([], Raised e, rest)
  | Ok m :: rest =>
      if ends_turn m then ([m], TurnComplete, rest)
      else
        let '(yielded, ending, later) := receive rest in
        (m :: yielded, ending, later)
  end.

(** ** Further statements *)

(** The delay before the poll that follows [n] polls. *)
Fixpoint backoff_delay (n : nat) : Q :=
  match n with
  | O => LRO_POLLING_INITIAL_DELAY_SECONDS
  | S k =>
      Qmin (backoff_delay k * LRO_POLLING_MULTIPLIER)%Q
           LRO_POLLING_MAXIMUM_DELAY_SECONDS
  end.

(** What [t_resolve_operation] makes of a handle that is done. *)
Definition outcome_of (name : pyval) (op : list (string * pyval))
  : result pyval :=
  if truthy (dict_get op "error")
  then Raise (OperationFailed name (dict_get op "error") op)
  else Ok (dict_get op "response").

(** A handle, and a backend whose [n]-th answer is the first that is
    done. *)
Definition running_handle : list (string * pyval) :=
  [("name", PStr "operations/op1/operations/x")].

Definition finishing_backend (n : nat) : backend :=
  fun i _ =>
    Ok [("name", PStr "operations/op1/operations/x");
        ("done", PBool (n <=? i)%nat); ("response", PInt 7)].

(** An environment with no variable set and no default credentials. *)
Definition bare_environment : Ambient :=
  {| environ := ∅; auth_default := Raise (RuntimeError "no credentials") |}.

(** Credentials that carry a token and credentials that have expired, an
    environment whose default credentials have expired, and two ways a
    refresh can go. *)
Definition fresh_credentials : Credentials :=
  {| token := Some "tok"; expired := false; quota_project_id := None |}.

Definition expired_credentials : Credentials :=
  {| token := None; expired := true; quota_project_id := None |}.

Definition signed_in_environment : Ambient :=
  {| environ := ∅; auth_default := Ok (expired_credentials, Some "p") |}.

Definition reissue : refresher := fun _ => Ok fresh_credentials.

Definition failing_refresh : refresher :=
  fun _ => Raise (RuntimeError "refresh failed").

(** A Vertex AI client of the region [l] with the base URL of this
    region. *)
Definition regional_client : BaseApiClient :=
  {| vertexai := Some true; modelgarden := None; project := Some "p";
     location := Some "l"; api_key := None; _credentials := None;
     _http_options :=
       {| base_url := Some "https://l-aiplatform.googleapis.com/";
          api_version := Some "v1beta1";
          headers := Some {[ "Content-Type" := "application/json" ]};
          timeout := None |} |}.

Definition signed_in_client : BaseApiClient :=
  with_credentials vertex_client (Some fresh_credentials) (Some "p").

(** The [j]-th POST of an upload of any file in blocks of [block] bytes,
    a server that never finalizes, and a file of three bytes. *)
Definition upload_request_at (block : nat) (url : string) (upload_size : Z)
  (t : option float) (file : list byte) (j : nat) : UploadRequest :=
  let chunk := take block (drop (j * block) file) in
  let offset := Z.of_nat (length (take (j * block) file)) in
  {| upload_url := url;
     upload_command :=
       if upload_size <=? Z.of_nat (length chunk) + offset
       then "upload" +:+ ", finalize" else "upload";
     upload_offset := offset;
     content_length := Z.of_nat (length chunk);
     content := chunk;
     upload_timeout := t |}.


Definition three_bytes : list byte := [x00; x01; x02].

(** [isinstance(item, dict)] *)
Definition is_dict (v : pyval) : bool :=
  match v with
  | PDict _ => true
  | _ => false
  end.

(** The three kinds of message a session sends. *)
Definition is_client_message (m : pyval) : Prop :=
  exists body,
    m = PDict [("client_content", body)] \/
    m = PDict [("realtime_input", body)] \/
    m = PDict [("tool_response", body)].

(** A list that holds a note beside a function response. *)
Definition note_and_response : list pyval :=
  [PStr "note"; PDict response_without_id].

(* ===================================================================== *)
(** * Properties *)

Ltac splits := repeat match goal with |- _ /\ _ => split end.

(** ** Strings *)

Lemma prefix_refl (s : string) : String.prefix s s = true.
Proof.
  induction s as [|c s IH]; simpl; [reflexivity|].
  destruct (ascii_dec c c); [exact IH | congruence].
Qed.

Lemma prefix_app (s t : string) : String.prefix s (s +:+ t) = true.
Proof.
  induction s as [|c s IH]; simpl.
  - destruct t; reflexivity.
  - destruct (ascii_dec c c); [exact IH | congruence].
Qed.

Lemma append_cons (c : ascii) (s t : string) :
  String c s +:+ t = String c (s +:+ t).
Proof. reflexivity. Qed.

Lemma append_empty_l (t : string) : EmptyString +:+ t = t.
Proof. reflexivity. Qed.

Lemma str_in_prefix (needle hay : string) :
  String.prefix needle hay = true -> str_in needle hay = true.
Proof. intros H. destruct hay; cbn [str_in]; rewrite H; reflexivity. Qed.

Lemma str_in_self (s : string) : str_in s s = true.
Proof. apply str_in_prefix, prefix_refl. Qed.

Lemma str_in_cons (needle : string) (c : ascii) (hay : string) :
  str_in needle hay = true -> str_in needle (String c hay) = true.
Proof. intros H. cbn [str_in]. rewrite H. apply orb_true_r. Qed.

Lemma str_in_app (needle pre hay : string) :
  str_in needle hay = true -> str_in needle (pre +:+ hay) = true.
Proof.
  intros H. induction pre as [|c pre IH].
  - exact H.
  - apply (str_in_cons needle c (pre +:+ hay)), IH.
Qed.

Lemma str_in_app_r (needle pre : string) :
  str_in needle (pre +:+ needle) = true.
Proof. apply str_in_app, str_in_self. Qed.

(** ** Floats *)

Lemma digits2_pos_size (p : positive) : digits2_pos p = Pos.size p.
Proof. induction p as [p IH|p IH|]; cbn; rewrite ?IH; reflexivity. Qed.

Lemma Zdigits2_log2 (p : positive) :
  Zdigits2 (Zpos p) = Z.log2 (Zpos p) + 1.
Proof.
  cbn [Zdigits2]. rewrite digits2_pos_size.
  destruct p as [p|p|]; cbn [Z.log2 Pos.size]; try lia.
Qed.

Lemma Zdigits2_bounds (m d : Z) :
  0 < m -> 2 ^ (d - 1) <= m < 2 ^ d -> 0 < d -> Zdigits2 m = d.
Proof.
  intros Hm Hb Hd. destruct m as [|p|p]; try lia.
  rewrite Zdigits2_log2.
  assert (Z.log2 (Zpos p) = d - 1); [|lia].
  apply Z.log2_unique; [lia|]. replace (Z.succ (d - 1)) with d by lia. exact Hb.
Qed.

Lemma Zdigits2_spec (p : positive) :
  2 ^ (Zdigits2 (Zpos p) - 1) <= Zpos p < 2 ^ Zdigits2 (Zpos p).
Proof.
  rewrite Zdigits2_log2. replace (Z.log2 (Zpos p) + 1 - 1) with (Z.log2 (Zpos p)) by lia.
  replace (Z.log2 (Zpos p) + 1) with (Z.succ (Z.log2 (Zpos p))) by lia.
  apply Z.log2_spec. lia.
Qed.

Lemma shr_1_m (r : shr_record) :
  0 <= shr_m r -> shr_m (shr_1 r) = Z.shiftr (shr_m r) 1.
Proof.
  destruct r as [m b s]. cbn [shr_m]. intros Hm.
  rewrite <- Z.div2_spec.
  destruct m as [|[p|p|]|p]; try lia; reflexivity.
Qed.

Lemma iter_shr_1_m (p : positive) :
  forall r, 0 <= shr_m r ->
    shr_m (SpecFloat.iter_pos shr_1 p r) = Z.shiftr (shr_m r) (Zpos p).
Proof.
  induction p as [p IH|p IH|]; intros r Hr; cbn [SpecFloat.iter_pos].
  - assert (H1 : 0 <= shr_m (shr_1 r))
      by (rewrite shr_1_m by exact Hr; apply Z.shiftr_nonneg; exact Hr).
    assert (H2 : 0 <= shr_m (SpecFloat.iter_pos shr_1 p (shr_1 r)))
      by (rewrite IH by exact H1; apply Z.shiftr_nonneg; exact H1).
    rewrite IH by exact H2. rewrite IH by exact H1. rewrite shr_1_m by exact Hr.
    rewrite !Z.shiftr_shiftr by lia. f_equal. lia.
  - assert (H1 : 0 <= shr_m (SpecFloat.iter_pos shr_1 p r))
      by (rewrite IH by exact Hr; apply Z.shiftr_nonneg; exact Hr).
    rewrite IH by exact H1. rewrite IH by exact Hr.
    rewrite Z.shiftr_shiftr by lia. f_equal. lia.
  - apply shr_1_m. exact Hr.
Qed.

Lemma shr_spec (r : shr_record) (e n : Z) :
  0 <= shr_m r -> 0 <= n ->
  shr_m (fst (shr r e n)) = Z.shiftr (shr_m r) n /\ snd (shr r e n) = e + n.
Proof.
  intros Hr Hn. destruct n as [|p|p]; try lia; cbn [shr fst snd].
  - rewrite Z.shiftr_0_r. split; [reflexivity | lia].
  - split; [apply iter_shr_1_m; exact Hr | reflexivity].
Qed.

Lemma shr_record_of_loc_m m l : shr_m (shr_record_of_loc m l) = m.
Proof. destruct l as [|[| |]]; reflexivity. Qed.

Lemma round_nearest_even_bounds m l :
  m <= round_nearest_even m l <= m + 1.
Proof.
  destruct l as [|[| |]]; cbn [round_nearest_even]; try lia.
  destruct (Z.even m); lia.
Qed.

(** Rounding a mantissa of at least 53 bits whose value is in the normal
    range: the result has 53 bits and is no smaller in magnitude class. *)
Lemma binary_round_aux_normal (s : bool) (mx ex : Z) (l : SpecFloat.location) :
  0 < mx -> 53 <= Zdigits2 mx -> -1074 <= Zdigits2 mx + ex - 53 ->
  match binary_round_aux float_prec float_emax s mx ex l with
  | S754_finite s' m e =>
      s' = s /\ Zdigits2 (Zpos m) = 53 /\
      Zdigits2 mx + ex <= 53 + e <= Zdigits2 mx + ex + 1 /\ e <= 971
  | S754_infinity s' => s' = s /\ 1023 <= Zdigits2 mx + ex
  | _ => False
  end.
Proof.
  intros Hmx Hd Hnormal.
  destruct mx as [|p|p]; try lia.
  pose proof (Zdigits2_spec p) as Hp.
  remember (Zdigits2 (Zpos p)) as d eqn:Hdd.
  unfold binary_round_aux, shr_fexp.
  rewrite <- Hdd.
  assert (Hn1 : fexp float_prec float_emax (d + ex) - ex = d - 53)
    by (unfold fexp, emin, float_prec, float_emax; lia).
  rewrite Hn1.
  destruct (shr_spec (shr_record_of_loc (Zpos p) l) ex (d - 53)) as [Hm1 He1];
    [rewrite shr_record_of_loc_m; lia | lia |].
  destruct (shr (shr_record_of_loc (Zpos p) l) ex (d - 53)) as [mrs1 e1].
  cbn [fst snd] in Hm1, He1. rewrite shr_record_of_loc_m in Hm1.
  assert (Hb1 : 2 ^ 52 <= shr_m mrs1 < 2 ^ 53).
  { rewrite Hm1, Z.shiftr_div_pow2 by lia.
    assert (H2 : 2 ^ (d - 1) = 2 ^ 52 * 2 ^ (d - 53))
      by (rewrite <- Z.pow_add_r by lia; f_equal; lia).
    assert (H3 : 2 ^ d = 2 ^ 53 * 2 ^ (d - 53))
      by (rewrite <- Z.pow_add_r by lia; f_equal; lia).
    assert (Hpos : 0 < 2 ^ (d - 53)) by (apply Z.pow_pos_nonneg; lia).
    split.
    - apply Z.div_le_lower_bound; [exact Hpos|]. lia.
    - apply Z.div_lt_upper_bound; [exact Hpos|]. lia. }
  pose proof (round_nearest_even_bounds (shr_m mrs1) (loc_of_shr_record mrs1)) as Hr.
  remember (round_nearest_even (shr_m mrs1) (loc_of_shr_record mrs1)) as m2 eqn:Hm2def.
  assert (Hm2 : 2 ^ 52 <= m2 <= 2 ^ 53) by lia.
  destruct (Z.eq_dec m2 (2 ^ 53)) as [Htop|Hlow].
  - assert (Hd2 : Zdigits2 m2 = 54).
    { apply Zdigits2_bounds; [lia | | lia]. rewrite Htop.
      split; [apply Z.leb_le | apply Z.ltb_lt]; reflexivity. }
    rewrite Hd2.
    assert (Hn2 : fexp float_prec float_emax (54 + e1) - e1 = 1)
      by (unfold fexp, emin, float_prec, float_emax; lia).
    rewrite Hn2. rewrite Htop. cbn [shr_record_of_loc shr SpecFloat.iter_pos shr_1].
    cbn -[Z.leb Z.add].
    destruct (Z.leb_spec (e1 + 1) (float_emax - float_prec)) as [Hfit|Hfit];
      [|unfold float_emax, float_prec in Hfit; split; [reflexivity | lia]].
    unfold float_emax, float_prec in Hfit.
    split; [reflexivity|]. split; [reflexivity | lia].
  - assert (Hd2 : Zdigits2 m2 = 53).
    { apply Zdigits2_bounds; [lia | | lia]. cbn in *. lia. }
    rewrite Hd2.
    assert (Hn2 : fexp float_prec float_emax (53 + e1) - e1 = 0)
      by (unfold fexp, emin, float_prec, float_emax; lia).
    rewrite Hn2. cbn [shr shr_record_of_loc shr_m].
    destruct m2 as [|q|q]; try (cbn in Hm2; lia).
    destruct (Z.leb_spec e1 (float_emax - float_prec)) as [Hfit|Hfit];
      [|unfold float_emax, float_prec in Hfit; split; [reflexivity | lia]].
    unfold float_emax, float_prec in Hfit.
    split; [reflexivity|]. split; [exact Hd2 | lia].
Qed.


Lemma pos_iter_xO (p k : positive) :
  Zpos (Pos.iter xO p k) = Zpos p * 2 ^ Zpos k.
Proof.
  revert p. induction k as [|k IH] using Pos.peano_ind; intros p.
  - cbn [Pos.iter]. lia.
  - rewrite Pos.iter_succ, Pos2Z.inj_xO, IH, Pos2Z.inj_succ, Z.pow_succ_r by lia.
    lia.
Qed.

Lemma Zdigits2_shift (p k : positive) :
  Zdigits2 (Zpos (Pos.iter xO p k)) = Zdigits2 (Zpos p) + Zpos k.
Proof.
  rewrite !Zdigits2_log2, pos_iter_xO, Z.log2_mul_pow2 by lia. lia.
Qed.

(** [float(n)] of an integer that is not zero: 53 bits of mantissa and a
    magnitude of at least one, or an infinity. *)
Lemma float_of_nonzero (n : Z) :
  n <> 0 ->
  match binary_normalize float_prec float_emax n 0 false with
  | S754_finite _ m e => Zdigits2 (Zpos m) = 53 /\ -52 <= e <= 971
  | S754_infinity _ => 2 ^ 1022 <= Z.abs n
  | _ => False
  end.
Proof.
  intros Hn.
  assert (Hpos : forall s p,
    match binary_round float_prec float_emax s p 0 with
    | S754_finite _ m e => Zdigits2 (Zpos m) = 53 /\ -52 <= e <= 971
    | S754_infinity _ => 2 ^ 1022 <= Zpos p
    | _ => False
    end).
  { intros s p. unfold binary_round, shl_align.
    pose proof (Zdigits2_spec p) as Hp.
    change (Zpos (digits2_pos p)) with (Zdigits2 (Zpos p)).
    remember (Zdigits2 (Zpos p)) as d eqn:Hd.
    assert (Hd1 : 1 <= d).
    { subst d. rewrite Zdigits2_log2. pose proof (Z.log2_nonneg (Zpos p)). lia. }
    assert (Hf : fexp float_prec float_emax (d + 0) = d - 53)
      by (unfold fexp, emin, float_prec, float_emax; lia).
    assert (Hbig : 1023 <= d -> 2 ^ 1022 <= Zpos p).
    { intros Hd2. apply Z.le_trans with (2 ^ (d - 1)); [|lia].
      apply Z.pow_le_mono_r; lia. }
    rewrite Hf.
    destruct (d - 53 - 0) as [|k|k] eqn:Hk.
    - pose proof (binary_round_aux_normal s (Zpos p) 0 loc_Exact) as H.
      rewrite <- Hd in H.
      destruct (binary_round_aux float_prec float_emax s (Zpos p) 0 loc_Exact);
        try (apply H; lia).
      + destruct H as [_ H]; [lia | lia | lia |]. apply Hbig. lia.
      + destruct H as (_ & H53 & He & Hfit); [lia | lia | lia |].
        split; [exact H53 | lia].
    - pose proof (binary_round_aux_normal s (Zpos p) 0 loc_Exact) as H.
      rewrite <- Hd in H.
      destruct (binary_round_aux float_prec float_emax s (Zpos p) 0 loc_Exact);
        try (apply H; lia).
      + destruct H as [_ H]; [lia | lia | lia |]. apply Hbig. lia.
      + destruct H as (_ & H53 & He & Hfit); [lia | lia | lia |].
        split; [exact H53 | lia].
    - pose proof (binary_round_aux_normal s (Zpos (Pos.iter xO p k)) (d - 53)
                    loc_Exact) as H.
      rewrite Zdigits2_shift, <- Hd in H.
      destruct (binary_round_aux float_prec float_emax s
                  (Zpos (Pos.iter xO p k)) (d - 53) loc_Exact);
        try (apply H; lia).
      + destruct H as [_ H]; [lia | lia | lia |]. apply Hbig. lia.
      + destruct H as (_ & H53 & He & Hfit); [lia | lia | lia |].
        split; [exact H53 | lia]. }
  destruct n as [|p|p]; [contradiction | apply Hpos | apply Hpos].
Qed.

(** A float of 53 bits of mantissa and magnitude at least one, divided by
    a thousand, is a finite float that is not zero. *)
Lemma div_thousand_nonzero (s : bool) (m : positive) (e : Z) :
  Zdigits2 (Zpos m) = 53 -> -52 <= e <= 971 ->
  exists m' e', SFdiv float_prec float_emax (S754_finite s m e) THOUSAND
                = S754_finite s m' e'.
Proof.
  intros Hd He. unfold THOUSAND. cbn [SFdiv]. unfold SFdiv_core_binary.
  rewrite Hd.
  change (Zdigits2 (Zpos 8796093022208000)) with 53.
  assert (He' : Z.min (fexp float_prec float_emax (53 + e - (53 + -43)))
                      (e - -43) = e - 10)
    by (unfold fexp, emin, float_prec, float_emax; lia).
  rewrite He'.
  replace (e - -43 - (e - 10)) with 53 by lia.
  pose proof (Zdigits2_spec m) as Hm. rewrite Hd in Hm.
  rewrite Z.shiftl_mul_pow2 by lia.
  pose proof (Z.div_eucl_eq (Zpos m * 2 ^ 53) 8796093022208000) as Hdiv.
  pose proof (Z.mod_pos_bound (Zpos m * 2 ^ 53) 8796093022208000) as Hmod.
  unfold Z.modulo in Hmod.
  destruct (Z.div_eucl (Zpos m * 2 ^ 53) 8796093022208000) as [q r].
  assert (Hq : 2 ^ 52 <= q < 2 ^ 54) by lia.
  assert (Hdq : 53 <= Zdigits2 q <= 54).
  { destruct q as [|q|q]; try (cbn in Hq; lia).
    pose proof (Zdigits2_spec q) as Hs.
    assert (52 < Zdigits2 (Zpos q)).
    { apply (Z.pow_lt_mono_r_iff 2); [lia | | ].
      - rewrite Zdigits2_log2. pose proof (Z.log2_nonneg (Zpos q)). lia.
      - lia. }
    assert (Zdigits2 (Zpos q) - 1 < 54).
    { apply (Z.pow_lt_mono_r_iff 2); lia. }
    lia. }
  pose proof (binary_round_aux_normal (xorb s false) q (e - 10)
                (new_location 8796093022208000 r)) as H.
  destruct (binary_round_aux float_prec float_emax (xorb s false) q (e - 10)
              (new_location 8796093022208000 r)) as [s'|s'| |s' m' e'].
  - exfalso. apply H; lia.
  - destruct H as [_ H]; lia.
  - exfalso. apply H; lia.
  - destruct H as (-> & _); [lia | lia | lia |].
    rewrite xorb_false_r. eauto.
Qed.

Lemma float_of_nonzero_int (n : Z) :
  n <> 0 ->
  match float_of_int n with
  | Ok x =>
      exists s m e,
        x = S754_finite s m e /\ Zdigits2 (Zpos m) = 53 /\ -52 <= e <= 971
  | Raise _ => 2 ^ 1022 <= Z.abs n
  end.
Proof.
  intros Hn. pose proof (float_of_nonzero n Hn) as H. unfold float_of_int.
  destruct (binary_normalize float_prec float_emax n 0 false)
    as [s|s| |s m e]; try contradiction.
  - exact H.
  - destruct H as [H53 He]. exists s, m, e. auto.
Qed.

Lemma SFeqb_zero (x : float) :
  SFeqb x (S754_zero false) = true <-> exists s, x = S754_zero s.
Proof.
  split.
  - destruct x as [s|[|]| |[|] m e]; try discriminate. eauto.
  - intros [s ->]. reflexivity.
Qed.

(** ** Timeouts *)

Lemma get_timeout_None (timeout : option number) :
  _get_timeout_in_seconds timeout = Ok None <->
    timeout = None \/ timeout = Some (NInt 0) \/
    exists s, timeout = Some (NFloat (S754_zero s)).
Proof.
  unfold _get_timeout_in_seconds. split.
  - destruct timeout as [[n|x]|]; [| |auto]; cbn [truthy_number].
    + destruct (Z.eqb_spec n 0) as [->|Hne]; cbn [negb]; [auto|].
      destruct (float_of_int n); discriminate.
    + destruct (SFeqb x (S754_zero false)) eqn:Hx; cbn [negb bind];
        [|discriminate].
      apply SFeqb_zero in Hx as [s ->]. eauto.
  - intros [->|[->|[s ->]]]; reflexivity.
Qed.

Lemma get_timeout_int (n : Z) :
  n <> 0 ->
  match float_of_int n with
  | Ok x =>
      _get_timeout_in_seconds (Some (NInt n)) = Ok (Some (float_div x THOUSAND)) /\
      exists s m e, float_div x THOUSAND = S754_finite s m e
  | Raise err =>
      _get_timeout_in_seconds (Some (NInt n)) = Raise err /\
      2 ^ 1022 <= Z.abs n
  end.
Proof.
  intros Hn. pose proof (float_of_nonzero_int n Hn) as H.
  unfold _get_timeout_in_seconds. cbn [truthy_number].
  destruct (Z.eqb_spec n 0) as [|_]; [contradiction|]. cbn [negb].
  destruct (float_of_int n) as [x|err]; cbn [bind].
  - split; [reflexivity|].
    destruct H as (s & m & e & -> & H53 & He).
    destruct (div_thousand_nonzero s m e H53 He) as (m' & e' & Hdiv).
    exists s, m', e'. exact Hdiv.
  - split; [reflexivity | exact H].
Qed.

Lemma get_timeout_int_never_zero (t : option Z) (o : option float) :
  _get_timeout_in_seconds (option_map NInt t) = Ok o -> ~ zero_deadline o.
Proof.
  intros H [s ->]. destruct t as [n|]; cbn [option_map] in H; [|discriminate H].
  destruct (Z.eq_dec n 0) as [->|Hne]; [discriminate H|].
  pose proof (get_timeout_int n Hne) as Hint.
  destruct (float_of_int n) as [x|err].
  - destruct Hint as [Hget (s' & m & e & Hdiv)]. rewrite Hget in H.
    injection H as H. rewrite Hdiv in H. discriminate H.
  - destruct Hint as [Hget _]. rewrite Hget in H. discriminate H.
Qed.

Lemma build_request_timeout `{rt : Runtime} self http_method path request_dict
  http_options r :
  _build_request self http_method path request_dict http_options = Ok r ->
  exists t, _get_timeout_in_seconds (option_map NInt t) = Ok (req_timeout r).
Proof.
  unfold _build_request. intros H.
  destruct (if truthy_http_options http_options then _ else _) as [po|e];
    cbn [bind] in H; [|discriminate].
  destruct (negb (truthy_opt_str (base_url po))); [discriminate|].
  destruct (_join_url_path _ _) as [url|e]; cbn [bind] in H; [|discriminate].
  destruct (_get_timeout_in_seconds (option_map NInt (timeout po)))
    as [t|e] eqn:Ht; cbn [bind] in H; [|discriminate].
  destruct (headers po) as [h|]; [|discriminate].
  injection H as <-. cbn [req_timeout]. exists (timeout po). exact Ht.
Qed.

(** C10, as the code has it.  [_get_timeout_in_seconds] answers [None]
    exactly for [None] and for a zero, the integer or the float of either
    sign; any other input is divided by [1000.0] as a float, after the
    conversion of an integer, which raises [OverflowError] only for an
    integer of magnitude [2 ^ 1022] or more; the quotient of an integer that
    is not zero is a finite float that is not zero, so a request built by
    [_build_request], whose timeout is an integer, never carries a deadline
    of zero seconds.  The divisor is the float of the integer 1000. *)
Theorem timeout_zero_is_absent `{rt : Runtime} :
  forall (timeout : option number),
    (_get_timeout_in_seconds timeout = Ok None <->
       timeout = None \/ timeout = Some (NInt 0) \/
       exists s, timeout = Some (NFloat (S754_zero s))) /\
    (forall x, timeout = Some (NFloat x) ->
       (forall s, x <> S754_zero s) ->
       _get_timeout_in_seconds timeout = Ok (Some (float_div x THOUSAND))) /\
    (forall n, timeout = Some (NInt n) -> n <> 0 ->
       match float_of_int n with
       | Ok x =>
           _get_timeout_in_seconds timeout = Ok (Some (float_div x THOUSAND)) /\
           exists s m e, float_div x THOUSAND = S754_finite s m e
       | Raise err =>
           _get_timeout_in_seconds timeout = Raise err /\
           2 ^ 1022 <= Z.abs n
       end) /\
    (forall self http_method path request_dict http_options,
       match _build_request self http_method path request_dict http_options with
       | Ok r => ~ zero_deadline (req_timeout r)
       | Raise _ => True
       end) /\
    float_of_int 1000 = Ok THOUSAND.
Proof.
  intros timeout. split; [apply get_timeout_None|]. split; [|split; [|split]];
    [| | |reflexivity].
  - intros x -> Hx. unfold _get_timeout_in_seconds. cbn [truthy_number].
    destruct (SFeqb x (S754_zero false)) eqn:Hz; [|reflexivity].
    apply SFeqb_zero in Hz as [s ->]. contradiction (Hx s). reflexivity.
  - intros n -> Hn. apply get_timeout_int. exact Hn.
  - intros self m p d o.
    destruct (_build_request self m p d o) as [r|e] eqn:E; [|exact I].
    destruct (build_request_timeout _ _ _ _ _ _ E) as [t Ht].
    apply (get_timeout_int_never_zero t _ Ht).
Qed.

(** C10, as the specification has it, fails: an integer too large for a
    float is not divided but refused, and the smallest positive float is
    divided into a deadline of zero seconds. *)
Lemma timeout_overflow_and_underflow :
  _get_timeout_in_seconds (Some (NInt (10 ^ 400)))
    = Raise (OverflowError "int too large to convert to float") /\
  truthy_number (NFloat SMALLEST_FLOAT) = true /\
  _get_timeout_in_seconds (Some (NFloat SMALLEST_FLOAT))
    = Ok (Some (S754_zero false)) /\
  zero_deadline (Some (S754_zero false)).
Proof.
  split; [vm_compute; reflexivity|]. split; [reflexivity|].
  split; [vm_compute; reflexivity|]. exists false. reflexivity.
Qed.

(** ** The poller *)

Lemma Qplus_zero_zero : (0 + 0)%Q = 0%Q.
Proof. reflexivity. Qed.

(** While nothing raises, the time the loop compares with its budget is the
    zero it started from. *)
Lemma poll_step_total_seconds request name st st' :
  total_seconds st = 0%Q ->
  poll_step request name st = Polling st' ->
  total_seconds st' = 0%Q.
Proof.
  unfold poll_step. intros H0 H.
  destruct (negb (eq_True (dict_get (operation st) "done"))); [|discriminate].
  destruct (Qlt_le_dec LRO_POLLING_TIMEOUT_SECONDS (total_seconds st));
    [discriminate|].
  destruct (request (polls st) name); [|discriminate].
  injection H as <-. simpl. rewrite H0. reflexivity.
Qed.

Lemma poll_step_never_times_out request name st e :
  total_seconds st = 0%Q ->
  poll_step request name st = LoopRaise e ->
  exists i, request i name = Raise e.
Proof.
  unfold poll_step. intros H0 H.
  destruct (negb (eq_True (dict_get (operation st) "done"))); [|discriminate].
  destruct (Qlt_le_dec LRO_POLLING_TIMEOUT_SECONDS (total_seconds st)) as [Hlt|_].
  - rewrite H0 in Hlt. discriminate Hlt.
  - destruct (request (polls st) name) eqn:E; [discriminate|].
    injection H as <-. eauto.
Qed.

Lemma poll_step_delay request name st st' :
  delay_in_range st ->
  poll_step request name st = Polling st' ->
  delay_in_range st' /\ (slept st + 1 <= slept st')%Q /\ polls st' = S (polls st).
Proof.
  unfold poll_step, delay_in_range. intros [Hlo Hhi] H.
  destruct (negb (eq_True (dict_get (operation st) "done"))); [|discriminate].
  destruct (Qlt_le_dec LRO_POLLING_TIMEOUT_SECONDS (total_seconds st));
    [discriminate|].
  destruct (request (polls st) name); [|discriminate].
  injection H as <-. simpl. splits.
  - apply Q.min_glb.
    + unfold LRO_POLLING_MULTIPLIER.
      apply Qle_trans with (delay_seconds st * 1)%Q.
      * rewrite Qmult_1_r. exact Hlo.
      * apply Qmult_le_l; [|discriminate].
        apply Qlt_le_trans with 1%Q; [reflexivity | exact Hlo].
    + discriminate.
  - apply Q.le_min_r.
  - apply Qplus_le_r. exact Hlo.
  - reflexivity.
Qed.

Lemma poll_iter_pending request name :
  (forall i, exists op, request i name = Ok op /\
                        eq_True (dict_get op "done") = false) ->
  forall n st,
    total_seconds st = 0%Q ->
    eq_True (dict_get (operation st) "done") = false ->
    delay_in_range st ->
    exists st', poll_iter n request name st = Some st' /\
                total_seconds st' = 0%Q /\
                eq_True (dict_get (operation st') "done") = false /\
                (slept st + inject_Z (Z.of_nat n) <= slept st')%Q /\
                polls st' = (polls st + n)%nat.
Proof.
  intros Hreq n. induction n as [|n IH]; intros st H0 Hdone Hdelay.
  - exists st. simpl.
    split; [reflexivity|]. split; [exact H0|]. split; [exact Hdone|].
    split; [|lia]. rewrite Qplus_0_r. apply Qle_refl.
  - destruct (Hreq (polls st)) as (op & Hop & Hopdone).
    assert (Hstep : exists st1, poll_step request name st = Polling st1 /\
                                operation st1 = op).
    { unfold poll_step. rewrite Hdone. simpl.
      destruct (Qlt_le_dec LRO_POLLING_TIMEOUT_SECONDS (total_seconds st)) as [Hlt|_].
      - rewrite H0 in Hlt. discriminate Hlt.
      - rewrite Hop. eexists. split; reflexivity. }
    destruct Hstep as (st1 & Hstep & Hop1).
    destruct (poll_step_delay _ _ _ _ Hdelay Hstep) as (Hd1 & Hs1 & Hp1).
    pose proof (poll_step_total_seconds _ _ _ _ H0 Hstep) as H01.
    destruct (IH st1 H01) as (st' & Hit & H0' & Hdone' & Hslept & Hpolls); auto.
    { rewrite Hop1. exact Hopdone. }
    exists st'. simpl. rewrite Hstep.
    split; [exact Hit|]. split; [exact H0'|]. split; [exact Hdone'|].
    split; [|lia].
    apply Qle_trans with (slept st1 + inject_Z (Z.of_nat n))%Q; [|exact Hslept].
    rewrite Nat2Z.inj_succ. unfold Z.succ. rewrite inject_Z_plus.
    rewrite (Qplus_comm (inject_Z (Z.of_nat n)) (inject_Z 1)).
    rewrite Qplus_assoc. apply Qplus_le_l. exact Hs1.
Qed.

Lemma poll_loop_iter request name n st st' :
  poll_iter n request name st = Some st' ->
  eq_True (dict_get (operation st') "done") = false ->
  total_seconds st' = 0%Q ->
  (forall i, exists op, request i name = Ok op) ->
  poll_loop n request name st = None.
Proof.
  revert st. induction n as [|n IH]; intros st Hit Hdone H0 Hreq; [reflexivity|].
  simpl in *. destruct (poll_step request name st); try discriminate.
  eauto.
Qed.

(** C1. On a handle whose re-fetched copies never report done the poller
    does not time out: whatever the number of iterations granted, the loop
    is still running, the time it compares with the 900 seconds is still
    zero, and it has by then slept at least one second per iteration. *)
Theorem poller_never_times_out :
  forall fuel : nat,
    t_resolve_operation fuel pending_backend pending_handle = None /\
    exists st,
      poll_iter fuel pending_backend (dict_get pending_handle "name")
        (poll_init pending_handle) = Some st /\
      total_seconds st = 0%Q /\
      (inject_Z (Z.of_nat fuel) <= slept st)%Q.
Proof.
  intros fuel.
  assert (Hreq : forall i, exists op,
             pending_backend i (dict_get pending_handle "name") = Ok op /\
             eq_True (dict_get op "done") = false).
  { intros i. exists pending_handle. split; reflexivity. }
  destruct (poll_iter_pending _ _ Hreq fuel (poll_init pending_handle))
    as (st & Hit & H0 & Hdone & Hslept & _); try reflexivity.
  { split; discriminate. }
  split.
  - unfold t_resolve_operation.
    change (truthy (dict_get pending_handle "name")) with true.
    change (marker_in (dict_get pending_handle "name")) with (Ok true (A:=bool)).
    cbv iota.
    rewrite (poll_loop_iter _ _ _ _ _ Hit Hdone H0); [reflexivity|].
    intros i. destruct (Hreq i) as (op & Hop & _). eauto.
  - exists st. splits; auto.
    simpl in Hslept. rewrite Qplus_0_l in Hslept. exact Hslept.
Qed.

(** ** Transport options *)

Section Options.
Context {rt : Runtime}.

Lemma str_in_stamped (o : option string) :
  str_in version_header_value (stamped o) = true.
Proof.
  destruct o as [v|]; unfold stamped.
  - destruct (str_in version_header_value v) eqn:E; [exact E|].
    apply str_in_app, str_in_app_r.
  - apply str_in_self.
Qed.

Lemma stamped_stamped (o : option string) :
  stamped (Some (stamped o)) = stamped o.
Proof.
  unfold stamped at 1. rewrite str_in_stamped. reflexivity.
Qed.

Lemma append_version_header_same key (h : gmap string string) :
  append_version_header key h !! key = Some (stamped (h !! key)).
Proof.
  unfold append_version_header, stamped.
  destruct (h !! key) as [v|] eqn:E.
  - destruct (str_in version_header_value v); simpl;
      [exact E | apply lookup_insert_eq].
  - apply lookup_insert_eq.
Qed.

Lemma append_version_header_other key k (h : gmap string string) :
  k <> key -> append_version_header key h !! k = h !! k.
Proof.
  intros Hne. unfold append_version_header.
  destruct (h !! key) as [v|].
  - destruct (negb (str_in version_header_value v)); [|reflexivity].
    apply lookup_insert_ne. congruence.
  - apply lookup_insert_ne. congruence.
Qed.

Lemma append_library_version_headers_lookup k (h : gmap string string) :
  _append_library_version_headers h !! k =
    if bool_decide (identification_header k)
    then Some (stamped (h !! k)) else h !! k.
Proof.
  unfold _append_library_version_headers, identification_header.
  case_bool_decide as Hk.
  - destruct Hk as [-> | ->].
    + rewrite append_version_header_other by discriminate.
      apply append_version_header_same.
    + rewrite append_version_header_same.
      rewrite append_version_header_other by discriminate. reflexivity.
  - rewrite !append_version_header_other; [reflexivity| |]; intros ->; tauto.
Qed.

Lemma dict_merge_lookup (a b : gmap string string) k :
  dict_merge a b !! k = if_not_None (b !! k) (a !! k).
Proof.
  unfold dict_merge. rewrite lookup_union.
  destruct (b !! k), (a !! k); reflexivity.
Qed.

Lemma patch_headers_lookup (options patch_options : HttpOptions) :
  exists h,
    headers (_patch_http_options options patch_options) = Some h /\
    forall k,
      h !! k =
        let merged := if_not_None (or_empty (headers patch_options) !! k)
                                  (or_empty (headers options) !! k) in
        if bool_decide (identification_header k)
        then Some (stamped merged) else merged.
Proof.
  eexists. split; [reflexivity|]. intros k. simpl.
  rewrite append_library_version_headers_lookup, dict_merge_lookup. reflexivity.
Qed.

(** C2, as the code has it.  The merged headers hold every key of both
    maps; on every key but the two identification headers the value of the
    patch wins, else the one of the base stays; an identification header
    holds the merged value when the version labels already occur in it, the
    merged value followed by a blank and the labels when they do not, and the
    labels alone when neither map has the header, so the labels always occur
    in it; and a second patch that does not carry the header leaves it as
    it is. *)
Theorem patch_headers_merged :
  forall (options patch_options : HttpOptions),
  exists h,
    headers (_patch_http_options options patch_options) = Some h /\
    (forall k, is_Some (or_empty (headers options) !! k) \/
               is_Some (or_empty (headers patch_options) !! k) ->
               is_Some (h !! k)) /\
    (forall k, ~ identification_header k ->
               h !! k = if_not_None (or_empty (headers patch_options) !! k)
                                    (or_empty (headers options) !! k)) /\
    (forall k, identification_header k ->
               h !! k = Some (stamped
                 (if_not_None (or_empty (headers patch_options) !! k)
                              (or_empty (headers options) !! k))) /\
               exists v, h !! k = Some v /\
                         str_in version_header_value v = true) /\
    (forall k later, identification_header k ->
               or_empty (headers later) !! k = None ->
               exists h2,
                 headers (_patch_http_options
                            (_patch_http_options options patch_options) later)
                   = Some h2 /\
                 h2 !! k = h !! k).
Proof.
  intros options patch_options.
  destruct (patch_headers_lookup options patch_options) as (h & Hh & Hlook).
  exists h. split; [exact Hh|]. splits.
  - intros k Hk. rewrite Hlook. simpl. case_bool_decide; [eauto|].
    destruct Hk as [[v ->] | [v ->]]; simpl; [|eauto].
    destruct (or_empty (headers patch_options) !! k); simpl; eauto.
  - intros k Hk. rewrite Hlook. simpl. rewrite bool_decide_eq_false_2; auto.
  - intros k Hk. rewrite Hlook. simpl. rewrite bool_decide_eq_true_2 by auto.
    split; [reflexivity|]. eexists. split; [reflexivity|]. apply str_in_stamped.
  - intros k later Hk Hlater.
    destruct (patch_headers_lookup (_patch_http_options options patch_options) later)
      as (h2 & Hh2 & Hlook2).
    exists h2. split; [exact Hh2|].
    rewrite Hlook2. cbv zeta. rewrite bool_decide_eq_true_2 by auto.
    rewrite Hlater, Hh. cbn [if_not_None or_empty].
    rewrite Hlook. cbv zeta. rewrite bool_decide_eq_true_2 by auto.
    rewrite stamped_stamped. reflexivity.
Qed.

(** C3, as the code has it.  A field of the patch that is not [None]
    replaces the one of the base, an empty string or a zero included; a field
    that the patch leaves [None] keeps the value of the base. *)
Theorem patch_fields_not_None :
  forall (options patch_options : HttpOptions),
    let merged := _patch_http_options options patch_options in
    (forall v, base_url patch_options = Some v -> base_url merged = Some v) /\
    (base_url patch_options = None -> base_url merged = base_url options) /\
    (forall v, api_version patch_options = Some v -> api_version merged = Some v) /\
    (api_version patch_options = None -> api_version merged = api_version options) /\
    (forall v, timeout patch_options = Some v -> timeout merged = Some v) /\
    (timeout patch_options = None -> timeout merged = timeout options).
Proof.
  intros options patch_options merged. subst merged. simpl.
  splits; try (intros v Hv; rewrite Hv; reflexivity);
    intros Hv; rewrite Hv; reflexivity.
Qed.

End Options.

(** C2, as stated, fails: when the patch brings a [user-agent] that already
    holds the version labels twice, the merged header still holds them
    twice. *)
Lemma patch_headers_token_twice :
  ~ token_exactly_once (rt := Reference.runtime)
      (or_empty
         (headers
            (_patch_http_options (rt := Reference.runtime) HttpOptions_default
               twice_labelled_patch))).
Proof.
  intros H.
  destruct (H "user-agent") as (v & Hv & Hocc); [left; reflexivity|].
  vm_compute in Hv. injection Hv as <-. vm_compute in Hocc. discriminate.
Qed.

(** C3, as stated, fails: an empty string is not a non-empty value, yet as
    the base URL of the patch it replaces the one of the base. *)
Lemma patch_empty_string_replaces :
  base_url (_patch_http_options (rt := Reference.runtime) example_base
              empty_url_patch) = Some EmptyString /\
  base_url (_patch_http_options (rt := Reference.runtime) example_base
              empty_url_patch)
    <> nonempty_override (base_url example_base) (base_url empty_url_patch).
Proof.
  split; [reflexivity | discriminate].
Qed.

(** ** Client construction *)

(** C4. A construction that is given an API key together with a project, a
    location or credentials raises a [ValueError] whose message speaks of
    mutual exclusivity, whatever the other arguments and the environment;
    no client is made. *)
Theorem init_mutually_exclusive `{rt : Runtime} :
  forall amb vertexai modelgarden api_key credentials project location
         http_options,
    truthy_opt_str api_key = true ->
    truthy_opt_str project = true \/ truthy_opt_str location = true \/
      credentials <> None ->
    exists msg,
      BaseApiClient__init__ amb vertexai modelgarden api_key credentials
        project location http_options = Raise (ValueError msg) /\
      str_in "mutually exclusive" msg = true.
Proof.
  intros amb vx mg api_key credentials project location http_options Hkey Hother.
  unfold BaseApiClient__init__. rewrite Hkey, !andb_true_r.
  destruct (truthy_opt_str project || truthy_opt_str location) eqn:Hpl.
  - exists MUTEX_PROJECT_API_KEY. split; reflexivity.
  - apply orb_false_elim in Hpl as [Hp Hl].
    destruct Hother as [H | [H | H]]; [congruence | congruence |].
    destruct credentials as [c|]; [|congruence].
    exists MUTEX_CREDENTIALS_API_KEY. split; reflexivity.
Qed.

Lemma init_mutually_exclusive_witness :
  exists msg,
    BaseApiClient__init__ (rt := Reference.runtime)
      {| environ := ∅; auth_default := Raise (RuntimeError "no credentials") |}
      None None (Some "k") None (Some "p") None None = Raise (ValueError msg) /\
    str_in "mutually exclusive" msg = true.
Proof.
  apply (init_mutually_exclusive (rt := Reference.runtime)).
  - reflexivity.
  - left. reflexivity.
Defined.

(** ** Streamed segments *)

Lemma segments_lines_decode_each json_loads utf8_decode (lines : list string) :
  segments_lines json_loads utf8_decode (map LineStr lines) =
    decode_each json_loads (map strip_data_prefix (List.filter truthy_str lines)).
Proof.
  induction lines as [|l lines IH]; [reflexivity|].
  cbn [map segments_lines List.filter]. unfold decode_line at 1.
  destruct (truthy_str l) eqn:Hl.
  - cbn [map decode_each bind]. fold (strip_data_prefix l).
    destruct (json_loads (strip_data_prefix l)); cbn [bind]; [|reflexivity].
    rewrite IH. reflexivity.
  - exact IH.
Qed.

(** C5. On a response read line by line, [segments] skips the blank lines,
    strips the marker [data: ] from the lines that start with it and decodes
    every remaining line as one JSON text, handing the values out in the
    order of the lines, up to the first line that does not decode; the three
    lines of the scenario give the two objects [{a: 1}] and [{a: 2}], in
    this order, and nothing else. *)
Theorem segments_streaming_decode :
  (forall json_loads utf8_decode (lines : list string),
     segments json_loads utf8_decode (StreamLines (map LineStr lines)) =
       decode_each json_loads
         (map strip_data_prefix (List.filter truthy_str lines))) /\
  segments Json.loads Json.decode_ascii (StreamLines scenario_lines) =
    ([PDict [("a", PInt 1)]; PDict [("a", PInt 2)]], None).
Proof.
  split.
  - intros. apply segments_lines_decode_each.
  - vm_compute. reflexivity.
Qed.

(** ** Base64 *)

Ltac lia_div := zify; Z.to_euclidean_division_equations; lia.

Lemma b64index_b64char (n : N) :
  (n < 64)%N -> Base64.b64index (Base64.b64char n) = Some n.
Proof.
  intros Hn.
  assert (Hall : forallb
            (fun i => match Base64.b64index (Base64.b64char (N.of_nat i)) with
                      | Some m => (m =? N.of_nat i)%N
                      | None => false
                      end) (seq 0 64) = true) by (vm_compute; reflexivity).
  rewrite forallb_forall in Hall.
  specialize (Hall (N.to_nat n)). rewrite N2Nat.id in Hall.
  destruct (Base64.b64index (Base64.b64char n)) as [m|].
  - rewrite (proj1 (N.eqb_eq m n)); [reflexivity|].
    apply Hall. apply in_seq. lia.
  - discriminate Hall. apply in_seq. lia.
Qed.

Lemma b64char_not_pad (n : N) :
  (n < 64)%N -> Ascii.eqb (Base64.b64char n) Base64.PAD = false.
Proof.
  intros Hn. destruct (Ascii.eqb_spec (Base64.b64char n) Base64.PAD) as [E|]; auto.
  pose proof (b64index_b64char n Hn) as H. rewrite E in H. discriminate H.
Qed.

Lemma urlsafe_translation_b64char (n : N) :
  (n < 64)%N ->
  Base64._urlsafe_decode_translation
    (Base64._urlsafe_encode_translation (Base64.b64char n)) = Base64.b64char n.
Proof.
  intros Hn.
  assert (Hall : forallb
            (fun i => Ascii.eqb
               (Base64._urlsafe_decode_translation
                  (Base64._urlsafe_encode_translation (Base64.b64char (N.of_nat i))))
               (Base64.b64char (N.of_nat i))) (seq 0 64) = true)
    by (vm_compute; reflexivity).
  rewrite forallb_forall in Hall.
  specialize (Hall (N.to_nat n)). rewrite N2Nat.id in Hall.
  apply Ascii.eqb_eq, Hall, in_seq. lia.
Qed.

Lemma bytes_of_to_N (l : list byte) :
  Base64.bytes_of (map Byte.to_N l) = Some l.
Proof.
  unfold Base64.bytes_of. induction l as [|x l IH]; [reflexivity|].
  cbn [map mapM]. rewrite Byte.of_to_N. cbn. rewrite IH. reflexivity.
Qed.

Lemma byte_lt_256 (x : byte) : (Byte.to_N x < 256)%N.
Proof. pose proof (Byte.to_N_bounded x). lia. Qed.

Lemma decode4_encode3 (a b c : byte) :
  exists c1 c2 c3 c4,
    Base64.encode3 a b c = Base64.chars [c1; c2; c3; c4] /\
    Ascii.eqb c4 Base64.PAD = false /\
    Base64.decode4 c1 c2 c3 c4 = Some [a; b; c].
Proof.
  pose proof (byte_lt_256 a). pose proof (byte_lt_256 b).
  pose proof (byte_lt_256 c).
  do 4 eexists. split; [reflexivity|]. split.
  - apply b64char_not_pad. lia_div.
  - unfold Base64.decode4.
    rewrite !b64index_b64char by lia_div. cbn [mbind option_bind].
    rewrite <- (bytes_of_to_N [a; b; c]). cbn [map]. f_equal.
    f_equal; [|f_equal; [|f_equal]]; lia_div.
Qed.

Lemma decode3_encode2 (a b : byte) :
  exists c1 c2 c3,
    Base64.encode2 a b = Base64.chars [c1; c2; c3; Base64.PAD] /\
    Ascii.eqb c3 Base64.PAD = false /\
    Base64.decode3 c1 c2 c3 = Some [a; b].
Proof.
  pose proof (byte_lt_256 a). pose proof (byte_lt_256 b).
  do 3 eexists. split; [reflexivity|]. split.
  - apply b64char_not_pad. lia_div.
  - unfold Base64.decode3.
    rewrite !b64index_b64char by lia_div. cbn [mbind option_bind].
    rewrite <- (bytes_of_to_N [a; b]). cbn [map]. f_equal.
    f_equal; [|f_equal]; lia_div.
Qed.

Lemma decode2_encode1 (a : byte) :
  exists c1 c2,
    Base64.encode1 a = Base64.chars [c1; c2; Base64.PAD; Base64.PAD] /\
    Base64.decode2 c1 c2 = Some [a].
Proof.
  pose proof (byte_lt_256 a).
  do 2 eexists. split; [reflexivity|].
  unfold Base64.decode2.
  rewrite !b64index_b64char by lia_div. cbn [mbind option_bind].
  rewrite <- (bytes_of_to_N [a]). cbn [map]. f_equal.
  f_equal. lia_div.
Qed.

Lemma list_ind3 {A} (P : list A -> Prop) :
  P [] -> (forall a, P [a]) -> (forall a b, P [a; b]) ->
  (forall a b c l, P l -> P (a :: b :: c :: l)) ->
  forall l, P l.
Proof.
  intros H0 H1 H2 H3.
  fix IH 1.
  intros [|a [|b [|c l]]]; [exact H0 | apply H1 | apply H2 | apply H3, IH].
Qed.

Lemma b64encode_empty (data : list byte) :
  Base64.b64encode data = EmptyString -> data = [].
Proof.
  destruct data as [|a [|b [|c r]]]; [reflexivity | | |]; discriminate.
Qed.

Lemma b64decode_b64encode (data : list byte) :
  Base64.b64decode (Base64.b64encode data) = Some data.
Proof.
  induction data as [|a|a b|a b c rest IH] using list_ind3.
  - reflexivity.
  - destruct (decode2_encode1 a) as (c1 & c2 & E & D).
    cbn [Base64.b64encode]. rewrite E. cbn. exact D.
  - destruct (decode3_encode2 a b) as (c1 & c2 & c3 & E & Hp & D).
    cbn [Base64.b64encode]. rewrite E. cbn. rewrite Hp. exact D.
  - destruct (decode4_encode3 a b c) as (c1 & c2 & c3 & c4 & E & Hp & D).
    cbn [Base64.b64encode]. rewrite E.
    cbn [Base64.chars string_of_list_ascii].
    rewrite !append_cons, append_empty_l. cbn [Base64.b64decode].
    destruct (Base64.b64encode rest) as [|x s] eqn:Er.
    + apply b64encode_empty in Er. subst rest. rewrite Hp. exact D.
    + rewrite D, IH. reflexivity.
Qed.

Lemma str_map_app f (s t : string) :
  Base64.str_map f (s +:+ t) = Base64.str_map f s +:+ Base64.str_map f t.
Proof.
  induction s as [|c s IH]; [reflexivity|].
  rewrite append_cons. cbn [Base64.str_map]. rewrite IH. reflexivity.
Qed.

Lemma urlsafe_translation_b64encode (data : list byte) :
  Base64.str_map Base64._urlsafe_decode_translation
    (Base64.str_map Base64._urlsafe_encode_translation (Base64.b64encode data))
  = Base64.b64encode data.
Proof.
  induction data as [|a|a b|a b c rest IH] using list_ind3.
  - reflexivity.
  - pose proof (byte_lt_256 a).
    cbn [Base64.b64encode]. unfold Base64.encode1.
    cbn [Base64.chars string_of_list_ascii Base64.str_map].
    rewrite !urlsafe_translation_b64char by lia_div. reflexivity.
  - pose proof (byte_lt_256 a). pose proof (byte_lt_256 b).
    cbn [Base64.b64encode]. unfold Base64.encode2.
    cbn [Base64.chars string_of_list_ascii Base64.str_map].
    rewrite !urlsafe_translation_b64char by lia_div. reflexivity.
  - pose proof (byte_lt_256 a). pose proof (byte_lt_256 b).
    pose proof (byte_lt_256 c).
    cbn [Base64.b64encode]. rewrite !str_map_app, IH. f_equal.
    unfold Base64.encode3.
    cbn [Base64.chars string_of_list_ascii Base64.str_map].
    rewrite !urlsafe_translation_b64char by lia_div. reflexivity.
Qed.

Lemma urlsafe_b64decode_b64encode (data : list byte) :
  Base64.urlsafe_b64decode (Base64.urlsafe_b64encode data) = Some data.
Proof.
  unfold Base64.urlsafe_b64decode, Base64.urlsafe_b64encode.
  rewrite urlsafe_translation_b64encode. apply b64decode_b64encode.
Qed.

(** C7. The text that [t_bytes] makes of a byte string decodes back to the
    byte string: with the standard decoder for a Vertex AI client, with the
    URL-safe decoder for any other client. *)
Theorem t_bytes_round_trip :
  forall (api_client : BaseApiClient) (b : list byte),
  exists s,
    t_bytes api_client (PBytes b) = PStr s /\
    (if truthy_opt_bool (vertexai api_client)
     then Base64.b64decode s
     else Base64.urlsafe_b64decode s) = Some b.
Proof.
  intros api_client b. unfold t_bytes.
  destruct (truthy_opt_bool (vertexai api_client)); eexists; (split; [reflexivity|]).
  - apply b64decode_b64encode.
  - apply urlsafe_b64decode_b64encode.
Qed.

(** ** Chunked upload *)

Section UploadFacts.
Variables (block k : nat) (self : BaseApiClient) (server : upload_server)
  (url : string) (http_options : option HttpOptionsOrDict) (file : list byte)
  (t : option float).
Hypothesis block_pos : (0 < block)%nat.
Hypothesis file_length : length file = (k * block)%nat.
Hypothesis timeout_ok : upload_timeout_in_seconds self http_options = Ok t.

Let expected := expected_upload block k url t file.

Lemma finalize_test (i : nat) :
  (i < k)%nat ->
  (Z.of_nat (k * block) <=? Z.of_nat block + Z.of_nat (i * block)) =
    (S i =? k)%nat.
Proof.
  intros Hi. destruct (Nat.eqb_spec (S i) k) as [<-|Hne].
  - apply Z.leb_le. cbn [Nat.mul]. lia.
  - apply Z.leb_gt.
    assert (S (S i) * block <= k * block)%nat
      by (apply Nat.mul_le_mono_r; lia).
    cbn [Nat.mul] in *. lia.
Qed.

Lemma chunk_length (i : nat) :
  (i < k)%nat -> length (take block (drop (i * block) file)) = block.
Proof.
  intros Hi. rewrite length_take, length_drop, file_length.
  assert (S i * block <= k * block)%nat by (apply Nat.mul_le_mono_r; lia).
  cbn [Nat.mul] in *. lia.
Qed.

Lemma sent_snoc (i : nat) :
  (map expected (seq 0 i) ++ [expected i])%list = map expected (seq 0 (S i)).
Proof. rewrite seq_S, map_app. reflexivity. Qed.

Lemma upload_loop_from (fuel i : nat) :
  (i < k)%nat -> (k - i <= fuel)%nat ->
  exists n r,
    ((i < n)%nat /\ (n <= k)%nat) /\
    upload_loop block fuel self server url (Z.of_nat (k * block)) http_options
      (drop (i * block) file) (Z.of_nat (i * block)) (map expected (seq 0 i))
    = Some (map expected (seq 0 n), r) /\
    ((exists response, r = Ok response) <->
       upload_status (server (n - 1)%nat (expected (n - 1)%nat)) = Some "final") /\
    ((forall j, ((i <= j)%nat /\ (j < k - 1)%nat) ->
        upload_status (server j (expected j)) = Some "active") -> n = k).
Proof.
  revert i. induction fuel as [|fuel IH]; intros i Hi Hfuel; [lia|].
  cbn [upload_loop]. rewrite timeout_ok.
  rewrite (chunk_length i Hi), (finalize_test i Hi).
  rewrite length_map, length_seq.
  change (if (S i =? k)%nat then "upload" +:+ ", finalize" else "upload")
    with (if (S i =? k)%nat then "upload, finalize" else "upload").
  fold (expected_upload block k url t file i). fold expected.
  rewrite sent_snoc.
  destruct (upload_status (server i (expected i))) as [status|] eqn:Hstatus.
  - destruct (String.eqb_spec status "active") as [->|Hactive]; cbn [negb].
    + replace (Z.of_nat (i * block) + Z.of_nat block)
        with (Z.of_nat block + Z.of_nat (i * block)) by lia.
      rewrite (finalize_test i Hi).
      destruct (Nat.eqb_spec (S i) k) as [Hk|Hk].
      * exists (S i), (Raise (ValueError
          "All content has been uploaded, but the upload status is not finalized.")).
        split; [lia|]. split; [reflexivity|].
        replace (S i - 1)%nat with i by lia. rewrite Hstatus. split.
        -- split; [intros [? ?]; discriminate | discriminate].
        -- intros _. exact Hk.
      * destruct (IH (S i)) as (n & r & Hn & Hrun & Hok & Hall); [lia | lia |].
        exists n, r. split; [lia|]. split.
        -- rewrite <- Hrun. f_equal.
           ++ rewrite drop_drop. f_equal. cbn [Nat.mul]. lia.
           ++ cbn [Nat.mul]. lia.
        -- split; [exact Hok|]. intros Hact. apply Hall.
           intros j Hj. apply Hact. lia.
    + assert (Hall : (forall j, (i <= j)%nat /\ (j < k - 1)%nat ->
                  upload_status (server j (expected j)) = Some "active") ->
                S i = k).
      { intros Hact. destruct (Nat.eq_dec (S i) k) as [|Hne]; [assumption|].
        rewrite Hact in Hstatus by lia. congruence. }
      destruct (String.eqb_spec status "final") as [->|Hfinal]; cbn [negb];
        exists (S i); eexists; (split; [lia|]); (split; [reflexivity|]);
        replace (S i - 1)%nat with i by lia; rewrite Hstatus;
        (split; [|exact Hall]).
      * split; [reflexivity | eauto].
      * split; [intros [? ?]; discriminate | congruence].
  - exists (S i). eexists. split; [lia|]. split; [reflexivity|].
    replace (S i - 1)%nat with i by lia. rewrite Hstatus. split.
    + split; [intros [? ?]; discriminate | discriminate].
    + intros Hact. destruct (Nat.eq_dec (S i) k) as [|Hne]; [assumption|].
      rewrite Hact in Hstatus by lia. discriminate.
Qed.

End UploadFacts.

Lemma upload_loop_exact :
  forall (block k : nat) self server url http_options (file : list byte) t fuel,
    (0 < block)%nat -> (0 < k)%nat ->
    length file = (k * block)%nat ->
    upload_timeout_in_seconds self http_options = Ok t ->
    (k <= fuel)%nat ->
    exists n r,
      ((1 <= n)%nat /\ (n <= k)%nat) /\
      upload_loop block fuel self server url (Z.of_nat (k * block))
        http_options file 0 []
      = Some (map (expected_upload block k url t file) (seq 0 n), r) /\
      ((exists response, r = Ok response) <->
         upload_status
           (server (n - 1)%nat (expected_upload block k url t file (n - 1)%nat))
         = Some "final") /\
      ((forall j, (j < k - 1)%nat ->
          upload_status (server j (expected_upload block k url t file j))
          = Some "active") -> n = k).
Proof.
  intros block k self server url http_options file t fuel
    Hblock Hk Hlen Ht Hfuel.
  destruct (upload_loop_from block k self server url http_options file t
              Hblock Hlen Ht fuel 0%nat) as (n & r & Hn & Hrun & Hok & Hall);
    [lia | lia |].
  exists n, r. split; [lia|]. split; [exact Hrun|]. split; [exact Hok|].
  intros Hact. apply Hall. intros j Hj. apply Hact. lia.
Qed.

(** C6. When the declared size and the file are [k] full blocks, [k] at
    least one, the loop makes at most [k] POSTs, the [i]-th at offset [i]
    blocks with one full block as its content; the command is [upload,
    finalize] on the [k]-th of them, which carries the last full block, and
    [upload] on the others, and no POST comes after the [k]-th.  The call
    returns a response exactly when the status of the last answer is
    [final], and raises otherwise; the [k] POSTs are all made when the
    server answers [active] to the first [k - 1]. *)
Theorem upload_exact_multiple :
  forall (block k : nat) self server url http_options (file : list byte) t fuel,
    (0 < block)%nat -> (0 < k)%nat ->
    length file = (k * block)%nat ->
    upload_timeout_in_seconds self http_options = Ok t ->
    (k <= fuel)%nat ->
    exists n r,
      ((1 <= n)%nat /\ (n <= k)%nat) /\
      upload_loop block fuel self server url (Z.of_nat (k * block))
        http_options file 0 []
      = Some (map (expected_upload block k url t file) (seq 0 n), r) /\
      ((exists response, r = Ok response) <->
         upload_status
           (server (n - 1)%nat (expected_upload block k url t file (n - 1)%nat))
         = Some "final") /\
      ((forall j, (j < k - 1)%nat ->
          upload_status (server j (expected_upload block k url t file j))
          = Some "active") -> n = k).
Proof.
  intros block k self server url http_options file t fuel
    Hblock Hk Hlen Ht Hfuel.
  exact (upload_loop_exact block k self server url http_options file t fuel
           Hblock Hk Hlen Ht Hfuel).
Qed.

Lemma upload_exact_multiple_witness :
  exists n r,
    ((1 <= n)%nat /\ (n <= 2)%nat) /\
    upload_loop 2 2 direct_client finalizing_server
      "https://upload.example/" (Z.of_nat (2 * 2)) None
      [x00; x01; x02; x03] 0 []
    = Some (map (expected_upload 2 2 "https://upload.example/" None
                   [x00; x01; x02; x03]) (seq 0 n), r) /\
    ((exists response, r = Ok response) <->
       upload_status
         (finalizing_server (n - 1)%nat
            (expected_upload 2 2 "https://upload.example/" None
               [x00; x01; x02; x03] (n - 1)%nat))
       = Some "final") /\
    ((forall j, (j < 2 - 1)%nat ->
        upload_status
          (finalizing_server j
             (expected_upload 2 2 "https://upload.example/" None
                [x00; x01; x02; x03] j))
        = Some "active") -> n = 2%nat).
Proof.
  apply (upload_exact_multiple 2 2 direct_client
           finalizing_server "https://upload.example/" None
           [x00; x01; x02; x03] None 2).
  - lia.
  - lia.
  - reflexivity.
  - reflexivity.
  - lia.
Defined.

(** The same for [_upload_fd] itself, whose blocks are 8 MiB. *)
Corollary upload_fd_exact_multiple :
  forall (k : nat) self server url http_options (file : list byte) t fuel,
    (0 < k)%nat ->
    length file = (k * Z.to_nat CHUNK_SIZE)%nat ->
    upload_timeout_in_seconds self http_options = Ok t ->
    (k <= fuel)%nat ->
    let expected := expected_upload (Z.to_nat CHUNK_SIZE) k url t file in
    exists n r,
      ((1 <= n)%nat /\ (n <= k)%nat) /\
      _upload_fd fuel self server file url (Z.of_nat k * CHUNK_SIZE) http_options
      = Some (map expected (seq 0 n), r) /\
      ((exists response, r = Ok response) <->
         upload_status (server (n - 1)%nat (expected (n - 1)%nat)) = Some "final") /\
      ((forall j, (j < k - 1)%nat ->
          upload_status (server j (expected j)) = Some "active") -> n = k).
Proof.
  intros k self server url http_options file t fuel Hk Hlen Ht Hfuel expected.
  unfold _upload_fd.
  replace (Z.of_nat k * CHUNK_SIZE) with (Z.of_nat (k * Z.to_nat CHUNK_SIZE)).
  - apply upload_loop_exact; auto. unfold CHUNK_SIZE. lia.
  - rewrite Nat2Z.inj_mul, Z2Nat.id; [reflexivity|]. unfold CHUNK_SIZE. lia.
Qed.

(** ** The live input encoder *)

Lemma dict_has_nonempty (d : list (string * pyval)) (k : string) :
  dict_has d k = true -> truthy (PDict d) = true.
Proof. destruct d; [discriminate | reflexivity]. Qed.

Section LiveFacts.
Context {md : Models}.

Lemma format_input_function_response vertex d :
  dict_has d "name" = true -> dict_has d "response" = true ->
  dict_has d "data" = false ->
  format_input vertex (PDict d) =
    if negb vertex && negb (dict_has d "id")
    then Raise (ValueError _FUNCTION_RESPONSE_REQUIRES_ID)
    else Ok (PList [PDict d]).
Proof.
  intros Hname Hresponse Hdata. unfold format_input.
  rewrite Hdata, Hname, Hresponse. reflexivity.
Qed.

(** C8, as the code has it.  A dict with the keys [name] and [response]
    and without [id].  When it has no key [data]: for a client that is not a
    Vertex AI client the encoder raises the error that asks for an id; for a
    Vertex AI client, when [types.FunctionResponse] accepts the dict, the
    encoder answers the message whose one key is [tool_response], holding
    the one function response: its name, its response, and its id when the
    validated response has one.  When it has a key [data] it is read as a
    blob first, and for either client the encoder raises the error of an
    unsupported input when [types.Blob] refuses it. *)
Theorem tool_response_requires_id :
  forall (self : BaseApiClient) (d : list (string * pyval))
         (end_of_turn : option bool),
    dict_has d "name" = true -> dict_has d "response" = true ->
    dict_has d "id" = false ->
    (dict_has d "data" = false ->
       (truthy_opt_bool (vertexai self) = false ->
          _parse_client_message self (PDict d) end_of_turn =
            Raise (ValueError _FUNCTION_RESPONSE_REQUIRES_ID)) /\
       (truthy_opt_bool (vertexai self) = true ->
          forall f, construct FunctionResponse d = Some f ->
            _parse_client_message self (PDict d) end_of_turn =
              Ok (PDict
                    [("tool_response",
                      PDict
                        [("function_responses",
                          PList
                            [PDict
                               (if truthy
                                     (dict_get (model_dump FunctionResponse f) "id")
                                then
                                  [("name",
                                    dict_get (model_dump FunctionResponse f) "name");
                                   ("response",
                                    dict_get (model_dump FunctionResponse f)
                                      "response");
                                   ("id",
                                    dict_get (model_dump FunctionResponse f) "id")]
                                else
                                  [("name",
                                    dict_get (model_dump FunctionResponse f) "name");
                                   ("response",
                                    dict_get (model_dump FunctionResponse f)
                                      "response")])])])]))) /\
    (dict_has d "data" = true -> construct Blob d = None ->
       _parse_client_message self (PDict d) end_of_turn =
         Raise (UnsupportedInput (PDict d))).
Proof.
  intros self d e Hname Hresponse Hid.
  pose proof (dict_has_nonempty d "name" Hname) as Htruthy.
  split.
  - intros Hdata. unfold _parse_client_message. rewrite Htruthy. cbn [negb].
    rewrite (format_input_function_response _ d Hname Hresponse Hdata), Hid.
    split; intros Hv; rewrite Hv; cbn [negb andb bind]; [reflexivity|].
    intros f Hf.
    cbn [sequence_items existsb is_function_response_dict].
    rewrite Hname, Hresponse. cbn [andb orb function_responses_input].
    rewrite Hf, andb_false_r. reflexivity.
  - intros Hdata Hblob. unfold _parse_client_message. rewrite Htruthy.
    cbn [negb format_input]. rewrite Hdata, Hblob. reflexivity.
Qed.

(** C8, as the specification has it, fails for a dict that also has a key
    [data]: it is read as a blob, and a blob whose data is a number is
    refused for either client, with the error of an unsupported input. *)
Lemma tool_response_with_data_is_a_blob :
  (dict_has response_with_data "name" = true /\
   dict_has response_with_data "response" = true /\
   dict_has response_with_data "id" = false) /\
  _parse_client_message (md := Reference.models) direct_client
    (PDict response_with_data) (Some true)
  = Raise (UnsupportedInput (PDict response_with_data)) /\
  _parse_client_message (md := Reference.models) vertex_client
    (PDict response_with_data) (Some true)
  = Raise (UnsupportedInput (PDict response_with_data)).
Proof.
  split; [split; [reflexivity | split; reflexivity]|].
  split; reflexivity.
Qed.

(** C9. A plain string that is not empty goes to [types.Content] as one
    content of role [user] whose parts are the one text part holding the
    string; what the converter of the client's personality makes of this
    content is validated, and the encoder answers the message whose one key
    is [client_content], with exactly one turn, holding the parts and the
    role of the validated content, and with the caller's [end_of_turn] as
    [turn_complete].  An input that is absent or empty gives the
    [client_content] message that only says [turn_complete] true. *)
Theorem plain_string_is_one_text_turn :
  forall (self : BaseApiClient) (s : string) (end_of_turn : option bool)
         (content wire validated : list (string * pyval)) (parts : pyval),
    truthy_str s = true ->
    is_PartUnion (PStr s) = true ->
    construct Content
      [("role", PStr "user"); ("parts", PList [PObj Part [("text", PStr s)]])]
      = Some content ->
    (if truthy_opt_bool (vertexai self)
     then _Content_to_vertex else _Content_to_mldev) (PObj Content content)
      = Ok wire ->
    construct Content wire = Some validated ->
    dict_lookup (model_dump Content validated) "parts" = Some parts ->
    _parse_client_message self (PStr s) end_of_turn =
      Ok (PDict
            [("client_content",
              PDict
                [("turns",
                  PList [PDict [("parts", parts);
                                ("role", dict_get validated "role")]]);
                 ("turn_complete",
                  match end_of_turn with
                  | Some b => PBool b
                  | None => PNone
                  end)])]) /\
    (forall input e,
       truthy input = false ->
       _parse_client_message self input e =
         Ok (PDict [("client_content", PDict [("turn_complete", PBool true)])])).
Proof.
  intros self s e content wire validated parts Hs Hpart Hcontent Hconv Hf Hparts.
  split.
  - unfold _parse_client_message. cbn [truthy]. rewrite Hs.
    cbn [negb format_input bind sequence_items existsb
         is_function_response_dict is_str orb].
    unfold client_content_of_sequence. cbn [List.filter]. rewrite Hpart.
    unfold t_contents. cbn [truthy negb map_result].
    unfold t_content. cbn [truthy]. rewrite Hs. cbn [negb].
    unfold t_parts, t_part. cbn [truthy]. rewrite Hs. cbn [negb bind].
    rewrite Hcontent. cbn [bind].
    destruct (truthy_opt_bool (vertexai self)); cbv iota in Hconv |- *;
      cbn [map_result]; rewrite Hconv; cbn [bind map_result];
      unfold content_dict; rewrite Hf, Hparts; reflexivity.
  - intros input e' Hin. unfold _parse_client_message. rewrite Hin. reflexivity.
Qed.

End LiveFacts.

Lemma tool_response_requires_id_witness :
  _parse_client_message (md := Reference.models) direct_client
    (PDict response_without_id) (Some true)
  = Raise (ValueError _FUNCTION_RESPONSE_REQUIRES_ID) /\
  _parse_client_message (md := Reference.models) vertex_client
    (PDict response_without_id) (Some true)
  = Ok (PDict
          [("tool_response",
            PDict
              [("function_responses",
                PList
                  [PDict [("name", PStr "get_weather");
                          ("response", PDict [("celsius", PInt 21)])]])])]) /\
  _parse_client_message (md := Reference.models) vertex_client
    (PDict response_with_data) (Some true)
  = Raise (UnsupportedInput (PDict response_with_data)).
Proof.
  split; [|split].
  - destruct (tool_response_requires_id (md := Reference.models) direct_client
                response_without_id (Some true) eq_refl eq_refl eq_refl)
      as [Hplain _].
    destruct (Hplain eq_refl) as [Hdirect _]. exact (Hdirect eq_refl).
  - destruct (tool_response_requires_id (md := Reference.models) vertex_client
                response_without_id (Some true) eq_refl eq_refl eq_refl)
      as [Hplain _].
    destruct (Hplain eq_refl) as [_ Hvertex].
    exact (Hvertex eq_refl response_without_id eq_refl).
  - destruct (tool_response_requires_id (md := Reference.models) vertex_client
                response_with_data (Some true) eq_refl eq_refl eq_refl)
      as [_ Hblob].
    exact (Hblob eq_refl eq_refl).
Defined.

Lemma plain_string_is_one_text_turn_witness :
  _parse_client_message (md := Reference.models) direct_client (PStr "hi")
    (Some true)
  = Ok (PDict
          [("client_content",
            PDict
              [("turns",
                PList [PDict [("parts", PList [PDict [("text", PStr "hi")]]);
                              ("role", PStr "user")]]);
               ("turn_complete", PBool true)])]) /\
  (forall input e,
     truthy input = false ->
     _parse_client_message (md := Reference.models) direct_client input e =
       Ok (PDict [("client_content", PDict [("turn_complete", PBool true)])])).
Proof.
  exact (plain_string_is_one_text_turn (md := Reference.models) direct_client
           "hi" (Some true)
           [("role", PStr "user");
            ("parts", PList [PObj Part [("text", PStr "hi")]])]
           [("role", PStr "user");
            ("parts", PList [PDict [("text", PStr "hi")]])]
           [("role", PStr "user");
            ("parts", PList [PObj Part [("text", PStr "hi")]])]
           (PList [PDict [("text", PStr "hi")]])
           eq_refl eq_refl eq_refl eq_refl eq_refl eq_refl).
Defined.

(** ** Names of resources and models *)

Lemma append_assoc (a b c : string) : (a +:+ b) +:+ c = a +:+ (b +:+ c).
Proof.
  induction a as [|x a IH]; [reflexivity|].
  rewrite !append_cons, IH. reflexivity.
Qed.

Lemma append_empty_r (a : string) : a +:+ EmptyString = a.
Proof.
  induction a as [|x a IH]; [reflexivity|].
  rewrite append_cons, IH. reflexivity.
Qed.

Lemma prefix_app_assoc (a b c : string) :
  String.prefix (a +:+ b) (a +:+ b +:+ c) = true.
Proof. rewrite <- append_assoc. apply prefix_app. Qed.

Lemma prefix_nonempty (p s : string) :
  truthy_str p = true -> String.prefix p s = true -> truthy_str s = true.
Proof. destruct p, s; simpl; congruence. Qed.

(** X1. [_resource_name] only ever prepends to the name it is given. *)
Theorem resource_name_keeps_name :
  forall client resource_name collection_identifier depth,
  exists pre,
    _resource_name client resource_name collection_identifier depth
      = pre +:+ resource_name.
Proof.
  intros client rn ci depth. unfold _resource_name.
  repeat match goal with
         | |- context [if ?b then _ else _] => destruct b
         end;
    try (exists EmptyString; reflexivity);
    eexists; rewrite <- ?append_assoc; reflexivity.
Qed.

Lemma resource_name_qualified client r ci depth :
  truthy_opt_bool (vertexai client) = true ->
  String.prefix "projects/" r = true ->
  _resource_name client r ci depth = r.
Proof. intros Hv H. unfold _resource_name. rewrite Hv, H. reflexivity. Qed.

Lemma resource_name_in_collection client r ci depth :
  truthy_opt_bool (vertexai client) = false ->
  String.prefix (ci +:+ "/") r = true ->
  _resource_name client r ci depth = r.
Proof. intros Hv H. unfold _resource_name. rewrite Hv, H. reflexivity. Qed.

(** X2. Completing a completed name changes nothing. *)
Theorem resource_name_idempotent :
  forall client resource_name collection_identifier depth,
    _resource_name client
      (_resource_name client resource_name collection_identifier depth)
      collection_identifier depth
    = _resource_name client resource_name collection_identifier depth.
Proof.
  intros client rn ci depth.
  remember (_resource_name client rn ci depth) as r eqn:Hr.
  assert (Hsame : r = rn -> _resource_name client r ci depth = r)
    by (intros ->; symmetry; exact Hr).
  unfold _resource_name in Hr.
  destruct (truthy_opt_bool (vertexai client)) eqn:Hv.
  - destruct (String.prefix "projects/" rn) eqn:H1; [auto|].
    destruct (String.prefix "locations/" rn) eqn:H2;
      [subst r; apply resource_name_qualified, prefix_app; exact Hv|].
    destruct (String.prefix (ci +:+ "/") rn) eqn:H3;
      [subst r; apply resource_name_qualified, prefix_app; exact Hv|].
    cbn [negb andb] in Hr.
    destruct (Z.of_nat (count_char "/" (ci +:+ "/" +:+ rn)) + 1 =? depth);
      [subst r; apply resource_name_qualified, prefix_app; exact Hv | auto].
  - destruct (String.prefix (ci +:+ "/") rn) eqn:H3; cbn [negb andb] in Hr;
      [auto|].
    destruct (Z.of_nat (count_char "/" (ci +:+ "/" +:+ rn)) + 1 =? depth);
      [|auto].
    subst r. apply resource_name_in_collection; [exact Hv|].
    apply prefix_app_assoc.
Qed.

Lemma count_char_app (c : ascii) (a b : string) :
  count_char c (a +:+ b) = (count_char c a + count_char c b)%nat.
Proof.
  induction a as [|x a IH]; [reflexivity|].
  rewrite append_cons. cbn [count_char]. rewrite IH. lia.
Qed.

Lemma prefix_count_char (c : ascii) (p s : string) :
  String.prefix p s = true -> (count_char c p <= count_char c s)%nat.
Proof.
  revert s. induction p as [|x p IH]; intros s H; cbn [count_char]; [lia|].
  destruct s as [|y s]; [discriminate|]. simpl in H.
  destruct (ascii_dec x y) as [->|]; [|discriminate].
  cbn [count_char]. specialize (IH s H). lia.
Qed.

(** X3. A bare id, one without a slash, is completed with the collection
    and, for a Vertex AI client, with the project and the location. *)
Theorem cached_content_name_of_id :
  forall client name,
    count_char "/" name = 0%nat ->
    t_cached_content_name client name =
      if truthy_opt_bool (vertexai client)
      then "projects/" +:+ fmt (project client) +:+ "/locations/"
             +:+ fmt (location client) +:+ "/cachedContents/" +:+ name
      else "cachedContents/" +:+ name.
Proof.
  intros client name Hname.
  assert (Hno : forall p, (0 < count_char "/" p)%nat ->
                          String.prefix p name = false).
  { intros p Hp. destruct (String.prefix p name) eqn:E; [|reflexivity].
    apply (prefix_count_char "/") in E. lia. }
  assert (Hcount : (Z.of_nat (count_char "/" ("cachedContents" +:+ "/" +:+ name))
                      + 1 =? 2) = true)
    by (rewrite !count_char_app, Hname; reflexivity).
  unfold t_cached_content_name, _resource_name.
  rewrite Hcount, !Hno by (vm_compute; lia). cbn [negb andb].
  destruct (truthy_opt_bool (vertexai client)); reflexivity.
Qed.

Lemma cached_content_name_of_id_witness :
  t_cached_content_name vertex_client "123" =
    "projects/p/locations/l/cachedContents/123".
Proof.
  exact (cached_content_name_of_id vertex_client "123" eq_refl).
Defined.

Lemma t_model_fixed client r :
  truthy_str r = true ->
  (if truthy_opt_bool (vertexai client)
   then String.prefix "projects/" r || String.prefix "models/" r
        || String.prefix "publishers/" r
   else String.prefix "models/" r || String.prefix "tunedModels/" r) = true ->
  t_model client r = Ok r.
Proof.
  intros Hr H. unfold t_model. rewrite Hr. cbn [negb].
  destruct (truthy_opt_bool (vertexai client)).
  - rewrite H. reflexivity.
  - destruct (String.prefix "models/" r); [reflexivity|].
    cbn [orb] in H. rewrite H. reflexivity.
Qed.

Lemma t_model_prefixes client model :
  match t_model client model with
  | Ok r =>
      (if truthy_opt_bool (vertexai client)
       then String.prefix "projects/" r || String.prefix "models/" r
            || String.prefix "publishers/" r
       else String.prefix "models/" r || String.prefix "tunedModels/" r)
      = true
  | Raise _ => model = EmptyString
  end.
Proof.
  assert (Hpub : forall x, String.prefix "publishers/" ("publishers/" +:+ x) = true)
    by (intros; apply prefix_app).
  assert (Hmod : forall x, String.prefix "models/" ("models/" +:+ x) = true)
    by (intros; apply prefix_app).
  unfold t_model.
  destruct (truthy_str model) eqn:Hm; cbn [negb];
    [|destruct model; [reflexivity | discriminate]].
  destruct (truthy_opt_bool (vertexai client)) eqn:Hv.
  - destruct (String.prefix "projects/" model || String.prefix "models/" model
              || String.prefix "publishers/" model) eqn:Hpre.
    + exact Hpre.
    + destruct (str_in "/" model).
      * destruct (split_once "/" model) as [publisher model_id].
        rewrite Hpub. apply orb_true_r.
      * reflexivity.
  - destruct (String.prefix "models/" model) eqn:H1.
    + rewrite H1. reflexivity.
    + destruct (String.prefix "tunedModels/" model) eqn:H2.
      * rewrite H2. apply orb_true_r.
      * rewrite Hmod. reflexivity.
Qed.

(** X4. [t_model] raises only for an empty name; what it answers starts
    with one of the prefixes of its personality, and is left as it is when
    it is handed in again. *)
Theorem t_model_normal_form :
  forall client model,
    match t_model client model with
    | Ok r =>
        (if truthy_opt_bool (vertexai client)
         then String.prefix "projects/" r || String.prefix "models/" r
              || String.prefix "publishers/" r
         else String.prefix "models/" r || String.prefix "tunedModels/" r)
        = true /\
        t_model client r = Ok r
    | Raise _ => model = EmptyString
    end.
Proof.
  intros client model.
  pose proof (t_model_prefixes client model) as H.
  destruct (t_model client model) as [r|e]; [|exact H].
  split; [exact H|]. apply t_model_fixed; [|exact H].
  destruct r; [|reflexivity].
  destruct (truthy_opt_bool (vertexai client)); discriminate H.
Qed.

(** X5. For a Vertex AI client [t_caches_model] always answers a name that
    starts with [projects/]; for another client it answers what [t_model]
    does; it never answers [None]. *)
Theorem t_caches_model_qualified :
  forall api_client model,
    match t_caches_model api_client model with
    | Ok (Some r) =>
        if truthy_opt_bool (vertexai api_client)
        then String.prefix "projects/" r = true
        else t_model api_client model = Ok r
    | Ok None => False
    | Raise _ => model = EmptyString
    end.
Proof.
  intros api_client model. unfold t_caches_model.
  pose proof (t_model_prefixes api_client model) as Hpre.
  destruct (t_model api_client model) as [r|e]; cbn [bind]; [|exact Hpre].
  destruct (truthy_opt_bool (vertexai api_client)) eqn:Hv.
  - assert (Hr : truthy_str r = true).
    { destruct r; [discriminate Hpre | reflexivity]. }
    rewrite Hr. cbn [negb]. rewrite !andb_true_r.
    destruct (String.prefix "publishers/" r) eqn:H1; [apply prefix_app|].
    destruct (String.prefix "models/" r) eqn:H2; [apply prefix_app|].
    rewrite !orb_false_r in Hpre. exact Hpre.
  - assert (Hr : truthy_str r = true).
    { destruct r; [discriminate Hpre | reflexivity]. }
    rewrite Hr. cbn [negb]. rewrite !andb_false_r. reflexivity.
Qed.

(** ** Names of files and of batch jobs *)

Lemma rev_app_append (a b s : string) :
  String.rev_app a b +:+ s = String.rev_app a (b +:+ s).
Proof.
  revert b. induction a as [|x a IH]; intros b; [reflexivity|].
  cbn [String.rev_app]. rewrite IH. reflexivity.
Qed.

Lemma rev_cons_app (c : ascii) (cur s : string) :
  String.rev (String c cur) +:+ s = String.rev cur +:+ String c s.
Proof.
  unfold String.rev. cbn [String.rev_app]. rewrite !rev_app_append.
  reflexivity.
Qed.

Lemma split_from_absent (sep cur s : string) :
  str_in sep s = false ->
  split_from sep O cur s = [String.rev cur +:+ s].
Proof.
  revert cur. induction s as [|c s IH]; intros cur H.
  - cbn [split_from]. rewrite append_empty_r. reflexivity.
  - cbn [str_in] in H. apply orb_false_elim in H as [Hp Hin].
    cbn [split_from]. rewrite Hp, (IH _ Hin), rev_cons_app. reflexivity.
Qed.

Lemma str_split_absent (sep s : string) :
  str_in sep s = false -> str_split sep s = [s].
Proof. intros H. unfold str_split. rewrite (split_from_absent _ _ _ H). reflexivity. Qed.

Lemma take_while_all (p : ascii -> bool) (s : string) :
  all_chars p (take_while p s) = true.
Proof.
  induction s as [|c s IH]; [reflexivity|].
  cbn [take_while]. destruct (p c) eqn:E; [|reflexivity].
  cbn [all_chars]. rewrite E, IH. reflexivity.
Qed.

(** X6. The file name taken from a download URI is never empty and is made
    of lower-case letters and digits only. *)
Theorem t_file_name_of_uri :
  forall uri r,
    String.prefix "https://" uri = true ->
    t_file_name (PStr uri) = Ok r ->
    truthy_str r = true /\ all_chars is_lower_alnum r = true.
Proof.
  intros uri r Huri H. unfold t_file_name in H. rewrite Huri in H.
  destruct (nth_error (str_split "files/" uri) 1) as [suffix|]; [|discriminate].
  unfold match_lower_alnum in H.
  pose proof (take_while_all is_lower_alnum suffix) as Hall.
  destruct (take_while is_lower_alnum suffix) as [|c m]; [discriminate|].
  injection H as <-. split; [reflexivity | exact Hall].
Qed.

Lemma t_file_name_of_uri_witness :
  truthy_str "abc123" = true /\ all_chars is_lower_alnum "abc123" = true.
Proof.
  apply (t_file_name_of_uri
           "https://generativelanguage.googleapis.com/v1beta/files/abc123:download"
           "abc123"); reflexivity.
Defined.

(** X7. A URI in which [files/] does not occur is not refused with a
    [ValueError]: the subscript on the split raises [IndexError]. *)
Theorem t_file_name_uri_without_files :
  forall uri,
    String.prefix "https://" uri = true ->
    str_in "files/" uri = false ->
    t_file_name (PStr uri) = Raise IndexError.
Proof.
  intros uri Huri Hno. unfold t_file_name.
  rewrite Huri, (str_split_absent _ _ Hno). reflexivity.
Qed.

Lemma t_file_name_uri_without_files_witness :
  t_file_name (PStr "https://example.com/v1beta/abc") = Raise IndexError.
Proof.
  apply t_file_name_uri_without_files; reflexivity.
Defined.

(** X8. The prefix [files/] is taken off a name, and a name that has
    neither this prefix nor the one of a URI stays as it is. *)
Theorem t_file_name_strips_prefix :
  forall name,
    str_in "files/" name = false ->
    String.prefix "https://" name = false ->
    t_file_name (PStr ("files/" +:+ name)) = Ok name /\
    t_file_name (PStr name) = Ok name.
Proof.
  intros name Hno Huri. split.
  - assert (H1 : String.prefix "https://" ("files/" +:+ name) = false)
      by reflexivity.
    assert (H2 : String.prefix "files/" ("files/" +:+ name) = true)
      by apply prefix_app.
    assert (H3 : str_split "files/" ("files/" +:+ name)
                 = EmptyString :: split_from "files/" 0 EmptyString name).
    { unfold str_split. revert H2.
      change ("files/" +:+ name)
        with (String "f" (String "i" (String "l" (String "e"
               (String "s" (String "/" name)))))).
      intros H2. cbn [split_from]. rewrite H2. reflexivity. }
    unfold t_file_name. rewrite H1, H2, H3.
    rewrite (split_from_absent _ _ _ Hno). reflexivity.
  - unfold t_file_name. rewrite Huri.
    destruct (String.prefix "files/" name) eqn:E; [|reflexivity].
    apply str_in_prefix in E. congruence.
Qed.

Lemma t_file_name_strips_prefix_witness :
  t_file_name (PStr ("files/" +:+ "abc")) = Ok "abc" /\
  t_file_name (PStr "abc") = Ok "abc".
Proof.
  apply t_file_name_strips_prefix; reflexivity.
Defined.

Lemma split_char_no_sep (c : ascii) (s : string) :
  Forall (fun piece => count_char c piece = 0%nat) (split_char c s).
Proof.
  induction s as [|x s IH]; cbn [split_char].
  - constructor; [reflexivity | constructor].
  - destruct (Ascii.eqb x c) eqn:E.
    + constructor; [reflexivity | exact IH].
    + destruct (split_char c s) as [|h t].
      * constructor; [|constructor]. cbn [count_char]. rewrite E. reflexivity.
      * inversion IH as [|? ? Hh Ht]; subst.
        constructor; [|exact Ht]. cbn [count_char]. rewrite E, Hh. reflexivity.
Qed.

Lemma all_digits_no_slash (s : string) :
  all_chars is_ascii_digit s = true -> count_char "/" s = 0%nat.
Proof.
  induction s as [|x s IH]; [reflexivity|].
  cbn [all_chars count_char]. intros H. apply andb_prop in H as [Hx Hs].
  rewrite (IH Hs).
  destruct (Ascii.eqb_spec x "/") as [->|]; [discriminate Hx | reflexivity].
Qed.

(** X9. For a Vertex AI client the job name that comes out is a bare id:
    it is not empty and holds no slash. *)
Theorem t_batch_job_name_bare :
  forall client name r,
    truthy_opt_bool (vertexai client) = true ->
    t_batch_job_name client name = Ok r ->
    truthy_str r = true /\ count_char "/" r = 0%nat.
Proof.
  intros client name r Hv H. unfold t_batch_job_name in H. rewrite Hv in H.
  cbn [negb] in H.
  destruct (matches_batch_job_pattern name) eqn:Hpat.
  - injection H as <-. unfold matches_batch_job_pattern in Hpat.
    pose proof (split_char_no_sep "/" name) as Hall.
    destruct (split_char "/" name) as [|a [|p [|b [|l [|c [|j [|x rest]]]]]]];
      try discriminate.
    cbn [List.last].
    repeat (apply andb_prop in Hpat as [Hpat ?]).
    split; [assumption|].
    do 5 (inversion Hall as [|? ? _ Hall']; subst; clear Hall;
          rename Hall' into Hall).
    inversion Hall; assumption.
  - destruct (isdigit name) eqn:Hd; [|discriminate].
    injection H as <-. unfold isdigit in Hd. apply andb_prop in Hd as [Hn Hd].
    split; [exact Hn | exact (all_digits_no_slash _ Hd)].
Qed.

Lemma t_batch_job_name_bare_witness :
  truthy_str "123" = true /\ count_char "/" "123" = 0%nat.
Proof.
  apply (t_batch_job_name_bare vertex_client
           "projects/p/locations/l/batchPredictionJobs/123" "123");
    reflexivity.
Defined.

(** ** Schemas *)

(** Induction on Python values that goes below lists and dicts. *)
Lemma pyval_nested_ind (P : pyval -> Prop) :
  P PNone -> (forall b, P (PBool b)) -> (forall n, P (PInt n)) ->
  (forall s, P (PStr s)) -> (forall b, P (PBytes b)) ->
  (forall l, Forall P l -> P (PList l)) ->
  (forall d, Forall (fun kv => P (snd kv)) d -> P (PDict d)) ->
  (forall c f, P (PObj c f)) ->
  forall v, P v.
Proof.
  intros HNone HBool HInt HStr HBytes HList HDict HObj.
  fix IH 1. intros [ | b | n | s | b | l | d | c f].
  - exact HNone.
  - apply HBool.
  - apply HInt.
  - apply HStr.
  - apply HBytes.
  - apply HList. induction l as [|x l IHl]; constructor; [apply IH | exact IHl].
  - apply HDict. induction d as [|[k x] d IHd]; constructor;
      [apply IH | exact IHd].
  - apply HObj.
Qed.

Lemma strip_titles_false (data : pyval) : strip_titles false data = data.
Proof.
  induction data as [ | | | | | l IH | d IH | ] using pyval_nested_ind;
    try reflexivity.
  - cbn [strip_titles]. f_equal.
    induction IH as [|x l Hx _ IHl]; [reflexivity|].
    cbn [List.map]. rewrite Hx, IHl. reflexivity.
  - cbn [strip_titles]. f_equal.
    induction IH as [|[k x] d Hx _ IHd]; [reflexivity|].
    cbn [snd] in Hx. simpl. rewrite Hx. f_equal. exact IHd.
Qed.

Lemma strip_titles_title_free (data : pyval) :
  title_free (strip_titles true data) = true.
Proof.
  induction data as [ | | | | | l IH | d IH | ] using pyval_nested_ind;
    try reflexivity.
  - cbn [strip_titles title_free].
    induction IH as [|x l Hx _ IHl]; [reflexivity|].
    cbn [List.map forallb]. rewrite Hx, IHl. reflexivity.
  - cbn [strip_titles title_free].
    induction IH as [|[k x] d Hx _ IHd]; [reflexivity|].
    cbn [snd] in Hx. simpl.
    destruct (String.eqb k "title") eqn:E; [exact IHd|].
    simpl. rewrite E, Hx. exact IHd.
Qed.

Lemma strip_titles_fixed (data : pyval) :
  title_free data = true -> strip_titles true data = data.
Proof.
  induction data as [ | | | | | l IH | d IH | ] using pyval_nested_ind;
    try reflexivity.
  - cbn [strip_titles title_free]. intros H. f_equal.
    induction IH as [|x l Hx _ IHl]; [reflexivity|].
    cbn [forallb] in H. apply andb_prop in H as [H1 H2].
    cbn [List.map]. rewrite (Hx H1), (IHl H2). reflexivity.
  - cbn [strip_titles title_free]. intros H. f_equal.
    induction IH as [|[k x] d Hx _ IHd]; [reflexivity|].
    simpl in H. apply andb_prop in H as [H H3]. apply andb_prop in H as [H1 H2].
    apply negb_true_iff in H1. cbn [snd] in Hx. simpl.
    rewrite H1, (Hx H2). f_equal. exact (IHd H3).
Qed.

(** X10. For a client that is not a Vertex AI client [process_schema] leaves
    no key [title] at any depth below dicts and lists, a property that is
    itself named [title] included, and running it again changes nothing. *)
Theorem process_schema_strips_titles :
  forall (data : pyval) (client : BaseApiClient),
    truthy_opt_bool (vertexai client) = false ->
    title_free (process_schema data (Some client)) = true /\
    process_schema (process_schema data (Some client)) (Some client)
      = process_schema data (Some client).
Proof.
  intros data client Hv. unfold process_schema. rewrite Hv. cbn [negb].
  split; [apply strip_titles_title_free|].
  apply strip_titles_fixed, strip_titles_title_free.
Qed.

Lemma process_schema_strips_titles_witness :
  title_free
    (process_schema
       (PDict [("title", PStr "Country");
               ("properties", PDict [("title", PDict [("type", PStr "string")])])])
       (Some direct_client)) = true /\
  process_schema
    (process_schema
       (PDict [("title", PStr "Country");
               ("properties", PDict [("title", PDict [("type", PStr "string")])])])
       (Some direct_client)) (Some direct_client)
  = process_schema
      (PDict [("title", PStr "Country");
              ("properties", PDict [("title", PDict [("type", PStr "string")])])])
      (Some direct_client).
Proof.
  apply process_schema_strips_titles. reflexivity.
Defined.

(** For a Vertex AI client, and without a client, [process_schema] gives
    the schema back as it is. *)
Theorem process_schema_keeps_for_vertex :
  forall (data : pyval) (client : option BaseApiClient),
    match client with
    | Some c => truthy_opt_bool (vertexai c) = true
    | None => True
    end ->
    process_schema data client = data.
Proof.
  intros data [c|] H; unfold process_schema.
  - rewrite H. apply strip_titles_false.
  - apply strip_titles_false.
Qed.

Lemma process_schema_keeps_for_vertex_witness :
  process_schema (PDict [("title", PStr "Country")]) (Some vertex_client)
    = PDict [("title", PStr "Country")].
Proof.
  apply process_schema_keeps_for_vertex. reflexivity.
Defined.

(** ** The poller, when the operation ends *)

Lemma poll_step_polling request name st op :
  total_seconds st = 0%Q ->
  eq_True (dict_get (operation st) "done") = false ->
  request (polls st) name = Ok op ->
  exists st',
    poll_step request name st = Polling st' /\
    operation st' = op /\ total_seconds st' = 0%Q /\
    polls st' = S (polls st) /\
    slept st' = (slept st + delay_seconds st)%Q /\
    delay_seconds st' =
      Qmin (delay_seconds st * LRO_POLLING_MULTIPLIER)%Q
           LRO_POLLING_MAXIMUM_DELAY_SECONDS.
Proof.
  intros H0 Hdone Hreq. unfold poll_step. rewrite Hdone. cbn [negb].
  destruct (Qlt_le_dec LRO_POLLING_TIMEOUT_SECONDS (total_seconds st)) as [Hlt|_].
  - rewrite H0 in Hlt. discriminate Hlt.
  - rewrite Hreq. eexists. split; [reflexivity|]. cbn.
    rewrite H0. repeat split; reflexivity.
Qed.

Lemma poll_loop_done request name st fuel :
  eq_True (dict_get (operation st) "done") = true ->
  poll_loop (S fuel) request name st = Some (Ok st).
Proof.
  intros Hdone. cbn [poll_loop]. unfold poll_step. rewrite Hdone. reflexivity.
Qed.

Lemma poll_loop_done_at request name (n : nat) :
  forall st op fuel,
    total_seconds st = 0%Q ->
    eq_True (dict_get (operation st) "done") = false ->
    delay_in_range st ->
    (forall i, (i < n)%nat ->
       exists opi, request (polls st + i)%nat name = Ok opi /\
                   eq_True (dict_get opi "done") = false) ->
    request (polls st + n)%nat name = Ok op ->
    eq_True (dict_get op "done") = true ->
    (n + 2 <= fuel)%nat ->
    exists st',
      poll_loop fuel request name st = Some (Ok st') /\
      operation st' = op /\
      polls st' = (polls st + S n)%nat /\
      (slept st + inject_Z (Z.of_nat (S n)) <= slept st')%Q.
Proof.
  induction n as [|n IH]; intros st op fuel H0 Hdone Hdelay Hbefore Hat Hop Hfuel.
  - rewrite Nat.add_0_r in Hat.
    destruct (poll_step_polling _ _ _ _ H0 Hdone Hat)
      as (st1 & Hstep & Hop1 & H01 & Hp1 & Hs1 & _).
    destruct fuel as [|[|fuel]]; [lia | lia |].
    exists st1. cbn [poll_loop]. rewrite Hstep.
    change (poll_loop (S fuel) request name st1 = Some (Ok st1) /\
            operation st1 = op /\ polls st1 = (polls st + 1)%nat /\
            (slept st + inject_Z 1 <= slept st1)%Q).
    split; [apply poll_loop_done; rewrite Hop1; exact Hop|].
    split; [exact Hop1|]. split; [lia|].
    rewrite Hs1. apply Qplus_le_r. exact (proj1 Hdelay).
  - destruct (Hbefore 0%nat) as (op0 & Hreq0 & Hop0); [lia|].
    rewrite Nat.add_0_r in Hreq0.
    destruct (poll_step_polling _ _ _ _ H0 Hdone Hreq0)
      as (st1 & Hstep & Hop1 & H01 & Hp1 & Hs1 & Hd1).
    destruct (poll_step_delay _ _ _ _ Hdelay Hstep) as (Hrange1 & Hslept1 & _).
    destruct fuel as [|fuel]; [lia|].
    destruct (IH st1 op fuel) as (st' & Hrun & Hop' & Hpolls & Hslept); auto.
    + rewrite Hop1. exact Hop0.
    + intros i Hi. rewrite Hp1.
      destruct (Hbefore (S i)) as (opi & Hreq & Hopi); [lia|].
      exists opi. split; [|exact Hopi].
      rewrite <- Hreq. f_equal. lia.
    + rewrite Hp1. rewrite <- Hat. f_equal. lia.
    + lia.
    + exists st'. cbn [poll_loop]. rewrite Hstep.
      split; [exact Hrun|]. split; [exact Hop'|]. split; [lia|].
      apply Qle_trans with (slept st1 + inject_Z (Z.of_nat (S n)))%Q;
        [|exact Hslept].
      rewrite (Nat2Z.inj_succ (S n)). unfold Z.succ. rewrite inject_Z_plus.
      rewrite (Qplus_comm (inject_Z (Z.of_nat (S n))) (inject_Z 1)).
      rewrite Qplus_assoc. apply Qplus_le_l. exact Hslept1.
Qed.

Lemma resolve_enters_loop fuel request struct name :
  dict_get struct "name" = PStr name ->
  str_in operations_marker name = true ->
  t_resolve_operation fuel request struct =
    match poll_loop fuel request (PStr name) (poll_init struct) with
    | None => None
    | Some (Raise e) => Some (Raise e)
    | Some (Ok st) => Some (outcome_of (PStr name) (operation st))
    end.
Proof.
  intros Hname Hmarker. unfold t_resolve_operation. rewrite Hname.
  assert (Hn : truthy (PStr name) = true).
  { destruct name; [discriminate Hmarker | reflexivity]. }
  rewrite Hn. cbn [marker_in]. rewrite Hmarker.
  destruct (poll_loop fuel request (PStr name) (poll_init struct)) as [[st|e]|];
    try reflexivity.
  unfold outcome_of. destruct (truthy (dict_get (operation st) "error"));
    reflexivity.
Qed.

(** A handle that is already done costs no request and no sleep: the
    loop leaves at once, and the call raises for an [error] that is set and
    answers the [response] otherwise. *)
Theorem poller_done_at_start :
  forall fuel request struct name,
    dict_get struct "name" = PStr name ->
    str_in operations_marker name = true ->
    eq_True (dict_get struct "done") = true ->
    poll_loop (S fuel) request (PStr name) (poll_init struct)
      = Some (Ok (poll_init struct)) /\
    t_resolve_operation (S fuel) request struct
      = Some (outcome_of (PStr name) struct).
Proof.
  intros fuel request struct name Hname Hmarker Hdone.
  assert (Hloop : poll_loop (S fuel) request (PStr name) (poll_init struct)
                  = Some (Ok (poll_init struct)))
    by (apply poll_loop_done; exact Hdone).
  split; [exact Hloop|].
  rewrite (resolve_enters_loop _ _ _ _ Hname Hmarker), Hloop. reflexivity.
Qed.

Lemma poller_done_at_start_witness :
  poll_loop 1 pending_backend (PStr "operations/op1/operations/x")
    (poll_init [("name", PStr "operations/op1/operations/x");
                ("done", PBool true); ("response", PInt 7)])
  = Some (Ok (poll_init [("name", PStr "operations/op1/operations/x");
                         ("done", PBool true); ("response", PInt 7)])) /\
  t_resolve_operation 1 pending_backend
    [("name", PStr "operations/op1/operations/x");
     ("done", PBool true); ("response", PInt 7)]
  = Some (outcome_of (PStr "operations/op1/operations/x")
            [("name", PStr "operations/op1/operations/x");
             ("done", PBool true); ("response", PInt 7)]).
Proof.
  apply poller_done_at_start; reflexivity.
Defined.

(** X11. When the first [n] re-fetched handles are not done and the next one
    is, the call ends with that handle (raising for its [error], answering
    its [response] otherwise) after [n + 1] requests, and it has slept after
    every one of them, the last included: at least [n + 1] seconds. *)
Theorem poller_done_at_fetch :
  forall request struct name (n : nat) op fuel,
    dict_get struct "name" = PStr name ->
    str_in operations_marker name = true ->
    eq_True (dict_get struct "done") = false ->
    (forall i, (i < n)%nat ->
       exists opi, request i (PStr name) = Ok opi /\
                   eq_True (dict_get opi "done") = false) ->
    request n (PStr name) = Ok op ->
    eq_True (dict_get op "done") = true ->
    (n + 2 <= fuel)%nat ->
    t_resolve_operation fuel request struct
      = Some (outcome_of (PStr name) op) /\
    exists st,
      poll_loop fuel request (PStr name) (poll_init struct) = Some (Ok st) /\
      polls st = S n /\
      (inject_Z (Z.of_nat (S n)) <= slept st)%Q.
Proof.
  intros request struct name n op fuel Hname Hmarker Hdone Hbefore Hat Hop Hfuel.
  destruct (poll_loop_done_at request (PStr name) n (poll_init struct) op fuel)
    as (st & Hrun & Hopst & Hpolls & Hslept); auto.
  { split; discriminate. }
  split.
  - rewrite (resolve_enters_loop _ _ _ _ Hname Hmarker), Hrun, Hopst.
    reflexivity.
  - exists st. split; [exact Hrun|]. split; [exact Hpolls|].
    cbn [poll_init slept] in Hslept. rewrite Qplus_0_l in Hslept. exact Hslept.
Qed.

Lemma poller_done_at_fetch_witness :
  t_resolve_operation 4 (finishing_backend 2) running_handle
    = Some (outcome_of (PStr "operations/op1/operations/x")
              [("name", PStr "operations/op1/operations/x");
               ("done", PBool true); ("response", PInt 7)]) /\
  exists st,
    poll_loop 4 (finishing_backend 2) (PStr "operations/op1/operations/x")
      (poll_init running_handle) = Some (Ok st) /\
    polls st = 3%nat /\
    (inject_Z (Z.of_nat 3) <= slept st)%Q.
Proof.
  apply (poller_done_at_fetch (finishing_backend 2) running_handle
           "operations/op1/operations/x" 2
           [("name", PStr "operations/op1/operations/x");
            ("done", PBool true); ("response", PInt 7)] 4).
  - reflexivity.
  - reflexivity.
  - reflexivity.
  - intros i Hi. eexists. split; [reflexivity|].
    destruct i as [|[|i]]; [reflexivity | reflexivity | lia].
  - reflexivity.
  - reflexivity.
  - lia.
Defined.

(** ** The delays of the poller *)

Lemma poll_iter_backoff request name (n : nat) :
  forall st st' k,
    poll_iter n request name st = Some st' ->
    delay_seconds st = backoff_delay k ->
    delay_seconds st' = backoff_delay (k + n).
Proof.
  induction n as [|n IH]; intros st st' k Hrun Hk.
  - injection Hrun as <-. rewrite Nat.add_0_r. exact Hk.
  - cbn [poll_iter] in Hrun.
    destruct (poll_step request name st) as [st1| |] eqn:Hstep; try discriminate.
    replace (k + S n)%nat with (S k + n)%nat by lia.
    apply (IH st1 st' (S k) Hrun).
    unfold poll_step in Hstep.
    destruct (negb (eq_True (dict_get (operation st) "done"))); [|discriminate].
    destruct (Qlt_le_dec LRO_POLLING_TIMEOUT_SECONDS (total_seconds st));
      [discriminate|].
    destruct (request (polls st) name); [|discriminate].
    injection Hstep as <-. cbn [delay_seconds backoff_delay]. rewrite Hk.
    reflexivity.
Qed.

Lemma backoff_delay_stays_capped (k : nat) :
  (backoff_delay k == 20)%Q -> (backoff_delay (S k) == 20)%Q.
Proof.
  intros H.
  change (Qmin (backoff_delay k * (3 # 2)) 20 == 20)%Q.
  apply Q.min_r. rewrite H. discriminate.
Qed.

Lemma backoff_delay_8 : (backoff_delay 8 == 20)%Q.
Proof. vm_compute. reflexivity. Qed.

Lemma backoff_delay_capped (m : nat) : (backoff_delay (m + 8) == 20)%Q.
Proof.
  induction m as [|m IH].
  - exact backoff_delay_8.
  - exact (backoff_delay_stays_capped (m + 8) IH).
Qed.

Lemma backoff_delay_power (n : nat) :
  (n < 8)%nat -> (backoff_delay n == Qpower (3 # 2) (Z.of_nat n))%Q.
Proof.
  intros Hn.
  do 8 (destruct n as [|n]; [vm_compute; reflexivity|]). lia.
Qed.

(** X12. The delay slept after the [n]-th poll is [1.5] to the power [n]
    seconds for the first eight polls and the cap of 20 seconds from then
    on, whatever the backend answers. *)
Theorem backoff_schedule :
  forall request name struct (n : nat) st,
    poll_iter n request name (poll_init struct) = Some st ->
    ((n < 8)%nat -> (delay_seconds st == Qpower (3 # 2) (Z.of_nat n))%Q) /\
    ((8 <= n)%nat -> (delay_seconds st == 20)%Q).
Proof.
  intros request name struct n st Hrun.
  rewrite (poll_iter_backoff request name n (poll_init struct) st 0%nat Hrun eq_refl).
  cbn [Nat.add]. split.
  - apply backoff_delay_power.
  - intros Hn. replace n with ((n - 8) + 8)%nat by lia.
    apply backoff_delay_capped.
Qed.

Lemma backoff_schedule_witness :
  exists st,
    poll_iter 3 pending_backend (PStr "projects/p/locations/l/operations/op1")
      (poll_init pending_handle) = Some st /\
    ((3 < 8)%nat -> (delay_seconds st == Qpower (3 # 2) (Z.of_nat 3))%Q) /\
    ((8 <= 3)%nat -> (delay_seconds st == 20)%Q).
Proof.
  eexists. split; [reflexivity|].
  apply (backoff_schedule pending_backend
           (PStr "projects/p/locations/l/operations/op1") pending_handle 3).
  reflexivity.
Defined.

(** ** The constructor of the client *)

Lemma truthy_or_str a b :
  truthy_opt_str (or_str a b) = truthy_opt_str a || truthy_opt_str b.
Proof. unfold or_str. destruct (truthy_opt_str a) eqn:E; [exact E | reflexivity]. Qed.

Lemma load_auth_project amb p c q :
  _load_auth amb p = Ok (c, q) -> truthy_opt_str q = true.
Proof.
  unfold _load_auth. destruct (auth_default amb) as [[c0 q0]|e]; cbn [bind fst snd]; [|discriminate].
  destruct (negb (truthy_opt_str p)) eqn:Hp.
  - destruct (negb (truthy_opt_str q0)) eqn:Hq; [discriminate|].
    intros H. injection H as <- <-. apply negb_false_iff in Hq. exact Hq.
  - rewrite Hp. intros H. injection H as <- <-. apply negb_false_iff in Hp. exact Hp.
Qed.

Ltac init_invert H :=
  unfold BaseApiClient__init__ in H;
  match type of H with
  | (if ?m1 then _ else _) = _ =>
      let Hm1 := fresh "Hmutex1" in
      destruct m1 eqn:Hm1; [discriminate H|]
  end;
  match type of H with
  | (if ?m2 then _ else _) = _ =>
      let Hm2 := fresh "Hmutex2" in
      destruct m2 eqn:Hm2; [discriminate H|]
  end;
  match type of H with
  | bind ?V _ = _ =>
      let validated := fresh "validated" in
      let Hval := fresh "Hvalidated" in
      destruct V as [validated|] eqn:Hval; [|discriminate H]
  end;
  cbn beta iota delta [bind] in H;
  match type of H with
  | bind ?F _ = _ =>
      let HF := fresh "Hfields" in
      destruct F as [[[[[[?p3 ?l3] ?k3] ?c3] ?url] ?ver]|] eqn:HF;
      [|discriminate H]
  end;
  cbn beta iota delta [bind] in H.


Lemma init_selection (cr : option Credentials) pa la ka pe le ke p1 l1 k1 :
  (truthy_opt_str pa || truthy_opt_str la) && truthy_opt_str ka = false ->
  (if match cr with Some _ => true | None => false end
   then (or_str pa pe, or_str la le, None)
   else if (truthy_opt_str le || truthy_opt_str pe) && truthy_opt_str ka
   then (None, None, or_str ka ke)
   else if (truthy_opt_str pa || truthy_opt_str la) && truthy_opt_str ke
   then (or_str pa pe, or_str la le, None)
   else if (truthy_opt_str le || truthy_opt_str pe) && truthy_opt_str ke
   then (or_str pa pe, or_str la le, None)
   else (or_str pa pe, or_str la le, or_str ka ke)) = (p1, l1, k1) ->
  truthy_opt_str k1 = true ->
  truthy_opt_str p1 = false /\ truthy_opt_str l1 = false.
Proof.
  intros Hmutex Hsel Hk.
  destruct cr as [c|].
  - injection Hsel as <- <- <-. discriminate Hk.
  - destruct (truthy_opt_str pa) eqn:Hpa, (truthy_opt_str la) eqn:Hla,
      (truthy_opt_str ka) eqn:Hka, (truthy_opt_str pe) eqn:Hpe,
      (truthy_opt_str le) eqn:Hle, (truthy_opt_str ke) eqn:Hke;
      cbn [andb orb] in Hmutex, Hsel; try discriminate Hmutex;
      injection Hsel as <- <- <-;
      rewrite ?truthy_or_str, ?Hpa, ?Hla, ?Hka, ?Hpe, ?Hle, ?Hke in *;
      cbn [truthy_opt_str orb] in *; try discriminate; auto.
Qed.


Lemma init_ok_vertex `{rt : Runtime} amb vx mg ka cr pa la ho c :
  BaseApiClient__init__ amb vx mg ka cr pa la ho = Ok c ->
  truthy_opt_bool (vertexai c) = true ->
  ((truthy_opt_str (api_key c) = true /\ truthy_opt_str (project c) = false /\
    truthy_opt_str (location c) = false) \/
   (truthy_opt_str (api_key c) = false /\ truthy_opt_str (project c) = true /\
    truthy_opt_str (location c) = true)) /\
  (truthy_opt_bool (modelgarden c) = true ->
   truthy_opt_str (project c) = true /\ truthy_opt_str (location c) = true).
Proof.
  intros H Hv.
  init_invert H. injection H as <-.
  cbn [vertexai api_key project location modelgarden] in *.
  rewrite Hv in Hfields.
  match type of Hfields with
  | context [if match cr with Some _ => true | None => false end
             then ?A else ?B] =>
      destruct (if match cr with Some _ => true | None => false end
                then A else B) as [[p1 l1] k1] eqn:Hsel
  end.
  match type of Hfields with
  | bind ?L _ = _ => destruct L as [[p2 c2]|] eqn:Hload; [|discriminate Hfields]
  end.
  cbn [bind fst snd] in Hfields.
  destruct (truthy_opt_str k1) eqn:Hk1.
  - destruct (init_selection _ _ _ _ _ _ _ _ _ _ Hmutex1 Hsel Hk1) as [Hp1 Hl1].
    rewrite Hp1 in Hload. cbn [negb andb] in Hload. injection Hload as <- <-.
    rewrite Hp1, Hl1 in Hfields. cbn [andb orb negb] in Hfields.
    destruct (truthy_opt_bool _) eqn:Hmg in Hfields; [discriminate Hfields|].
    injection Hfields as <- <- <- <- <- <-.
    split; [left; auto | intros Hmg'; congruence].
  - rewrite orb_false_r in Hfields.
    destruct (truthy_opt_str p2 && truthy_opt_str l1) eqn:Hpl;
      [|discriminate Hfields].
    cbn [negb] in Hfields. apply andb_prop in Hpl as [Hp2 Hl1].
    destruct (truthy_opt_bool _) in Hfields;
      injection Hfields as <- <- <- <- <- <-; (split; [right|]); auto.
Qed.

(** X13. A Vertex AI client that has been constructed is in exactly one of
    two modes: it holds an API key and neither a project nor a location, or
    it holds a project and a location and no API key. *)
Theorem init_vertex_auth_mode `{rt : Runtime} :
  forall amb vertexai_arg modelgarden_arg api_key_arg credentials project_arg
         location_arg http_options c,
    BaseApiClient__init__ amb vertexai_arg modelgarden_arg api_key_arg
      credentials project_arg location_arg http_options = Ok c ->
    truthy_opt_bool (vertexai c) = true ->
    (truthy_opt_str (api_key c) = true /\ truthy_opt_str (project c) = false /\
     truthy_opt_str (location c) = false) \/
    (truthy_opt_str (api_key c) = false /\ truthy_opt_str (project c) = true /\
     truthy_opt_str (location c) = true).
Proof.
  intros amb vx mg ka cr pa la ho c H Hv.
  exact (proj1 (init_ok_vertex amb vx mg ka cr pa la ho c H Hv)).
Qed.

Lemma init_vertex_auth_mode_witness :
  exists c,
    BaseApiClient__init__ (rt := Reference.runtime) bare_environment
      (Some true) None None None (Some "p") (Some "l") None = Ok c /\
    ((truthy_opt_str (api_key c) = true /\ truthy_opt_str (project c) = false /\
      truthy_opt_str (location c) = false) \/
     (truthy_opt_str (api_key c) = false /\ truthy_opt_str (project c) = true /\
      truthy_opt_str (location c) = true)).
Proof.
  eexists. split; [reflexivity|].
  eapply (init_vertex_auth_mode (rt := Reference.runtime) bare_environment
            (Some true) None None None (Some "p") (Some "l") None);
    reflexivity.
Defined.

Lemma init_modelgarden_vertex `{rt : Runtime} amb vx mg ka cr pa la ho c :
  BaseApiClient__init__ amb vx mg ka cr pa la ho = Ok c ->
  truthy_opt_bool (modelgarden c) = true ->
  vertexai c = Some true.
Proof.
  intros H Hmg. init_invert H. injection H as <-.
  cbn [vertexai modelgarden] in *. rewrite Hmg. reflexivity.
Qed.

(** X14. A client for Model Garden models is always a Vertex AI client with
    a project and a location, and never holds an API key. *)
Theorem init_modelgarden `{rt : Runtime} :
  forall amb vertexai_arg modelgarden_arg api_key_arg credentials project_arg
         location_arg http_options c,
    BaseApiClient__init__ amb vertexai_arg modelgarden_arg api_key_arg
      credentials project_arg location_arg http_options = Ok c ->
    truthy_opt_bool (modelgarden c) = true ->
    vertexai c = Some true /\
    truthy_opt_str (project c) = true /\ truthy_opt_str (location c) = true /\
    truthy_opt_str (api_key c) = false.
Proof.
  intros amb vx mg ka cr pa la ho c H Hmg.
  pose proof (init_modelgarden_vertex amb vx mg ka cr pa la ho c H Hmg) as Hv.
  destruct (init_ok_vertex amb vx mg ka cr pa la ho c H) as [Hmode Hpl].
  { rewrite Hv. reflexivity. }
  destruct (Hpl Hmg) as [Hp Hl].
  split; [exact Hv|]. split; [exact Hp|]. split; [exact Hl|].
  destruct Hmode as [(_ & Hp' & _) | (Hk & _)]; [congruence | exact Hk].
Qed.

Lemma init_modelgarden_witness :
  exists c,
    BaseApiClient__init__ (rt := Reference.runtime) bare_environment
      None (Some true) None None (Some "p") (Some "l") None = Ok c /\
    vertexai c = Some true /\
    truthy_opt_str (project c) = true /\ truthy_opt_str (location c) = true /\
    truthy_opt_str (api_key c) = false.
Proof.
  eexists. split; [reflexivity|].
  eapply (init_modelgarden (rt := Reference.runtime) bare_environment
            None (Some true) None None (Some "p") (Some "l") None);
    reflexivity.
Defined.

(** X15. When neither the arguments nor the environment ask for Vertex AI
    or Model Garden, constructing a client without an API key, in the
    arguments or in [GOOGLE_API_KEY], fails with a [ValueError], whatever
    project, location or credentials are given. *)
Theorem init_direct_requires_key `{rt : Runtime} :
  forall amb vertexai_arg modelgarden_arg api_key_arg credentials project_arg
         location_arg http_options,
    truthy_opt_bool vertexai_arg = false ->
    truthy_opt_bool modelgarden_arg = false ->
    env_flag amb "GOOGLE_GENAI_USE_VERTEXAI" = false ->
    env_flag amb "GOOGLE_GENAI_USE_MODELGARDEN" = false ->
    truthy_opt_str api_key_arg = false ->
    truthy_opt_str (environ amb !! "GOOGLE_API_KEY") = false ->
    exists msg,
      BaseApiClient__init__ amb vertexai_arg modelgarden_arg api_key_arg
        credentials project_arg location_arg http_options
      = Raise (ValueError msg).
Proof.
  intros amb vx mg ka cr pa la ho Hvx Hmg Hev Hem Hka Hke.
  unfold BaseApiClient__init__. rewrite Hka, Hev, Hem, !andb_false_r.
  assert (Hmg0 : truthy_opt_bool
                   match mg with Some b => Some b | None => None end = false)
    by (destruct mg; [exact Hmg | reflexivity]).
  assert (Hvx0 : truthy_opt_bool
                   match vx with Some b => Some b | None => None end = false)
    by (destruct vx; [exact Hvx | reflexivity]).
  rewrite Hmg0, Hvx0.
  assert (Hkey : truthy_opt_str (or_str ka (environ amb !! "GOOGLE_API_KEY")) = false)
    by (rewrite truthy_or_str, Hka, Hke; reflexivity).
  rewrite Hkey. cbn [negb].
  destruct ho as [[o|d]|]; cbn [bind]; eauto.
  destruct (model_validate d); cbn [bind]; eauto.
Qed.

Lemma init_direct_requires_key_witness :
  exists msg,
    BaseApiClient__init__ (rt := Reference.runtime) bare_environment
      None None None None (Some "p") (Some "l") None = Raise (ValueError msg).
Proof.
  apply (init_direct_requires_key (rt := Reference.runtime) bare_environment
           None None None None (Some "p") (Some "l") None);
    reflexivity.
Defined.

(** X16. Every client that has been constructed sends the labels of the
    library in both identification headers, whatever options the caller
    passed. *)
Theorem init_identifies_library `{rt : Runtime} :
  forall amb vertexai_arg modelgarden_arg api_key_arg credentials project_arg
         location_arg http_options c,
    BaseApiClient__init__ amb vertexai_arg modelgarden_arg api_key_arg
      credentials project_arg location_arg http_options = Ok c ->
    exists h,
      headers (_http_options c) = Some h /\
      forall k, identification_header k ->
        exists v, h !! k = Some v /\ str_in version_header_value v = true.
Proof.
  intros amb vx mg ka cr pa la ho c H.
  init_invert H. injection H as <-. cbn [_http_options].
  destruct (truthy_http_options ho).
  - destruct (patch_headers_lookup
                {| base_url := Some url; api_version := Some ver;
                   headers := Some match k3 with
                              | Some k => if truthy_str k
                                          then <["x-goog-api-key" := k]>
                                                 {["Content-Type" := "application/json"]}
                                          else {["Content-Type" := "application/json"]}
                              | None => {["Content-Type" := "application/json"]}
                              end;
                   timeout := None |} validated) as (h & Hh & Hlook).
    exists h. split; [exact Hh|]. intros k Hk. rewrite Hlook. cbv zeta.
    rewrite bool_decide_eq_true_2 by exact Hk.
    eexists. split; [reflexivity | apply str_in_stamped].
  - eexists. split; [reflexivity|]. intros k Hk.
    rewrite append_library_version_headers_lookup.
    rewrite bool_decide_eq_true_2 by exact Hk.
    eexists. split; [reflexivity | apply str_in_stamped].
Qed.

Lemma init_identifies_library_witness :
  exists c h,
    BaseApiClient__init__ (rt := Reference.runtime) bare_environment
      None None (Some "k") None None None
      (Some (AsOptions empty_url_patch)) = Ok c /\
    headers (_http_options c) = Some h /\
    forall k, identification_header k ->
      exists v, h !! k = Some v /\
                str_in (version_header_value (rt := Reference.runtime)) v = true.
Proof.
  eexists.
  destruct (init_identifies_library (rt := Reference.runtime) bare_environment
              None None (Some "k") None None None
              (Some (AsOptions empty_url_patch)) _ eq_refl) as (h & Hh & Hk).
  exists h. split; [reflexivity|]. split; [exact Hh | exact Hk].
Defined.

(** X17. Constructed without options, a client has these headers and no
    other: the JSON content type, the API key when it holds one, and the two
    identification headers holding the labels alone. *)
Theorem init_default_headers `{rt : Runtime} :
  forall amb vertexai_arg modelgarden_arg api_key_arg credentials project_arg
         location_arg c,
    BaseApiClient__init__ amb vertexai_arg modelgarden_arg api_key_arg
      credentials project_arg location_arg None = Ok c ->
    exists h,
      headers (_http_options c) = Some h /\
      h !! "Content-Type" = Some "application/json" /\
      h !! "x-goog-api-key" =
        (if truthy_opt_str (api_key c) then api_key c else None) /\
      h !! "user-agent" = Some version_header_value /\
      h !! "x-goog-api-client" = Some version_header_value /\
      forall k, k <> "Content-Type" -> k <> "x-goog-api-key" ->
                ~ identification_header k -> h !! k = None.
Proof.
  intros amb vx mg ka cr pa la c H.
  init_invert H. injection H as <-. cbn [_http_options api_key headers].
  eexists. split; [reflexivity|].
  assert (Hbase : forall k : string,
    match k3 with
    | Some k' => if truthy_str k'
                 then <["x-goog-api-key" := k']>
                        ({["Content-Type" := "application/json"]} : gmap string string)
                 else {["Content-Type" := "application/json"]}
    | None => {["Content-Type" := "application/json"]}
    end !! k =
    if decide (k = "x-goog-api-key")
    then (if truthy_opt_str k3 then k3 else None)
    else if decide (k = "Content-Type") then Some "application/json" else None).
  { intros k. destruct k3 as [k'|]; cbn [truthy_opt_str].
    - destruct (truthy_str k').
      + rewrite lookup_insert. destruct (decide ("x-goog-api-key" = k));
          destruct (decide (k = "x-goog-api-key")); try congruence.
        rewrite lookup_singleton. destruct (decide ("Content-Type" = k));
          destruct (decide (k = "Content-Type")); congruence.
      + rewrite lookup_singleton. destruct (decide ("Content-Type" = k));
          destruct (decide (k = "x-goog-api-key"));
          destruct (decide (k = "Content-Type")); congruence.
    - rewrite lookup_singleton. destruct (decide ("Content-Type" = k));
        destruct (decide (k = "x-goog-api-key"));
        destruct (decide (k = "Content-Type")); congruence. }
  rewrite !append_library_version_headers_lookup, !Hbase.
  unfold identification_header.
  split; [|split; [|split; [|split]]].
  - rewrite bool_decide_eq_false_2 by (intros [?|?]; discriminate). reflexivity.
  - rewrite bool_decide_eq_false_2 by (intros [?|?]; discriminate).
    destruct (decide _) as [_|Hne]; [reflexivity | contradiction Hne; reflexivity].
  - rewrite bool_decide_eq_true_2 by auto. reflexivity.
  - rewrite bool_decide_eq_true_2 by auto. reflexivity.
  - intros k H1 H2 H3. rewrite append_library_version_headers_lookup, Hbase.
    unfold identification_header. rewrite bool_decide_eq_false_2 by exact H3.
    destruct (decide (k = "x-goog-api-key")); [contradiction|].
    destruct (decide (k = "Content-Type")); [contradiction | reflexivity].
Qed.

Lemma init_default_headers_witness :
  exists c h,
    BaseApiClient__init__ (rt := Reference.runtime) bare_environment
      None None (Some "k") None None None None = Ok c /\
    headers (_http_options c) = Some h /\
    h !! "Content-Type" = Some "application/json" /\
    h !! "x-goog-api-key" = Some "k" /\
    h !! "authorization" = None.
Proof.
  eexists.
  destruct (init_default_headers (rt := Reference.runtime) bare_environment
              None None (Some "k") None None None _ eq_refl)
    as (h & Hh & Hct & Hkey & _ & _ & Hnone).
  exists h. split; [reflexivity|]. split; [exact Hh|]. split; [exact Hct|].
  split; [exact Hkey|].
  apply Hnone; [discriminate | discriminate | intros [?|?]; discriminate].
Defined.

(** ** Access tokens *)

(** X18. A token that [_access_token] answers is never empty, and the client
    holds, after the call, credentials that carry this token. *)
Theorem access_token_is_stored :
  forall amb refresh self t self',
    _access_token amb refresh self = (Ok t, self') ->
    truthy_str t = true /\
    exists c, _credentials self' = Some c /\ token c = Some t.
Proof.
  intros amb refresh self t self' H. unfold _access_token in H.
  destruct (_credentials self) as [c0|] eqn:Hc.
  - rewrite Hc in H.
    destruct (if expired c0 || negb (truthy_opt_str (token c0))
              then refresh c0 else Ok c0) as [c|e]; [|inversion H].
    destruct (token c) as [t'|] eqn:Ht; [|inversion H].
    destruct (truthy_str t') eqn:Htt; inversion H; subst.
    split; [exact Htt|]. exists c. split; [reflexivity | exact Ht].
  - destruct (_load_auth amb (project self)) as [[c0 q]|e]; cbn [bind] in H;
      [|inversion H].
    cbn [_credentials with_credentials fst snd] in H.
    destruct (if expired c0 || negb (truthy_opt_str (token c0))
              then refresh c0 else Ok c0) as [c|e]; [|inversion H].
    destruct (token c) as [t'|] eqn:Ht; [|inversion H].
    destruct (truthy_str t') eqn:Htt; inversion H; subst.
    split; [exact Htt|]. exists c. split; [reflexivity | exact Ht].
Qed.

Lemma access_token_is_stored_witness :
  truthy_str "tok" = true /\
  exists c,
    _credentials (snd (_access_token signed_in_environment reissue vertex_client))
      = Some c /\
    token c = Some "tok".
Proof.
  apply (access_token_is_stored signed_in_environment reissue vertex_client
           "tok" (snd (_access_token signed_in_environment reissue vertex_client))).
  reflexivity.
Defined.

(** X19. Credentials that have not expired and carry a token are used as
    they are: the token is answered and the client is left as it was,
    whatever the environment holds and whatever a refresh would do. *)
Theorem access_token_fresh :
  forall amb refresh self c t,
    _credentials self = Some c -> expired c = false ->
    token c = Some t -> truthy_str t = true ->
    _access_token amb refresh self = (Ok t, self).
Proof.
  intros amb refresh self c t Hc He Ht Htt. unfold _access_token.
  rewrite Hc. cbn beta iota zeta. rewrite Hc, He, Ht.
  cbn [truthy_opt_str]. rewrite Htt. cbn [negb orb].
  rewrite Ht, Htt. f_equal. destruct self. cbn in Hc. subst.
  reflexivity.
Qed.

Lemma access_token_fresh_witness :
  _access_token bare_environment failing_refresh signed_in_client
  = (Ok "tok", signed_in_client).
Proof.
  apply (access_token_fresh bare_environment failing_refresh signed_in_client
           fresh_credentials "tok"); reflexivity.
Defined.

(** ** Receiving a turn *)

(** X20. [receive] hands out the messages in the order they arrive, up to
    and including the first one that completes the turn, and leaves every
    later message for the next call; no message before the last one handed
    out completes the turn, and an exception of [_receive] ends the run
    after the messages that came before it. *)
Theorem receive_partition :
  forall incoming,
    let '(yielded, ending, later) := receive incoming in
    incoming = (map Ok yielded
                ++ match ending with Raised e => [Raise e] | _ => [] end
                ++ later)%list /\
    match ending with
    | TurnComplete =>
        exists earlier m,
          yielded = (earlier ++ [m])%list /\ ends_turn m = true /\
          forallb (fun x => negb (ends_turn x)) earlier = true
    | Raised _ => forallb (fun x => negb (ends_turn x)) yielded = true
    | Waiting => forallb (fun x => negb (ends_turn x)) yielded = true /\ later = []
    end.
Proof.
  induction incoming as [|[m|e] rest IH]; cbn [receive].
  - split; [reflexivity | split; reflexivity].
  - destruct (ends_turn m) eqn:Hm.
    + split; [reflexivity|]. exists [], m. split; [reflexivity|].
      split; [exact Hm | reflexivity].
    + destruct (receive rest) as [[ys ending] later].
      destruct IH as [Heq Hshape]. split.
      * cbn [map app]. f_equal. exact Heq.
      * destruct ending as [|e|].
        -- destruct Hshape as (earlier & m' & -> & Hm' & Hall).
           exists (m :: earlier), m'. split; [reflexivity|].
           split; [exact Hm'|]. cbn [forallb]. rewrite Hm, Hall. reflexivity.
        -- cbn [forallb]. rewrite Hm, Hshape. reflexivity.
        -- destruct Hshape as [Hall ->]. split; [|reflexivity].
           cbn [forallb]. rewrite Hm, Hall. reflexivity.
  - split; [reflexivity | reflexivity].
Qed.

(** ** Patching twice *)

Lemma if_not_None_twice {A} (x y : option A) :
  if_not_None x (if_not_None x y) = if_not_None x y.
Proof. destruct x; reflexivity. Qed.

(** X21. Patching with the same options a second time changes nothing. *)
Theorem patch_http_options_idempotent `{rt : Runtime} :
  forall options patch_options,
    _patch_http_options (_patch_http_options options patch_options) patch_options
    = _patch_http_options options patch_options.
Proof.
  intros b o. unfold _patch_http_options.
  cbn [base_url api_version headers timeout or_empty].
  rewrite !if_not_None_twice. f_equal. f_equal.
  apply map_eq. intros k.
  rewrite !append_library_version_headers_lookup, !dict_merge_lookup.
  rewrite append_library_version_headers_lookup, dict_merge_lookup.
  case_bool_decide.
  - destruct (or_empty (headers o) !! k); cbn [if_not_None];
      [reflexivity | rewrite stamped_stamped; reflexivity].
  - apply if_not_None_twice.
Qed.

(** ** Building a request *)

(** Per-request options whose base URL is the empty string make the
    request fail with [Base URL must be set.], whatever base URL the client
    itself holds. *)
Theorem build_request_empty_base_url `{rt : Runtime} :
  forall self http_method path request_dict o,
    base_url o = Some EmptyString ->
    _build_request self http_method path request_dict (Some (AsOptions o))
    = Raise (ValueError "Base URL must be set.").
Proof.
  intros self m p d o Ho. unfold _build_request.
  cbn [truthy_http_options bind].
  assert (Hb : base_url (_patch_http_options (_http_options self) o)
               = Some EmptyString)
    by (unfold _patch_http_options; cbn [base_url]; rewrite Ho; reflexivity).
  rewrite Hb. reflexivity.
Qed.

Lemma build_request_empty_base_url_witness :
  _build_request (rt := Reference.runtime) direct_client "post"
    "models/m:generateContent" [] (Some (AsOptions empty_url_patch))
  = Raise (ValueError "Base URL must be set.").
Proof.
  apply (build_request_empty_base_url (rt := Reference.runtime) direct_client
           "post" "models/m:generateContent" [] empty_url_patch).
  reflexivity.
Defined.

(** X22. For a Vertex AI client without an API key, a path that is already
    qualified with the project and the location of the client gives the
    same request as the path alone. *)
Theorem build_request_qualified_path `{rt : Runtime} :
  forall self http_method path request_dict http_options,
    truthy_opt_bool (vertexai self) = true ->
    truthy_opt_str (api_key self) = false ->
    String.prefix "projects/" path = false ->
    String.eqb http_method "get"
      && String.prefix "publishers/google/models" path = false ->
    _build_request self http_method
      ("projects/" +:+ fmt (project self) +:+ "/locations/"
         +:+ fmt (location self) +:+ "/" +:+ path)
      request_dict http_options
    = _build_request self http_method path request_dict http_options.
Proof.
  intros self m p d ho Hv Hk Hp Hq. unfold _build_request.
  rewrite Hv, Hk, Hp, prefix_app. cbn [andb negb] in *. rewrite Hq.
  cbn [negb andb]. reflexivity.
Qed.

Lemma build_request_qualified_path_witness :
  exists r,
    _build_request (rt := Reference.runtime) regional_client "post"
      "projects/p/locations/l/models/m:generateContent" [] None
    = _build_request (rt := Reference.runtime) regional_client "post"
        "models/m:generateContent" [] None /\
    _build_request (rt := Reference.runtime) regional_client "post"
      "models/m:generateContent" [] None = Ok r /\
    req_url r
    = "https://l-aiplatform.googleapis.com/v1beta1/projects/p/locations/l/models/m:generateContent".
Proof.
  eexists. split.
  - apply (build_request_qualified_path (rt := Reference.runtime)
             regional_client "post" "models/m:generateContent" [] None);
      reflexivity.
  - split; [vm_compute; reflexivity | reflexivity].
Defined.

Lemma init_default_options `{rt : Runtime} amb vx mg ka cr pa la c :
  BaseApiClient__init__ amb vx mg ka cr pa la None = Ok c ->
  truthy_opt_str (base_url (_http_options c)) = true /\
  timeout (_http_options c) = None /\
  exists h, headers (_http_options c) = Some h.
Proof.
  intros H. init_invert H. injection H as <-.
  cbn [_http_options truthy_http_options base_url timeout headers].
  split; [|split; [reflexivity | eexists; reflexivity]].
  cbn [truthy_opt_str].
  destruct (truthy_opt_bool _) in Hfields.
  - match type of Hfields with
    | context [if match cr with Some _ => true | None => false end
               then ?A else ?B] =>
        destruct (if match cr with Some _ => true | None => false end
                  then A else B) as [[p1 l1] k1]
    end.
    match type of Hfields with
    | bind ?L _ = _ => destruct L as [[p2 c2]|]; [|discriminate Hfields]
    end.
    cbn [bind fst snd] in Hfields.
    destruct (negb _) in Hfields; [discriminate Hfields|].
    destruct (truthy_opt_bool _) in Hfields;
      [destruct (negb _) in Hfields; [discriminate Hfields|]|];
      injection Hfields as <- <- <- <- <- <-;
      match goal with
      | |- context [if ?b then _ else _] => destruct b; reflexivity
      end.
  - destruct (negb _) in Hfields; [discriminate Hfields|].
    injection Hfields as <- <- <- <- <- <-. reflexivity.
Qed.

(** X23. A client constructed without options has a base URL, and the only
    way [_build_request] fails for it is [urlparse] refusing this base URL:
    then it raises what [urlparse] raises; otherwise no method, path or body
    makes it fail, the request carries the headers of the client and has no
    timeout. *)
Theorem constructed_client_builds_requests `{rt : Runtime} :
  forall amb vertexai_arg modelgarden_arg api_key_arg credentials project_arg
         location_arg c http_method path request_dict,
    BaseApiClient__init__ amb vertexai_arg modelgarden_arg api_key_arg
      credentials project_arg location_arg None = Ok c ->
    exists url,
      base_url (_http_options c) = Some url /\
      match urlparse url with
      | Ok _ =>
          exists r,
            _build_request c http_method path request_dict None = Ok r /\
            req_method r = http_method /\
            req_timeout r = None /\
            Some (req_headers r) = headers (_http_options c)
      | Raise e =>
          _build_request c http_method path request_dict None = Raise e
      end.
Proof.
  intros amb vx mg ka cr pa la c m p d H.
  destruct (init_default_options amb vx mg ka cr pa la c H)
    as (Hurl & Htimeout & h & Hh).
  destruct (base_url (_http_options c)) as [url|] eqn:Hbase;
    [|discriminate Hurl].
  exists url. split; [reflexivity|].
  unfold _build_request. cbn [truthy_http_options bind].
  rewrite Hbase, Hurl, Hh, Htimeout. cbn [negb option_map].
  change (default EmptyString (Some url)) with url.
  unfold _join_url_path.
  destruct (urlparse url) as [parsed|e]; cbn [bind _get_timeout_in_seconds];
    [|reflexivity].
  eexists. split; [reflexivity|]. split; [reflexivity|].
  split; reflexivity.
Qed.

Lemma constructed_client_builds_requests_witness :
  exists c r,
    BaseApiClient__init__ (rt := Reference.runtime) bare_environment
      None None (Some "k") None None None None = Ok c /\
    _build_request (rt := Reference.runtime) c "post"
      "models/m:generateContent" [] None = Ok r /\
    req_method r = "post" /\
    req_timeout r = None /\
    Some (req_headers r) = headers (_http_options c).
Proof.
  eexists.
  destruct (constructed_client_builds_requests (rt := Reference.runtime)
              bare_environment None None (Some "k") None None None _
              "post" "models/m:generateContent" [] eq_refl)
    as (url & Hurl & Hcase).
  cbn [urlparse Reference.runtime] in Hcase.
  destruct Hcase as (r & Hr). exists r. split; [reflexivity | exact Hr].
Defined.

(** ** Uploads of any size *)

Lemma upload_offset_next (block i : nat) (file : list byte) :
  Z.of_nat (length (take (i * block) file))
  + Z.of_nat (length (take block (drop (i * block) file)))
  = Z.of_nat (length (take (S i * block) file)).
Proof.
  rewrite !length_take, length_drop. cbn [Nat.mul]. lia.
Qed.

Lemma upload_drop_next (block i : nat) (file : list byte) :
  drop block (drop (i * block) file) = drop (S i * block) file.
Proof.
  rewrite drop_drop. cbn [Nat.mul]. f_equal. lia.
Qed.

Lemma upload_loop_requests :
  forall block self server url upload_size ho (file : list byte) t,
    upload_timeout_in_seconds self ho = Ok t ->
    forall fuel i sent r,
      upload_loop block fuel self server url upload_size ho
        (drop (i * block) file) (Z.of_nat (length (take (i * block) file)))
        (map (upload_request_at block url upload_size t file) (seq 0 i))
      = Some (sent, r) ->
      exists n,
        (i < n)%nat /\
        sent = map (upload_request_at block url upload_size t file) (seq 0 n) /\
        (forall j, (i <= j)%nat -> (S j < n)%nat ->
           upload_command (upload_request_at block url upload_size t file j)
             = "upload" /\
           upload_status
             (server j (upload_request_at block url upload_size t file j))
             = Some "active") /\
        ((exists response, r = Ok response) <->
           upload_status
             (server (n - 1)%nat
                (upload_request_at block url upload_size t file (n - 1)%nat))
           = Some "final").
Proof.
  intros block self server url size ho file t Ht.
  set (request := upload_request_at block url size t file).
  induction fuel as [|fuel IH]; intros i sent r H; [discriminate H|].
  cbn [upload_loop] in H. rewrite Ht in H.
  rewrite length_map, length_seq in H.
  change {| upload_url := url;
            upload_command :=
              if size <=? Z.of_nat (length (take block (drop (i * block) file)))
                          + Z.of_nat (length (take (i * block) file))
              then "upload" +:+ ", finalize" else "upload";
            upload_offset := Z.of_nat (length (take (i * block) file));
            content_length := Z.of_nat (length (take block (drop (i * block) file)));
            content := take block (drop (i * block) file);
            upload_timeout := t |} with (request i) in H.
  assert (Hsnoc : (map request (seq 0 i) ++ [request i])%list
                  = map request (seq 0 (S i)))
    by (rewrite seq_S, map_app; reflexivity).
  rewrite Hsnoc in H.
  assert (Hlast : (S i - 1)%nat = i) by lia.
  destruct (upload_status (server i (request i))) as [status|] eqn:Hstatus.
  - destruct (String.eqb_spec status "active") as [->|Hactive]; cbn [negb] in H.
    + rewrite upload_offset_next in H.
      destruct (size <=? Z.of_nat (length (take (S i * block) file))) eqn:Hdone.
      * injection H as <- <-. exists (S i). split; [lia|]. split; [reflexivity|].
        split; [intros j Hj1 Hj2; lia|]. rewrite Hlast, Hstatus.
        split; [intros [? ?]; discriminate | discriminate].
      * rewrite upload_drop_next in H.
        destruct (IH (S i) sent r H) as (n & Hn & Hsent & Hbefore & Hfinal).
        exists n. split; [lia|]. split; [exact Hsent|]. split; [|exact Hfinal].
        intros j Hj1 Hj2. destruct (Nat.eq_dec j i) as [->|Hne].
        -- split; [|exact Hstatus]. unfold request, upload_request_at.
           cbn [upload_command]. rewrite Z.add_comm, upload_offset_next, Hdone.
           reflexivity.
        -- apply Hbefore; lia.
    + destruct (String.eqb_spec status "final") as [->|Hfinal]; cbn [negb] in H;
        injection H as <- <-; exists (S i); (split; [lia|]);
        (split; [reflexivity|]); (split; [intros j Hj1 Hj2; lia|]);
        rewrite Hlast, Hstatus.
      * split; [reflexivity | eexists; reflexivity].
      * split; [intros [? ?]; discriminate | congruence].
  - injection H as <- <-. exists (S i). split; [lia|]. split; [reflexivity|].
    split; [intros j Hj1 Hj2; lia|]. rewrite Hlast, Hstatus.
    split; [intros [? ?]; discriminate | discriminate].
Qed.

(** X24. Whatever the size of the file and whatever the server answers, the
    POSTs of an upload that has ended carry the blocks of the file in order,
    each at the offset where the one before it ended; every POST but the
    last was a plain [upload] answered [active], so nothing is sent after a
    POST that finalizes; and the call answers a response exactly when the
    last status is [final]. *)
Theorem upload_posts_in_order :
  forall block fuel self server url upload_size http_options (file : list byte)
         t sent r,
    upload_timeout_in_seconds self http_options = Ok t ->
    upload_loop block fuel self server url upload_size http_options file 0 []
      = Some (sent, r) ->
    let request := upload_request_at block url upload_size t file in
    exists n,
      (0 < n)%nat /\
      sent = map request (seq 0 n) /\
      (forall j, (S j < n)%nat ->
         upload_command (request j) = "upload" /\
         upload_status (server j (request j)) = Some "active") /\
      ((exists response, r = Ok response) <->
         upload_status (server (n - 1)%nat (request (n - 1)%nat)) = Some "final").
Proof.
  intros block fuel self server url size ho file t sent r Ht H request.
  destruct (upload_loop_requests block self server url size ho file t Ht
              fuel 0%nat sent r H) as (n & Hn & Hsent & Hbefore & Hfinal).
  exists n. split; [exact Hn|]. split; [exact Hsent|]. split; [|exact Hfinal].
  intros j Hj. apply Hbefore; [lia | exact Hj].
Qed.

Lemma upload_posts_in_order_witness :
  exists sent r,
    upload_loop 2 3 direct_client finalizing_server "https://upload.example/"
      3 None three_bytes 0 [] = Some (sent, r) /\
    let request :=
      upload_request_at 2 "https://upload.example/" 3 None three_bytes in
    exists n,
      (0 < n)%nat /\
      sent = map request (seq 0 n) /\
      (forall j, (S j < n)%nat ->
         upload_command (request j) = "upload" /\
         upload_status (finalizing_server j (request j)) = Some "active") /\
      ((exists response, r = Ok response) <->
         upload_status (finalizing_server (n - 1)%nat (request (n - 1)%nat))
         = Some "final").
Proof.
  eexists. eexists. split; [reflexivity|].
  apply (upload_posts_in_order 2 3 direct_client finalizing_server
           "https://upload.example/" 3 None three_bytes None);
    reflexivity.
Defined.




(** ** Replayed and live streams *)

(** X26. A replayed or buffered stream decodes like the live one when no
    chunk is empty and none starts with the marker [data: ]. *)
Theorem segments_replay_as_live :
  forall json_loads utf8_decode (chunks : list string),
    Forall (fun chunk => truthy_str chunk = true /\
                         String.prefix DATA_PREFIX chunk = false) chunks ->
    segments json_loads utf8_decode (StreamList chunks)
    = segments json_loads utf8_decode (StreamLines (map LineStr chunks)).
Proof.
  intros json_loads utf8_decode chunks Hall. cbn [segments].
  induction Hall as [|chunk rest [Hne Hpre] _ IH]; [reflexivity|].
  cbn [segments_list segments_lines map]. unfold decode_line.
  rewrite Hne. cbn beta iota zeta delta [bind]. rewrite Hpre.
  destruct (json_loads chunk); cbn beta iota zeta delta [bind]; [|reflexivity].
  rewrite IH. reflexivity.
Qed.

Lemma segments_replay_as_live_witness :
  segments Json.loads Json.decode_ascii (StreamList ["1"; "[2]"])
  = segments Json.loads Json.decode_ascii
      (StreamLines (map LineStr ["1"; "[2]"])).
Proof.
  apply (segments_replay_as_live Json.loads Json.decode_ascii ["1"; "[2]"]).
  repeat constructor.
Defined.

(** ** The input encoder, whatever the input *)

Section LiveFacts.
Context {md : Models}.

Lemma function_responses_input_each (vertex : bool) (input : pyval) :
  forall items frs,
    function_responses_input vertex input items = Ok frs ->
    Forall2
      (fun item fr =>
         exists d f,
           item = PDict d /\ construct FunctionResponse d = Some f /\
           fr = PDict
                  (if truthy (dict_get (model_dump FunctionResponse f) "id")
                   then
                     [("name", dict_get (model_dump FunctionResponse f) "name");
                      ("response",
                       dict_get (model_dump FunctionResponse f) "response");
                      ("id", dict_get (model_dump FunctionResponse f) "id")]
                   else
                     [("name", dict_get (model_dump FunctionResponse f) "name");
                      ("response",
                       dict_get (model_dump FunctionResponse f) "response")]) /\
           (vertex = false -> is_None (dict_get f "id") = false))
      (List.filter is_dict items) frs.
Proof.
  induction items as [|item rest IH]; intros frs H; cbn [function_responses_input] in H.
  - injection H as <-. constructor.
  - destruct item; cbn [List.filter is_dict]; try (apply IH; exact H).
    destruct (construct FunctionResponse d) as [f|] eqn:Hf; [|discriminate H].
    destruct (is_None (dict_get f "id") && negb vertex) eqn:Hid; [discriminate H|].
    destruct (function_responses_input vertex input rest) as [r|] eqn:Hr;
      [|discriminate H].
    cbn [bind] in H. injection H as <-. constructor; [|apply IH; reflexivity].
    exists d, f. split; [reflexivity|]. split; [exact Hf|]. split; [reflexivity|].
    intros ->. rewrite andb_true_r in Hid. exact Hid.
Qed.

(** X27. A list that holds a function response dict is sent as the message
    whose one key is [tool_response], holding under [function_responses] one
    function response for every dict of the list, in order: its name, its
    response, and its id when the validated response has one; items that
    are not dicts are dropped, and for a client that is not a Vertex AI
    client every response has an id. *)
Theorem function_responses_only :
  forall self items end_of_turn m,
    existsb is_function_response_dict items = true ->
    _parse_client_message self (PList items) end_of_turn = Ok m ->
    exists frs,
      m = PDict [("tool_response", PDict [("function_responses", PList frs)])] /\
      Forall2
        (fun item fr =>
           exists d f,
             item = PDict d /\ construct FunctionResponse d = Some f /\
             fr = PDict
                    (if truthy (dict_get (model_dump FunctionResponse f) "id")
                     then
                       [("name", dict_get (model_dump FunctionResponse f) "name");
                        ("response",
                         dict_get (model_dump FunctionResponse f) "response");
                        ("id", dict_get (model_dump FunctionResponse f) "id")]
                     else
                       [("name", dict_get (model_dump FunctionResponse f) "name");
                        ("response",
                         dict_get (model_dump FunctionResponse f) "response")]) /\
             (truthy_opt_bool (vertexai self) = false ->
              is_None (dict_get f "id") = false))
        (List.filter is_dict items) frs.
Proof.
  intros self items e m Hex H. unfold _parse_client_message in H.
  assert (Htruthy : truthy (PList items) = true)
    by (destruct items; [discriminate Hex | reflexivity]).
  rewrite Htruthy in H. cbn [negb format_input bind sequence_items] in H.
  rewrite Hex in H.
  destruct (function_responses_input _ _ items) as [frs|] eqn:Hfrs;
    [|discriminate H].
  cbn [bind] in H. injection H as <-. exists frs. split; [reflexivity|].
  apply (function_responses_input_each _ _ _ _ Hfrs).
Qed.

Ltac step H :=
  match type of H with
  | bind ?x _ = Ok _ => destruct x eqn:?; [cbn [bind] in H | discriminate H]
  | (if ?b then _ else _) = Ok _ => destruct b eqn:?
  | match ?x with _ => _ end = Ok _ => destruct x eqn:?
  end.

Ltac kind_done H :=
  injection H as <-; eexists;
  first [ left; reflexivity | right; left; reflexivity | right; right; reflexivity ].

(** X28. Whatever the input, a message that the encoder answers has exactly
    one key, and it is [client_content], [realtime_input] or
    [tool_response]. *)
Theorem parse_client_message_kind :
  forall self input end_of_turn m,
    _parse_client_message self input end_of_turn = Ok m ->
    is_client_message m.
Proof.
  intros self input e m H. unfold _parse_client_message in H.
  destruct (negb (truthy input)); [kind_done H|].
  destruct (format_input _ input) as [formatted|]; [|discriminate H].
  cbn [bind] in H.
  destruct (sequence_items formatted) as [items|].
  - destruct (existsb is_function_response_dict items).
    + step H. kind_done H.
    + destruct (existsb is_str items).
      * unfold client_content_of_sequence in H.
        repeat step H. kind_done H.
      * unfold realtime_input_of_sequence in H.
        repeat step H; try discriminate H; kind_done H.
  - destruct formatted; try discriminate H.
    + unfold message_of_dict in H.
      repeat step H; try discriminate H; kind_done H.
    + destruct cls; try discriminate H.
      all: unfold message_of_realtime_input, message_of_tool_response,
             message_of_function_response in H.
      all: repeat step H; try discriminate H; kind_done H.
Qed.

End LiveFacts.

Lemma function_responses_only_witness :
  exists frs,
    _parse_client_message (md := Reference.models) vertex_client
      (PList note_and_response) (Some true)
    = Ok (PDict [("tool_response", PDict [("function_responses", PList frs)])]) /\
    frs = [PDict [("name", PStr "get_weather");
                  ("response", PDict [("celsius", PInt 21)])]] /\
    Forall2
      (fun item fr =>
         exists d f,
           item = PDict d /\
           construct (Models := Reference.models) FunctionResponse d = Some f /\
           fr = PDict
                  (if truthy
                        (dict_get
                           (model_dump (Models := Reference.models)
                              FunctionResponse f) "id")
                   then
                     [("name",
                       dict_get
                         (model_dump (Models := Reference.models)
                            FunctionResponse f) "name");
                      ("response",
                       dict_get
                         (model_dump (Models := Reference.models)
                            FunctionResponse f) "response");
                      ("id",
                       dict_get
                         (model_dump (Models := Reference.models)
                            FunctionResponse f) "id")]
                   else
                     [("name",
                       dict_get
                         (model_dump (Models := Reference.models)
                            FunctionResponse f) "name");
                      ("response",
                       dict_get
                         (model_dump (Models := Reference.models)
                            FunctionResponse f) "response")]) /\
           (truthy_opt_bool (vertexai vertex_client) = false ->
            is_None (dict_get f "id") = false))
      (List.filter is_dict note_and_response) frs.
Proof.
  destruct (function_responses_only (md := Reference.models) vertex_client
              note_and_response (Some true) _ eq_refl eq_refl)
    as (frs & Hm & Hall).
  exists frs. injection Hm as <-.
  split; [reflexivity|]. split; [reflexivity | exact Hall].
Defined.

Lemma parse_client_message_kind_witness :
  is_client_message
    (client_content_message
       [("turns", PList [text_turn "hi"]); ("turn_complete", PBool true)]).
Proof.
  apply (parse_client_message_kind (md := Reference.models) direct_client
           (PStr "hi") (Some true)).
  reflexivity.
Defined.

(** ** Contents *)

Section TransformerFacts.
Context {md : Models}.

Lemma t_content_is_Content content c :
  t_content content = Ok c -> exists f, c = PObj Content f.
Proof.
  unfold t_content. destruct (negb (truthy content)); [discriminate|].
  destruct content;
    try (destruct (t_parts _); cbn [bind]; [|discriminate];
         destruct (construct Content _); [|discriminate];
         intros H; injection H as <-; eexists; reflexivity).
  - destruct (construct Content d); [|discriminate].
    intros H; injection H as <-; eexists; reflexivity.
  - destruct cls;
      try (destruct (t_parts _); cbn [bind]; [|discriminate];
           destruct (construct Content _); [|discriminate];
           intros H; injection H as <-; eexists; reflexivity).
    intros H; injection H as <-; eexists; reflexivity.
Qed.

Lemma map_result_t_content l cs :
  map_result t_content l = Ok cs ->
  length cs = length l /\ map_result t_content cs = Ok cs.
Proof.
  revert cs. induction l as [|x l IH]; intros cs H; cbn [map_result] in H.
  - injection H as <-. split; reflexivity.
  - destruct (t_content x) as [c|] eqn:Hc; [|discriminate H]. cbn [bind] in H.
    destruct (map_result t_content l) as [ys|] eqn:Hys; [|discriminate H].
    cbn [bind] in H. injection H as <-.
    destruct (IH ys eq_refl) as [Hlen Hagain].
    split; [cbn [length]; lia|].
    destruct (t_content_is_Content x c Hc) as [f ->].
    cbn [map_result]. rewrite Hagain. reflexivity.
Qed.

(** X29. Contents that [t_contents] answered pass through it unchanged. *)
Theorem t_contents_idempotent :
  forall contents cs,
    t_contents contents = Ok cs -> t_contents (PList cs) = Ok cs.
Proof.
  intros contents cs H. unfold t_contents in H.
  destruct (truthy contents) eqn:Htruthy; [|discriminate H]. cbn [negb] in H.
  assert (Hlist : map_result t_content cs = Ok cs /\ cs <> []).
  { destruct contents;
      try (destruct (t_content _) as [c|] eqn:Hc; [|discriminate H];
           cbn [bind] in H; injection H as <-;
           destruct (t_content_is_Content _ c Hc) as [f ->];
           split; [reflexivity | discriminate]).
    destruct (map_result_t_content l cs H) as [Hlen Hagain].
    split; [exact Hagain|]. intros ->. destruct l; discriminate. }
  destruct Hlist as [Hagain Hne]. unfold t_contents.
  destruct cs as [|c cs']; [contradiction|]. exact Hagain.
Qed.

End TransformerFacts.

Lemma t_contents_idempotent_witness :
  t_contents (md := Reference.models) (PList [text_content "hi"])
  = Ok [text_content "hi"].
Proof.
  apply (t_contents_idempotent (md := Reference.models) (PStr "hi")).
  reflexivity.
Defined.
